(** * The hybrid decision engine of the workflow simulations

    A shallow embedding of the three advisory-plus-rules evaluators of the
    repository:

    - [FraudAnalyzer]  (fraud_detection_system/fraud_analyzer.py),
    - [CreditScoring]  (loan_application_processing/credit_scoring.py),
    - [LLMScreening]   (20250207_bank_payment_cursor/llm_screening.py),

    and of the code of the three applications that calls them
    ([FraudDetection], [Payment], [LoanApplication]), followed by the
    properties of the engine that the specification states and by further
    properties of the code.

    Conventions of the embedding.

    - Python numbers are modelled by value: a float is the rational it
      denotes (or an infinity, or NaN), an int is the same rational; the
      arithmetic of the rule engine only ever produces multiples of one half
      far below 2^53, for which binary floating point is exact.
    - Python strings are sequences of characters with code points below 256.
    - A dict is an association list in insertion order.
    - Exceptions are values: a function that can raise returns [result].
    - What the Python standard library and the interpreter provide
      (JSON decoding, number parsing and formatting, ISO timestamps) is a
      parameter [PyLib] of the engine; [Ref] gives executable instances used
      on concrete inputs.
    - The clock and the advisory endpoint are explicit inputs ([world]),
      and so are the draws of the random number generator and the power
      [x ** n] of the monthly payment. *)

From Stdlib Require Import ZArith QArith Qround Qminmax String Ascii List Bool Lia Lqa.
From Stdlib Require Import Qabs DecimalString.
Import ListNotations.

Set Warnings "-register-all".

Open Scope string_scope.
Open Scope Z_scope.

(** ** Python values and builtins *)

Module Py.

(** A float by value. *)
Inductive pyfloat : Type :=
| Fin (q : Q)
| PosInf
| NegInf
| NaN.

Definition fzero : pyfloat := Fin 0.

(** [a < b] on floats; every comparison with NaN is false. *)
Definition flt (a b : pyfloat) : bool :=
  match a, b with
  | NaN, _ | _, NaN => false
  | Fin x, Fin y => negb (Qle_bool y x)
  | NegInf, NegInf => false
  | NegInf, _ => true
  | _, NegInf => false
  | PosInf, _ => false
  | Fin _, PosInf => true
  end.

(** [a <= b]. *)
Definition fle (a b : pyfloat) : bool :=
  match a, b with
  | NaN, _ | _, NaN => false
  | Fin x, Fin y => Qle_bool x y
  | NegInf, _ => true
  | _, NegInf => false
  | _, PosInf => true
  | PosInf, Fin _ => false
  end.

(** [a >= b]. *)
Definition fge (a b : pyfloat) : bool := fle b a.

(** [a == b]. *)
Definition feq (a b : pyfloat) : bool :=
  match a, b with
  | Fin x, Fin y => Qeq_bool x y
  | PosInf, PosInf | NegInf, NegInf => true
  | _, _ => false
  end.

Definition fadd (a b : pyfloat) : pyfloat :=
  match a, b with
  | NaN, _ | _, NaN => NaN
  | Fin x, Fin y => Fin (x + y)
  | PosInf, NegInf | NegInf, PosInf => NaN
  | PosInf, _ | _, PosInf => PosInf
  | NegInf, _ | _, NegInf => NegInf
  end.

(** Sign of a rational: -1, 0 or 1. *)
Definition Qsgn (q : Q) : Z := Z.sgn (Qnum q).

Definition finf_of_sign (s : Z) : pyfloat :=
  if s =? 0 then NaN else if s >? 0 then PosInf else NegInf.

Definition fsign (a : pyfloat) : Z :=
  match a with
  | Fin q => Qsgn q
  | PosInf => 1
  | NegInf => -1
  | NaN => 0
  end.

Definition fmul (a b : pyfloat) : pyfloat :=
  match a, b with
  | NaN, _ | _, NaN => NaN
  | Fin x, Fin y => Fin (x * y)
  | _, _ => finf_of_sign (fsign a * fsign b)
  end.

(** Division by a positive constant ([x / 2]). *)
Definition fdiv_const (a : pyfloat) (c : Q) : pyfloat :=
  match a with
  | Fin x => Fin (x / c)
  | other => other
  end.

(** [a % m] for a positive constant [m]: the result takes the sign of [m];
    the remainder of an infinity or of NaN is NaN. *)
Definition fmod_const (a : pyfloat) (m : Q) : pyfloat :=
  match a with
  | Fin x => Fin (x - m * inject_Z (Qfloor (x / m)))
  | _ => NaN
  end.

(** [min(a, b)] and [max(a, b)] of two arguments: the first argument is kept
    unless the second is strictly smaller (larger). *)
Definition py_min (a b : pyfloat) : pyfloat := if flt b a then b else a.
Definition py_max (a b : pyfloat) : pyfloat := if flt a b then b else a.

(** Values. [PNum] holds ints and floats alike. *)
Inductive pyval : Type :=
| PNone
| PBool (b : bool)
| PNum (x : pyfloat)
| PStr (s : string)
| PList (l : list pyval)
| PDict (d : list (string * pyval)).

Definition dict : Type := list (string * pyval).

Definition PInt (z : Z) : pyval := PNum (Fin (inject_Z z)).
Definition PQ (q : Q) : pyval := PNum (Fin q).

(** Exceptions, by cause. *)
Inductive pyexn : Type :=
| ExFloat (v : pyval)                 (* float(v) failed *)
| ExInt (v : pyval)                   (* int(v) failed *)
| ExAttr (v : pyval) (attr : string)  (* v has no such attribute *)
| ExFormat (v : pyval) (spec : string)(* format(v, spec) failed *)
| ExKey (k : string)                  (* d[k] on a missing key *)
| ExType (v : pyval)                  (* operation not supported by v *)
| ExJSON (text : string)              (* json.JSONDecodeError *)
| ExValue (msg : string)              (* ValueError raised by the code *)
| ExRequest (detail : string)         (* requests.exceptions.RequestException *)
| ExOther (detail : string).          (* any other Exception *)

Inductive result (A : Type) : Type :=
| Ok (a : A)
| Raise (e : pyexn).
Arguments Ok {A} a.
Arguments Raise {A} e.

Definition bind {A B : Type} (m : result A) (k : A -> result B) : result B :=
  match m with
  | Ok a => k a
  | Raise e => Raise e
  end.

Definition is_request_exception (e : pyexn) : bool :=
  match e with
  | ExRequest _ => true
  | _ => false
  end.

Definition is_json_decode_error (e : pyexn) : bool :=
  match e with
  | ExJSON _ => true
  | _ => false
  end.

(** *** dict operations *)

Fixpoint dict_get (k : string) (d : dict) : option pyval :=
  match d with
  | [] => None
  | (k', v) :: d' => if String.eqb k k' then Some v else dict_get k d'
  end.

(** [d.get(k, default)] *)
Definition get (d : dict) (k : string) (default : pyval) : pyval :=
  match dict_get k d with
  | Some v => v
  | None => default
  end.

(** [k in d] *)
Definition has_key (k : string) (d : dict) : bool :=
  match dict_get k d with
  | Some _ => true
  | None => false
  end.

(** [d[k] = v]: an existing key keeps its place, a new one goes last. *)
Fixpoint dict_set (k : string) (v : pyval) (d : dict) : dict :=
  match d with
  | [] => [(k, v)]
  | (k', v') :: d' =>
      if String.eqb k k' then (k', v) :: d' else (k', v') :: dict_set k v d'
  end.

(** [d.update(u)] *)
Definition dict_update (d u : dict) : dict :=
  fold_left (fun acc kv => dict_set (fst kv) (snd kv) acc) u d.

(** [d[k]] *)
Definition subscript (d : dict) (k : string) : result pyval :=
  match dict_get k d with
  | Some v => Ok v
  | None => Raise (ExKey k)
  end.

(** *** truth, equality with a string literal, hashing *)

Definition truthy (v : pyval) : bool :=
  match v with
  | PNone => false
  | PBool b => b
  | PNum x => negb (feq x fzero)
  | PStr s => negb (String.eqb s EmptyString)
  | PList l => match l with [] => false | _ => true end
  | PDict d => match d with [] => false | _ => true end
  end.

(** [v == 'literal'] *)
Definition eq_str (v : pyval) (s : string) : bool :=
  match v with
  | PStr t => String.eqb t s
  | _ => false
  end.

(** [v in ['a', 'b', ...]] for a list of string literals *)
Definition in_strs (v : pyval) (l : list string) : bool :=
  existsb (eq_str v) l.

(** Lists and dicts cannot be put in a set. *)
Definition hashable (v : pyval) : bool :=
  match v with
  | PList _ | PDict _ => false
  | _ => true
  end.

(** The number behind a numeric value ([bool] is a number in Python). *)
Definition as_num (v : pyval) : option pyfloat :=
  match v with
  | PNum x => Some x
  | PBool b => Some (Fin (if b then 1 else 0))
  | _ => None
  end.

(** [==] on hashable values. *)
Definition eq_scalar (a b : pyval) : bool :=
  match a, b with
  | PNone, PNone => true
  | PStr s, PStr t => String.eqb s t
  | PStr _, _ | _, PStr _ => false
  | _, _ =>
      match as_num a, as_num b with
      | Some x, Some y => feq x y
      | _, _ => false
      end
  end.

(** [list(set(l))]: raises on an unhashable item.  The iteration order of a
    Python set is unspecified; the model keeps first occurrences in order. *)
Fixpoint dedup (l : list pyval) : list pyval :=
  match l with
  | [] => []
  | x :: l' => x :: filter (fun y => negb (eq_scalar x y)) (dedup l')
  end.

Definition list_of_set (l : list pyval) : result (list pyval) :=
  match List.find (fun v => negb (hashable v)) l with
  | Some v => Raise (ExType v)
  | None => Ok (dedup l)
  end.

(** *** string methods *)

Definition is_space (c : ascii) : bool :=
  let n := Z.of_nat (nat_of_ascii c) in
  ((9 <=? n) && (n <=? 13)) || ((28 <=? n) && (n <=? 32))
  || (n =? 133) || (n =? 160).

Fixpoint lstrip (s : string) : string :=
  match s with
  | EmptyString => EmptyString
  | String c s' => if is_space c then lstrip s' else s
  end.

Fixpoint rstrip (s : string) : string :=
  match s with
  | EmptyString => EmptyString
  | String c s' =>
      match rstrip s' with
      | EmptyString => if is_space c then EmptyString else String c EmptyString
      | t => String c t
      end
  end.

Definition strip (s : string) : string := rstrip (lstrip s).

Definition len (s : string) : Z := Z.of_nat (String.length s).

Definition startswith (s p : string) : bool := String.prefix p s.

Fixpoint drop (n : nat) (s : string) : string :=
  match n, s with
  | O, _ => s
  | S n', String _ s' => drop n' s'
  | S _, EmptyString => EmptyString
  end.

Fixpoint take (n : nat) (s : string) : string :=
  match n, s with
  | O, _ => EmptyString
  | S n', String c s' => String c (take n' s')
  | S _, EmptyString => EmptyString
  end.

Definition endswith (s p : string) : bool :=
  (String.length p <=? String.length s)%nat
  && String.eqb (drop (String.length s - String.length p) s) p.

(** A slice bound as Python normalises it: negative counts from the end,
    then clamped to the string. *)
Definition clamp_index (i : Z) (s : string) : nat :=
  let n := len s in
  let j := if i <? 0 then i + n else i in
  Z.to_nat (Z.max 0 (Z.min j n)).

(** [s[i:]] and [s[:j]] *)
Definition slice_from (i : Z) (s : string) : string := drop (clamp_index i s) s.
Definition slice_to (j : Z) (s : string) : string := take (clamp_index j s) s.

(** [s.find(sub)]: lowest index of [sub] in [s], or -1. *)
Fixpoint find_at (sub s : string) (i : Z) : Z :=
  if String.prefix sub s then i
  else match s with
       | EmptyString => -1
       | String _ s' => find_at sub s' (i + 1)
       end.
Definition find (s sub : string) : Z := find_at sub s 0.

(** [s.rfind(sub)]: highest index of [sub] in [s], or -1. *)
Fixpoint rfind_at (sub s : string) (i : Z) : Z :=
  match s with
  | EmptyString => if String.prefix sub s then i else -1
  | String _ s' =>
      let r := rfind_at sub s' (i + 1) in
      if 0 <=? r then r else if String.prefix sub s then i else -1
  end.
Definition rfind (s sub : string) : Z := rfind_at sub s 0.

(** [sub in s] *)
Definition contains (s sub : string) : bool := 0 <=? find s sub.

Definition lower_char (c : ascii) : ascii :=
  let n := nat_of_ascii c in
  if ((65 <=? n) && (n <=? 90))%nat
     || ((192 <=? n) && (n <=? 222) && negb (n =? 215))%nat
  then ascii_of_nat (n + 32) else c.

Fixpoint lower (s : string) : string :=
  match s with
  | EmptyString => EmptyString
  | String c s' => String (lower_char c) (lower s')
  end.

Definition upper_char (c : ascii) : ascii :=
  let n := nat_of_ascii c in
  if ((97 <=? n) && (n <=? 122))%nat
     || ((224 <=? n) && (n <=? 254) && negb (n =? 247))%nat
  then ascii_of_nat (n - 32) else c.

(** [s.replace(old, new)] for a one-character [old]. *)
Fixpoint replace_char (old : ascii) (new : string) (s : string) : string :=
  match s with
  | EmptyString => EmptyString
  | String c s' =>
      if Ascii.eqb c old then new ++ replace_char old new s'
      else String c (replace_char old new s')
  end.

(** [sep.join(l)] *)
Fixpoint join (sep : string) (l : list string) : string :=
  match l with
  | [] => EmptyString
  | [x] => x
  | x :: l' => x ++ sep ++ join sep l'
  end.

End Py.

Import Py.

Declare Scope py_scope.
Delimit Scope py_scope with py.
Notation "x <- m ;; k" := (bind m (fun x => k))
  (at level 61, m at next level, right associativity) : py_scope.
Notation "' pat <- m ;; k" := (bind m (fun x => match x with pat => k end))
  (at level 61, pat pattern, m at next level, right associativity) : py_scope.
Open Scope py_scope.

(** ** What the interpreter and its libraries provide *)

(** A [datetime] object, by the observations the engine makes of it. *)
Record datetime : Type := {
  hour : Z;            (* .hour, 0..23 *)
  weekday : Z;         (* .weekday(), Monday = 0 .. Sunday = 6 *)
  isoformat : string   (* .isoformat() *)
}.

Record PyLib : Type := {
  (* json.loads(text); None stands for json.JSONDecodeError *)
  json_loads : string -> option pyval;
  (* float(text) and int(text) on a str; None stands for ValueError *)
  float_of_str : string -> option pyfloat;
  int_of_str : string -> option Z;
  (* datetime.fromisoformat(text); None stands for ValueError *)
  fromisoformat : string -> option datetime;
  (* format(x, spec) for a number and the specs ',.2f', '.1f', '.2f' *)
  fmt_float : string -> pyfloat -> string;
  (* format(n, '02d') *)
  fmt_02d : Z -> string;
  (* str(v) and str(e) *)
  str_of : pyval -> string;
  str_exn : pyexn -> string
}.

(** The advisory endpoint and the clock, as the evaluation meets them. *)
Inductive http_outcome : Type :=
| Reply (status_code : Z) (text : string)   (* requests.post returned *)
| Fails (e : pyexn).                        (* requests.post raised *)

Record world : Type := {
  endpoint : string -> nat -> http_outcome;
                         (* outcome of the n-th request, given its prompt *)
  clock : nat -> datetime          (* n-th reading of datetime.now() *)
}.

(** What an evaluation did to the outside: requests sent, seconds slept. *)
Record io : Type := {
  requests_sent : nat;
  slept : Z
}.

Definition io0 : io := {| requests_sent := 0; slept := 0 |}.

(** [requests.post(...)] was called once more. *)
Definition send (st : io) : io :=
  {| requests_sent := S (requests_sent st); slept := slept st |}.

(** [time.sleep(seconds)] *)
Definition sleep (seconds : Z) (st : io) : io :=
  {| requests_sent := requests_sent st; slept := slept st + seconds |}.

Section Builtins.
Variable lib : PyLib.

(** [float(v)] *)
Definition py_float (v : pyval) : result pyfloat :=
  match v with
  | PNum x => Ok x
  | PBool b => Ok (Fin (if b then 1 else 0))
  | PStr s =>
      match float_of_str lib s with
      | Some x => Ok x
      | None => Raise (ExFloat v)
      end
  | _ => Raise (ExFloat v)
  end.

(** [int(v)]: truncation toward zero; infinities and NaN raise. *)
Definition py_int (v : pyval) : result Z :=
  match v with
  | PNum (Fin q) => Ok (Z.quot (Qnum q) (Zpos (Qden q)))
  | PBool b => Ok (if b then 1 else 0)
  | PStr s =>
      match int_of_str lib s with
      | Some z => Ok z
      | None => Raise (ExInt v)
      end
  | _ => Raise (ExInt v)
  end.

(** [format(v, spec)] with a float presentation type. *)
Definition py_format (spec : string) (v : pyval) : result string :=
  match as_num v with
  | Some x => Ok (fmt_float lib spec x)
  | None => Raise (ExFormat v spec)
  end.

(** [sep.join(v)]: every item must be a str. *)
Fixpoint strs_of (l : list pyval) : result (list string) :=
  match l with
  | [] => Ok []
  | PStr s :: l' => r <- strs_of l' ;; Ok (s :: r)
  | v :: _ => Raise (ExType v)
  end.

Definition py_join (sep : string) (v : pyval) : result string :=
  match v with
  | PList l => r <- strs_of l ;; Ok (join sep r)
  | _ => Raise (ExType v)
  end.

(** [v.lower()], [v.upper()] *)
Definition py_lower (v : pyval) : result string :=
  match v with
  | PStr s => Ok (lower s)
  | _ => Raise (ExAttr v "lower")
  end.

Fixpoint upper (s : string) : string :=
  match s with
  | EmptyString => EmptyString
  | String c s' => String (upper_char c) (upper s')
  end.

Definition py_upper (v : pyval) : result string :=
  match v with
  | PStr s => Ok (upper s)
  | _ => Raise (ExAttr v "upper")
  end.

(** [a + b], [a * b], [a / 2] and comparisons on numeric values. *)
Definition num (v : pyval) : result pyfloat :=
  match as_num v with
  | Some x => Ok x
  | None => Raise (ExType v)
  end.

(** [a + b] where one side is known to be a list. *)
Definition list_add (a b : pyval) : result (list pyval) :=
  match a, b with
  | PList x, PList y => Ok (x ++ y)%list
  | PList _, _ => Raise (ExType b)
  | _, _ => Raise (ExType a)
  end.

End Builtins.

(** ** Tolerant extraction of the JSON object

    The three parsers start with the same four statements:
    [[
      json_str = response_text.strip()
      if not json_str.startswith('{'): json_str = json_str[json_str.find('{'):]
      if not json_str.endswith('}'):   json_str = json_str[:json_str.rfind('}')+1]
    ]] *)
Definition extract_object (response_text : string) : string :=
  let json_str := strip response_text in
  let json_str :=
    if negb (startswith json_str "{")
    then slice_from (find json_str "{") json_str else json_str in
  let json_str :=
    if negb (endswith json_str "}")
    then slice_to (rfind json_str "}" + 1) json_str else json_str in
  json_str.

(** ** fraud_analyzer.py *)

Module FraudAnalyzer.

Local Open Scope Q_scope.

Record pattern : Type := {
  name : string;
  description : string;
  pattern_indicators : list string;
  risk_score : Q
}.

(** [self.fraud_rules], one field per entry of the nested dict literal. *)
Record rules : Type := {
  (* 'amount_threshold' *)
  high_amount : Q;
  very_high_amount : Q;
  amount_weight : Q;
  (* 'location_risk' *)
  foreign_countries : list string;
  high_risk_locations : list string;
  location_weight : Q;
  (* 'time_patterns' *)
  unusual_hours : list (Z * Z);
  time_weight : Q;
  (* 'merchant_risk' *)
  high_risk_categories : list string;
  medium_risk_categories : list string;
  merchant_weight : Q;
  (* 'velocity_checks' *)
  max_transactions_per_hour : Q;
  max_amount_per_hour : Q;
  velocity_weight : Q;
  (* 'customer_behavior' *)
  account_age_threshold : Q;
  behavior_weight : Q
}.

Record t : Type := {
  api_base : string;
  model : string;
  max_retries : nat;
  retry_delay : Z;
  fraud_rules : rules;
  fraud_patterns : list pattern
}.

Definition default_rules : rules := {|
  high_amount := 5000;
  very_high_amount := 10000;
  amount_weight := 25;
  foreign_countries :=
    ["London, UK"; "Paris, France"; "Tokyo, Japan"; "Sydney, Australia"];
  high_risk_locations := ["Unknown Location"; "Foreign Location"];
  location_weight := 20;
  unusual_hours := [(23, 6)%Z];
  time_weight := 10;
  high_risk_categories := ["wire_transfer"; "luxury"; "electronics"];
  medium_risk_categories := ["online"; "atm"];
  merchant_weight := 15;
  max_transactions_per_hour := 5;
  max_amount_per_hour := 2000;
  velocity_weight := 20;
  account_age_threshold := 30;
  behavior_weight := 10
|}.

Definition default_patterns : list pattern := [
  {| name := "card_testing";
     description := "Multiple small transactions in short time";
     pattern_indicators := ["multiple_small_amounts"; "short_time_window"];
     risk_score := 80 |};
  {| name := "account_takeover";
     description := "Unusual location with high-value transaction";
     pattern_indicators := ["foreign_location"; "high_amount"; "unusual_merchant"];
     risk_score := 90 |};
  {| name := "synthetic_identity";
     description := "New account with immediate high-value transactions";
     pattern_indicators := ["new_account"; "high_amount"; "limited_history"];
     risk_score := 85 |};
  {| name := "money_laundering";
     description := "Structured transactions just below reporting thresholds";
     pattern_indicators := ["structured_amounts"; "frequent_transfers"; "round_amounts"];
     risk_score := 95 |}
].

Definition __init__ (api_base model : string) : t := {|
  api_base := api_base;
  model := model;
  max_retries := 3;
  retry_delay := 1;
  fraud_rules := default_rules;
  fraud_patterns := default_patterns
|}.

(** The analyzer as the applications construct it: [FraudAnalyzer()]. *)
Definition default : t :=
  __init__ "http://localhost:11434/api/generate" "llama3.2:1b".

(** The two lists every [_analyze_*] method appends to. *)
Record findings : Type := {
  indicators : list string;
  risk_factors : list string
}.

Definition no_findings : findings := {| indicators := []; risk_factors := [] |}.

(** [indicators.append(tag); risk_factors.append(text)] *)
Definition flag (tag text : string) (f : findings) : findings :=
  {| indicators := (indicators f ++ [tag])%list;
     risk_factors := (risk_factors f ++ [text])%list |}.

Definition str_in (s : string) (l : list string) : bool :=
  existsb (String.eqb s) l.

Section WithLib.
Variable lib : PyLib.

Definition money (x : pyfloat) : string := fmt_float lib ",.2f" x.

Definition _analyze_amount (self : t) (amount : pyfloat) (f : findings)
  : Q * findings :=
  let rules := fraud_rules self in
  let score := 0 in
  let '(score, f) :=
    if fge amount (Fin (very_high_amount rules)) then
      (score + amount_weight rules,
       flag "very_high_amount"
            ("Very high transaction amount: $" ++ money amount) f)
    else if fge amount (Fin (high_amount rules)) then
      (score + amount_weight rules * 0.7,
       flag "high_amount" ("High transaction amount: $" ++ money amount) f)
    else (score, f) in
  let '(score, f) :=
    if feq (fmod_const amount 1000) fzero && fge amount (Fin 1000) then
      (score + 5,
       flag "round_amount" ("Round amount transaction: $" ++ money amount) f)
    else (score, f) in
  let '(score, f) :=
    if fle (Fin 9000) amount && flt amount (Fin 10000) then
      (score + 15,
       flag "structured_amount"
            ("Amount just below reporting threshold: $" ++ money amount) f)
    else (score, f) in
  (score, f).

(** [location.lower()] is evaluated in the first round of the first loop
    (the list of foreign countries is not empty in [__init__]; with an
    empty list the second loop or the last test evaluates it), so a
    location that is not a str raises before anything is appended. *)
Definition _analyze_location (self : t) (location : pyval) (f : findings)
  : result (Q * findings) :=
  let rules := fraud_rules self in
  let score := 0 in
  let shown := str_of lib location in
  low <- (match foreign_countries rules, high_risk_locations rules with
          | [], [] => if truthy location then py_lower location
                      else Ok EmptyString
          | _, _ => py_lower location
          end) ;;
  let '(score, f) :=
    if existsb (fun foreign_location => contains low (lower foreign_location))
               (foreign_countries rules) then
      (score + location_weight rules,
       flag "foreign_location"
            ("Transaction in foreign location: " ++ shown) f)
    else (score, f) in
  let '(score, f) :=
    if existsb (fun high_risk => contains low (lower high_risk))
               (high_risk_locations rules) then
      (score + location_weight rules * 0.8,
       flag "high_risk_location"
            ("Transaction in high-risk location: " ++ shown) f)
    else (score, f) in
  let '(score, f) :=
    if negb (truthy location) || str_in low ["unknown"; "n/a"; EmptyString]
    then (score + 10,
          flag "unknown_location" "Transaction location unknown" f)
    else (score, f) in
  Ok (score, f).

Definition in_unusual_period (h : Z) (period : Z * Z) : bool :=
  let '(start_hour, end_hour) := period in
  if (start_hour >? end_hour)%Z
  then (h >=? start_hour)%Z || (h <=? end_hour)%Z
  else (start_hour <=? h)%Z && (h <=? end_hour)%Z.

Definition _analyze_time_patterns (self : t) (timestamp : datetime)
  (f : findings) : Q * findings :=
  let rules := fraud_rules self in
  let score := 0 in
  let h := hour timestamp in
  let '(score, f) :=
    if existsb (in_unusual_period h) (unusual_hours rules) then
      (score + time_weight rules,
       flag "unusual_hours"
            ("Transaction at unusual hour: " ++ fmt_02d lib h ++ ":00") f)
    else (score, f) in
  let '(score, f) :=
    if (weekday timestamp >=? 5)%Z then
      (score + 5, flag "weekend_transaction" "Transaction on weekend" f)
    else (score, f) in
  (score, f).

Definition _analyze_merchant_category (self : t) (category : pyval)
  (f : findings) : Q * findings :=
  let rules := fraud_rules self in
  let score := 0 in
  if in_strs category (high_risk_categories rules) then
    (score + merchant_weight rules,
     flag "high_risk_merchant"
          ("High-risk merchant category: " ++ str_of lib category) f)
  else if in_strs category (medium_risk_categories rules) then
    (score + merchant_weight rules * 0.6,
     flag "medium_risk_merchant"
          ("Medium-risk merchant category: " ++ str_of lib category) f)
  else (score, f).

Definition _analyze_transaction_type (self : t) (transaction_type : pyval)
  (amount : pyfloat) (f : findings) : Q * findings :=
  let score := 0 in
  if eq_str transaction_type "transfer" then
    let score := score + 15 in
    let f := flag "wire_transfer" "Wire transfer transaction" f in
    if fge amount (Fin 5000) then
      (score + 10,
       flag "large_wire_transfer" ("Large wire transfer: $" ++ money amount) f)
    else (score, f)
  else if eq_str transaction_type "withdrawal" && fge amount (Fin 1000) then
    (score + 10,
     flag "large_withdrawal" ("Large cash withdrawal: $" ++ money amount) f)
  else (score, f).

Definition _analyze_velocity_patterns (self : t) (transaction : dict)
  (f : findings) : Q * findings :=
  let score := 0 in
  let '(score, f) :=
    if truthy (get transaction "is_suspicious_template" (PBool false)) then
      (score + 20,
       flag "suspicious_pattern" "Transaction matches suspicious pattern" f)
    else (score, f) in
  let customer_risk := get transaction "customer_risk_profile" (PStr "medium") in
  let '(score, f) :=
    if eq_str customer_risk "high" then
      (score + 15,
       flag "high_risk_customer" "Customer has high risk profile" f)
    else (score, f) in
  (score, f).

(** [needle in container] for a str needle. *)
Definition contains_str (container : pyval) (needle : string) : result bool :=
  match container with
  | PStr s => Ok (contains s needle)
  | PList l => Ok (existsb (fun v => eq_str v needle) l)
  | PDict d => Ok (has_key needle d)
  | _ => Raise (ExType container)
  end.

(** [any(keyword in container for keyword in keywords)] *)
Fixpoint any_in (container : pyval) (keywords : list string) : result bool :=
  match keywords with
  | [] => Ok false
  | keyword :: rest =>
      b <- contains_str container keyword ;;
      if b then Ok true else any_in container rest
  end.

(** The body of the loop over [self.fraud_patterns]: the number of
    matching indicators of one pattern. *)
Definition count_matches (p : pattern) (transaction : dict)
  (amount : pyfloat) (location merchant_category : pyval) : result Z :=
  let pattern_indicators := pattern_indicators p in
  let matches := 0%Z in
  let matches :=
    if str_in "high_amount" pattern_indicators && fge amount (Fin 5000)
    then (matches + 1)%Z else matches in
  matches <-
    (if str_in "foreign_location" pattern_indicators then
       b <- any_in location ["UK"; "France"; "Japan"; "Australia"] ;;
       Ok (if b then (matches + 1)%Z else matches)
     else Ok matches) ;;
  let matches :=
    if str_in "unusual_merchant" pattern_indicators
       && in_strs merchant_category ["luxury"; "electronics"]
    then (matches + 1)%Z else matches in
  let matches :=
    if str_in "wire_transfer" pattern_indicators
       && eq_str (get transaction "transaction_type" PNone) "transfer"
    then (matches + 1)%Z else matches in
  Ok matches.

Fixpoint match_patterns (patterns : list pattern) (transaction : dict)
  (amount : pyfloat) (location merchant_category : pyval)
  (score : Q) (f : findings) : result (Q * findings) :=
  match patterns with
  | [] => Ok (score, f)
  | p :: rest =>
      matches <- count_matches p transaction amount location merchant_category ;;
      if Qle_bool (inject_Z (Z.of_nat (List.length (pattern_indicators p))) * 0.6)
                  (inject_Z matches)
      then
        let pattern_score := risk_score p * 0.3 in
        match_patterns rest transaction amount location merchant_category
          (score + pattern_score)
          (flag ("pattern_" ++ name p)
                ("Matches " ++ name p ++ " pattern: " ++ description p) f)
      else
        match_patterns rest transaction amount location merchant_category
          score f
  end.

Definition _analyze_fraud_patterns (self : t) (transaction : dict)
  (f : findings) : result (Q * findings) :=
  let score := 0 in
  amount <- py_float lib (get transaction "amount" (PInt 0)) ;;
  let location := get transaction "location" (PStr EmptyString) in
  let merchant_category := get transaction "merchant_category" (PStr EmptyString) in
  match_patterns (fraud_patterns self) transaction amount location
    merchant_category score f.

Definition _generate_rule_explanation (fraud_score : Q) (f : findings)
  : string :=
  let explanation :=
    "Rule-based fraud analysis score: "
    ++ fmt_float lib ".1f" (Fin fraud_score) ++ "/100. " in
  let explanation :=
    if Qle_bool 80 fraud_score then
      explanation ++ "HIGH RISK - Multiple fraud indicators detected. "
    else if Qle_bool 50 fraud_score then
      explanation ++ "MEDIUM RISK - Some fraud indicators present. "
    else if Qle_bool 30 fraud_score then
      explanation ++ "LOW RISK - Minor risk factors identified. "
    else
      explanation ++ "VERY LOW RISK - No significant fraud indicators. " in
  match risk_factors f with
  | [] => explanation
  | _ => explanation ++ "Key factors: " ++ join "; " (firstn 3 (risk_factors f))
  end.

(** The inner [try] of [_rule_based_analysis]: the timestamp of the
    transaction when it is a non-empty str that parses, the clock otherwise
    (the bare [except] swallows every failure). *)
Definition read_timestamp (now : datetime) (timestamp_str : pyval) : datetime :=
  if truthy timestamp_str then
    match timestamp_str with
    | PStr s =>
        match fromisoformat lib (replace_char "Z" "+00:00" s) with
        | Some timestamp => timestamp
        | None => now
        end
    | _ => now
    end
  else now.

Definition strs (l : list string) : pyval := PList (map PStr l).

(** The [try] block of [_rule_based_analysis]. *)
Definition rule_based_body (self : t) (now : datetime) (transaction : dict)
  : result dict :=
  let fraud_score := 0 in
  let f := no_findings in
  amount <- py_float lib (get transaction "amount" (PInt 0)) ;;
  let location := get transaction "location" (PStr EmptyString) in
  let merchant_category := get transaction "merchant_category" (PStr EmptyString) in
  let transaction_type := get transaction "transaction_type" (PStr EmptyString) in
  let timestamp_str := get transaction "timestamp" (PStr EmptyString) in
  let timestamp := read_timestamp now timestamp_str in
  let '(amount_score, f) := _analyze_amount self amount f in
  let fraud_score := fraud_score + amount_score in
  '(location_score, f) <- _analyze_location self location f ;;
  let fraud_score := fraud_score + location_score in
  let '(time_score, f) := _analyze_time_patterns self timestamp f in
  let fraud_score := fraud_score + time_score in
  let '(merchant_score, f) := _analyze_merchant_category self merchant_category f in
  let fraud_score := fraud_score + merchant_score in
  let '(type_score, f) := _analyze_transaction_type self transaction_type amount f in
  let fraud_score := fraud_score + type_score in
  let '(velocity_score, f) := _analyze_velocity_patterns self transaction f in
  let fraud_score := fraud_score + velocity_score in
  '(pattern_score, f) <- _analyze_fraud_patterns self transaction f ;;
  let fraud_score := fraud_score + pattern_score in
  let '(risk_level, is_fraud) :=
    if Qle_bool 80 fraud_score then ("high", true)
    else if Qle_bool 50 fraud_score then ("medium", true)
    else if Qle_bool 30 fraud_score then ("low", false)
    else ("very_low", false) in
  let explanation := _generate_rule_explanation fraud_score f in
  Ok [ ("fraud_score", PNum (py_min (Fin 100) (Fin fraud_score)));
       ("risk_level", PStr risk_level);
       ("is_fraud", PBool is_fraud);
       ("fraud_indicators", strs (indicators f));
       ("risk_factors", strs (risk_factors f));
       ("explanation", PStr explanation);
       ("confidence", PNum (py_min (Fin 95) (Fin (fraud_score + 10))));
       ("analysis_method", PStr "rule_based");
       ("score_breakdown", PDict [
          ("amount_score", PQ amount_score);
          ("location_score", PQ location_score);
          ("time_score", PQ time_score);
          ("merchant_score", PQ merchant_score);
          ("type_score", PQ type_score);
          ("velocity_score", PQ velocity_score);
          ("pattern_score", PQ pattern_score) ]) ].

(** The [except] block of [_rule_based_analysis]. *)
Definition rule_error_result (e : pyexn) : dict :=
  [ ("fraud_score", PQ 50);
    ("risk_level", PStr "medium");
    ("is_fraud", PBool true);
    ("fraud_indicators", strs ["analysis_error"]);
    ("explanation", PStr ("Error in fraud analysis: " ++ str_exn lib e));
    ("confidence", PQ 0);
    ("analysis_method", PStr "error") ].

(** [now] is what [datetime.now()] returns if the method reads the clock. *)
Definition _rule_based_analysis (self : t) (now : datetime)
  (transaction : dict) : dict :=
  match rule_based_body self now transaction with
  | Ok result => result
  | Raise e => rule_error_result e
  end.

(** The values interpolated into the prompt, in order; the fixed text of
    the template around them is not reproduced.  Formatting the amount
    with [,.2f] raises when the amount is not a number. *)
Definition _create_fraud_analysis_prompt (transaction rule_result : dict)
  : result string :=
  let field k := str_of lib (get transaction k (PStr "N/A")) in
  amount <- py_format lib ",.2f" (get transaction "amount" (PInt 0)) ;;
  fraud_score <- py_format lib ".1f" (get rule_result "fraud_score" (PInt 0)) ;;
  risk_level <- py_upper (get rule_result "risk_level" (PStr "unknown")) ;;
  detected <- py_join ", " (get rule_result "fraud_indicators" (PList [])) ;;
  factors <- py_join "; " (get rule_result "risk_factors" (PList [])) ;;
  Ok (join "|"
        [ field "transaction_id"; field "customer_name"; field "customer_id";
          amount; field "merchant"; field "merchant_category";
          field "transaction_type"; field "location"; field "timestamp";
          field "account_type"; fraud_score; risk_level; detected; factors ]).

Definition required_fields : list string :=
  ["is_fraud"; "fraud_score"; "risk_level"; "explanation"].

Definition valid_risk_levels : list string :=
  ["very_low"; "low"; "medium"; "high"; "critical"].

Definition list_fields : list string :=
  ["fraud_indicators"; "behavioral_anomalies"; "risk_factors";
   "legitimacy_factors"; "recommendations"].

(** [max(0, min(100, x))] *)
Definition clamp_0_100 (x : pyfloat) : pyfloat :=
  py_max (Fin 0) (py_min (Fin 100) x).

(** One round of the loop over [list_fields]. *)
Definition listify (result : dict) (field : string) : dict :=
  match dict_get field result with
  | None => result
  | Some (PList _) => result
  | Some v =>
      dict_set field
        (if truthy v then PList [PStr (str_of lib v)] else PList []) result
  end.

(** The [try] block of [_parse_ai_response].  A decoded value that is not
    an object ends in [None] whatever it is: either a required field is not
    "in" it, or the first item assignment or [.get] raises. *)
Definition parse_body (response_text : string) : result (option dict) :=
  let json_str := extract_object response_text in
  match json_loads lib json_str with
  | None => Raise (ExJSON json_str)
  | Some (PDict result) =>
      if negb (forallb (fun field => has_key field result) required_fields)
      then Ok None
      else
        let result :=
          dict_set "is_fraud"
            (PBool (truthy (get result "is_fraud" (PBool false)))) result in
        fraud_score <- py_float lib (get result "fraud_score" (PInt 0)) ;;
        let result :=
          dict_set "fraud_score" (PNum (clamp_0_100 fraud_score)) result in
        risk_level <- subscript result "risk_level" ;;
        let result :=
          if negb (in_strs risk_level valid_risk_levels)
          then dict_set "risk_level" (PStr "medium") result else result in
        result <-
          (if has_key "confidence" result then
             confidence <- py_float lib (get result "confidence" (PInt 0)) ;;
             Ok (dict_set "confidence" (PNum (clamp_0_100 confidence)) result)
           else Ok result) ;;
        let result := fold_left listify list_fields result in
        Ok (Some result)
  | Some other => Raise (ExType other)
  end.

(** Both [except] clauses return [None].  A response text that is not a
    str fails inside the [try] as well (at the slice or at [.strip()]). *)
Definition _parse_ai_response (response_text : pyval) : option dict :=
  match response_text with
  | PStr text =>
      match parse_body text with
      | Ok parsed => parsed
      | Raise _ => None
      end
  | _ => None
  end.

(** [response.json()]; requests raises its own JSONDecodeError, which is
    an ordinary Exception for the two handlers of the analyzer. *)
Definition response_json (text : string) : result pyval :=
  match json_loads lib text with
  | Some v => Ok v
  | None => Raise (ExJSON text)
  end.

(** [v[key]] *)
Definition item (v : pyval) (key : string) : result pyval :=
  match v with
  | PDict d => subscript d key
  | _ => Raise (ExType v)
  end.

(** The [try] block of one attempt, after [requests.post] returned or
    raised: [Ok (Some r)] is a parsed response, [Ok None] a response that
    was not 200 or did not parse. *)
Definition attempt_body (out : http_outcome) : result (option dict) :=
  match out with
  | Fails e => Raise e
  | Reply status_code text =>
      if (status_code =? 200)%Z then
        result <- response_json text ;;
        response <- item result "response" ;;
        Ok (_parse_ai_response response)
      else Ok None
  end.

(** [if attempt < self.max_retries - 1: time.sleep(self.retry_delay)] *)
Definition pause (self : t) (attempt : nat) (st : io) : io :=
  if (Z.of_nat attempt <? Z.of_nat (max_retries self) - 1)%Z
  then sleep (retry_delay self) st else st.

(** [for attempt in todo: ...] followed by [return None]. *)
Fixpoint attempts (self : t) (w : world) (prompt : string)
  (todo : list nat) (st : io) : option dict * io :=
  match todo with
  | [] => (None, st)
  | attempt :: rest =>
      let out := endpoint w prompt (requests_sent st) in
      let st := send st in
      match attempt_body out with
      | Ok (Some parsed_result) =>
          if truthy (PDict parsed_result)
          then (Some (dict_set "success" (PBool true) parsed_result), st)
          else attempts self w prompt rest (pause self attempt st)
      | Ok None => attempts self w prompt rest (pause self attempt st)
      | Raise _ => attempts self w prompt rest (pause self attempt st)
      end
  end.

Definition _get_ai_analysis (self : t) (w : world) (prompt : string)
  (st : io) : option dict * io :=
  attempts self w prompt (seq 0 (max_retries self)) st.

(** The [try] block of [_combine_ai_and_rules]. *)
Definition combine_body (ai_result rule_result transaction : dict)
  : result dict :=
  let combined_result := ai_result in
  let ai_indicators := get ai_result "fraud_indicators" (PList []) in
  let rule_indicators := get rule_result "fraud_indicators" (PList []) in
  both <- list_add ai_indicators rule_indicators ;;
  combined_indicators <- list_of_set both ;;
  let ai_risk_factors := get ai_result "risk_factors" (PList []) in
  let rule_risk_factors := get rule_result "risk_factors" (PList []) in
  both <- list_add ai_risk_factors rule_risk_factors ;;
  combined_risk_factors <- list_of_set both ;;
  let ai_score := get ai_result "fraud_score" (PInt 0) in
  let rule_score := get rule_result "fraud_score" (PInt 0) in
  a <- num ai_score ;;
  r <- num rule_score ;;
  let combined_score := fadd (fmul a (Fin 0.6)) (fmul r (Fin 0.4)) in
  let final_risk_level :=
    if fge combined_score (Fin 85) then "critical"
    else if fge combined_score (Fin 70) then "high"
    else if fge combined_score (Fin 50) then "medium"
    else if fge combined_score (Fin 30) then "low"
    else "very_low" in
  let is_fraud :=
    if fge combined_score (Fin 50) then PBool true
    else
      let ai_says := get ai_result "is_fraud" (PBool false) in
      if truthy ai_says then PBool (fge r (Fin 30)) else ai_says in
  let ai_confidence := get ai_result "confidence" (PInt 0) in
  let rule_confidence := get rule_result "confidence" (PInt 0) in
  ac <- num ai_confidence ;;
  rc <- num rule_confidence ;;
  let combined_confidence := fdiv_const (fadd ac rc) 2 in
  let combined_result :=
    dict_update combined_result
      [ ("fraud_score", PNum combined_score);
        ("risk_level", PStr final_risk_level);
        ("is_fraud", is_fraud);
        ("fraud_indicators", PList combined_indicators);
        ("risk_factors", PList combined_risk_factors);
        ("ai_confidence", ai_confidence);
        ("rule_confidence", rule_confidence);
        ("combined_confidence", PNum combined_confidence);
        ("analysis_method", PStr "ai_enhanced");
        ("ai_score", ai_score);
        ("rule_score", rule_score);
        ("score_weights", PDict [("ai", PQ 0.6); ("rules", PQ 0.4)]) ] in
  let ai_explanation := get ai_result "explanation" (PStr EmptyString) in
  let rule_explanation := get rule_result "explanation" (PStr EmptyString) in
  let combined_explanation :=
    "AI-Enhanced Analysis: " ++ str_of lib ai_explanation
    ++ " Rule-based validation: " ++ str_of lib rule_explanation in
  Ok (dict_set "explanation" (PStr combined_explanation) combined_result).

Definition _combine_ai_and_rules (ai_result rule_result transaction : dict)
  : dict :=
  match combine_body ai_result rule_result transaction with
  | Ok combined_result => combined_result
  | Raise _ => dict_set "analysis_method" (PStr "rule_based_fallback") rule_result
  end.

(** [clock w 0] is the reading the rule engine gets if it asks for one,
    [clock w 1] the reading stamped on the result.  The last statement
    before [return] formats the score for the log and is kept because it
    can raise. *)
Definition analyze_transaction (self : t) (w : world) (transaction : dict)
  : result dict * io :=
  let rule_based_result := _rule_based_analysis self (clock w 0%nat) transaction in
  match _create_fraud_analysis_prompt transaction rule_based_result with
  | Raise e => (Raise e, io0)
  | Ok prompt =>
      let '(ai_result, st) := _get_ai_analysis self w prompt io0 in
      let final_result :=
        match ai_result with
        | Some ai =>
            if truthy (PDict ai) && truthy (get ai "success" (PBool false))
            then _combine_ai_and_rules ai rule_based_result transaction
            else dict_set "analysis_method" (PStr "rule_based") rule_based_result
        | None =>
            dict_set "analysis_method" (PStr "rule_based") rule_based_result
        end in
      let final_result :=
        dict_update final_result
          [ ("analysis_timestamp", PStr (isoformat (clock w 1%nat)));
            ("analyzer_version", PStr "1.0") ] in
      (_ <- py_format lib ".1f" (get final_result "fraud_score" (PInt 0)) ;;
       Ok final_result, st)
  end.

End WithLib.

End FraudAnalyzer.

(** ** Division of floats *)

(** [a / b] on floats, or on a float and an int that fits a float: a zero
    divisor raises ZeroDivisionError whatever the dividend. *)
Definition fdiv (a b : pyfloat) : result pyfloat :=
  match b with
  | Fin y =>
      if Qeq_bool y 0 then Raise (ExOther "float division by zero")
      else match a with
           | Fin x => Ok (Fin (x / y))
           | NaN => Ok NaN
           | _ => Ok (finf_of_sign (fsign a * Qsgn y))
           end
  | NaN => Ok NaN
  | _ =>
      match a with
      | Fin _ => Ok fzero
      | _ => Ok NaN
      end
  end.

(** ** credit_scoring.py *)

Module CreditScoring.

Local Open Scope Q_scope.

Record t : Type := {
  api_base : string;
  model : string;
  max_retries : nat;
  retry_delay : Z
}.

Definition __init__ (api_base model : string) : t := {|
  api_base := api_base;
  model := model;
  max_retries := 3;
  retry_delay := 1
|}.

(** [random.uniform(a, b)] is [a + (b - a) * random.random()]; [u] is the
    draw of [random.random()], a number in [0, 1). *)
Definition uniform (a b u : Q) : Q := a + (b - a) * u.

Definition _estimate_interest_rate (u : Q) (credit_score : Z) : Q :=
  if (credit_score >=? 750)%Z then 3.5 + uniform 0 1.0 u
  else if (credit_score >=? 700)%Z then 4.5 + uniform 0 1.5 u
  else if (credit_score >=? 650)%Z then 6.0 + uniform 0 2.0 u
  else if (credit_score >=? 600)%Z then 8.0 + uniform 0 3.0 u
  else 11.0 + uniform 0 4.0 u.

Definition _calculate_employment_score (employment_years : Z)
  (employment_status : pyval) : Q :=
  let base_score := 0 in
  let base_score :=
    if (employment_years >=? 5)%Z then base_score + 40
    else if (employment_years >=? 3)%Z then base_score + 30
    else if (employment_years >=? 2)%Z then base_score + 20
    else if (employment_years >=? 1)%Z then base_score + 10
    else base_score in
  let base_score :=
    if eq_str employment_status "Full-time" then base_score + 30
    else if eq_str employment_status "Part-time" then base_score + 15
    else if eq_str employment_status "Self-employed" then base_score + 20
    else if eq_str employment_status "Unemployed" then base_score - 50
    else base_score in
  Qmin 100 (Qmax 0 base_score).

Section WithLib.
Variable lib : PyLib.

Definition money (x : pyfloat) : string := fmt_float lib ",.2f" x.
Definition percent (x : pyfloat) : string := fmt_float lib ".1f" x ++ "%".
Definition show_int (z : Z) : string := str_of lib (PInt z).

Definition required_fields : list string :=
  ["approved"; "status"; "risk_level"; "reason"].

(** The [try] block of [_parse_ai_response]; see the remark on decoded
    values that are not objects at [FraudAnalyzer.parse_body]. *)
Definition parse_body (response_text : string) : result (option dict) :=
  let json_str := extract_object response_text in
  match json_loads lib json_str with
  | None => Raise (ExJSON json_str)
  | Some (PDict result) =>
      if negb (forallb (fun field => has_key field result) required_fields)
      then Ok None
      else
        status <- subscript result "status" ;;
        let result :=
          if negb (in_strs status ["APPROVED"; "CONDITIONAL_APPROVAL"; "REJECTED"])
          then dict_set "status" (PStr "REJECTED") result else result in
        risk_level <- subscript result "risk_level" ;;
        let result :=
          if negb (in_strs risk_level ["low"; "medium"; "high"])
          then dict_set "risk_level" (PStr "high") result else result in
        result <-
          (if has_key "confidence_score" result then
             c <- num (get result "confidence_score" (PInt 0)) ;;
             Ok (dict_set "confidence_score"
                   (PNum (py_max (Fin 0) (py_min (Fin 100) c))) result)
           else Ok result) ;;
        Ok (Some result)
  | Some other => Raise (ExType other)
  end.

Definition _parse_ai_response (response_text : pyval) : option dict :=
  match response_text with
  | PStr text =>
      match parse_body text with
      | Ok parsed => parsed
      | Raise _ => None
      end
  | _ => None
  end.

(** [l.append(text)] *)
Definition append (l : list string) (text : string) : list string :=
  (l ++ [text])%list.

Definition add_if (b : bool) (text : string) (l : list string) : list string :=
  if b then append l text else l.

Definition _identify_risk_factors (application_data financial_metrics : dict)
  : result (list string) :=
  let risk_factors := [] in
  credit_score <- py_int lib (get application_data "credit_score" (PInt 0)) ;;
  let debt_to_income := get financial_metrics "debt_to_income_ratio" (PInt 0) in
  employment_years <- py_int lib (get application_data "employment_years" (PInt 0)) ;;
  annual_income <- py_float lib (get application_data "annual_income" (PInt 0)) ;;
  let employment_status := get application_data "employment_status" (PStr EmptyString) in
  let risk_factors :=
    add_if (credit_score <? 650)%Z
      ("Below-average credit score: " ++ show_int credit_score) risk_factors in
  dti <- num debt_to_income ;;
  let risk_factors :=
    add_if (flt (Fin 43) dti)
      ("High debt-to-income ratio: " ++ percent dti) risk_factors in
  let risk_factors :=
    add_if (employment_years <? 2)%Z
      ("Limited employment history: " ++ show_int employment_years ++ " years")
      risk_factors in
  let risk_factors :=
    add_if (flt annual_income (Fin 30000))
      ("Low annual income: $" ++ money annual_income) risk_factors in
  let risk_factors :=
    add_if (in_strs employment_status ["Part-time"; "Unemployed"])
      ("Unstable employment status: " ++ str_of lib employment_status)
      risk_factors in
  Ok risk_factors.

Definition _identify_strengths (application_data financial_metrics : dict)
  : result (list string) :=
  let strengths := [] in
  credit_score <- py_int lib (get application_data "credit_score" (PInt 0)) ;;
  let debt_to_income := get financial_metrics "debt_to_income_ratio" (PInt 999) in
  employment_years <- py_int lib (get application_data "employment_years" (PInt 0)) ;;
  annual_income <- py_float lib (get application_data "annual_income" (PInt 0)) ;;
  let employment_status := get application_data "employment_status" (PStr EmptyString) in
  let strengths :=
    if (credit_score >=? 750)%Z then
      append strengths ("Excellent credit score: " ++ show_int credit_score)
    else if (credit_score >=? 700)%Z then
      append strengths ("Good credit score: " ++ show_int credit_score)
    else strengths in
  dti <- num debt_to_income ;;
  let strengths :=
    if fle dti (Fin 30) then
      append strengths ("Low debt-to-income ratio: " ++ percent dti)
    else if fle dti (Fin 36) then
      append strengths ("Acceptable debt-to-income ratio: " ++ percent dti)
    else strengths in
  let strengths :=
    add_if (employment_years >=? 5)%Z
      ("Stable employment history: " ++ show_int employment_years ++ " years")
      strengths in
  let strengths :=
    add_if (fge annual_income (Fin 75000))
      ("Strong annual income: $" ++ money annual_income) strengths in
  let strengths :=
    add_if (eq_str employment_status "Full-time")
      "Stable full-time employment" strengths in
  Ok strengths.

Definition _generate_recommendations (application_data financial_metrics : dict)
  (approved : bool) : result (list string) :=
  let recommendations := [] in
  if negb approved then
    credit_score <- py_int lib (get application_data "credit_score" (PInt 0)) ;;
    let debt_to_income := get financial_metrics "debt_to_income_ratio" (PInt 0) in
    employment_years <- py_int lib (get application_data "employment_years" (PInt 0)) ;;
    let recommendations :=
      add_if (credit_score <? 650)%Z
        "Work on improving credit score by paying bills on time and reducing credit utilization"
        recommendations in
    dti <- num debt_to_income ;;
    let recommendations :=
      add_if (flt (Fin 43) dti)
        "Reduce existing debt to improve debt-to-income ratio before reapplying"
        recommendations in
    let recommendations :=
      add_if (employment_years <? 2)%Z
        "Consider waiting until you have more stable employment history"
        recommendations in
    Ok (recommendations
          ++ ["Consider applying for a smaller loan amount";
              "Explore options for a co-signer or additional collateral"])%list
  else
    let recommendations :=
      (recommendations
         ++ ["Maintain good credit habits to keep favorable loan terms";
             "Consider setting up automatic payments to ensure timely loan payments"])%list in
    dti <- num (get financial_metrics "debt_to_income_ratio" (PInt 0)) ;;
    Ok (add_if (flt (Fin 30) dti)
          "Monitor your debt-to-income ratio and avoid taking on additional debt"
          recommendations).

Definition strs (l : list string) : pyval := PList (map PStr l).

(** The [try] block of [_rule_based_evaluation]. *)
Definition rule_based_body (application_data financial_metrics : dict)
  : result dict :=
  credit_score <- py_int lib (get application_data "credit_score" (PInt 0)) ;;
  let debt_to_income := get financial_metrics "debt_to_income_ratio" (PInt 999) in
  let employment_score := get financial_metrics "employment_stability_score" (PInt 0) in
  annual_income <- py_float lib (get application_data "annual_income" (PInt 0)) ;;
  loan_amount <- py_float lib (get application_data "loan_amount" (PInt 0)) ;;
  let total_score := Fin 0 in
  let credit_component :=
    if (credit_score >=? 750)%Z then 35
    else if (credit_score >=? 700)%Z then 28
    else if (credit_score >=? 650)%Z then 21
    else if (credit_score >=? 600)%Z then 14
    else 7 in
  let total_score := fadd total_score (Fin credit_component) in
  dti <- num debt_to_income ;;
  let dti_component :=
    if fle dti (Fin 30) then 25
    else if fle dti (Fin 36) then 20
    else if fle dti (Fin 43) then 15
    else if fle dti (Fin 50) then 10
    else 0 in
  let total_score := fadd total_score (Fin dti_component) in
  es <- num employment_score ;;
  let employment_component := fmul (fdiv_const es 100) (Fin 20) in
  let total_score := fadd total_score employment_component in
  let income_component :=
    if fge annual_income (Fin 100000) then 15
    else if fge annual_income (Fin 75000) then 12
    else if fge annual_income (Fin 50000) then 9
    else if fge annual_income (Fin 30000) then 6
    else 3 in
  let total_score := fadd total_score (Fin income_component) in
  lti <- num (get financial_metrics "loan_to_income_ratio" (PInt 999)) ;;
  let lti_component :=
    if fle lti (Fin 200) then 5
    else if fle lti (Fin 300) then 3
    else if fle lti (Fin 500) then 1
    else 0 in
  let total_score := fadd total_score (Fin lti_component) in
  let '(status, risk_level, approved) :=
    if fge total_score (Fin 80) then ("APPROVED", "low", true)
    else if fge total_score (Fin 65) then ("CONDITIONAL_APPROVAL", "medium", true)
    else ("REJECTED", "high", false) in
  let conditions :=
    if String.eqb status "CONDITIONAL_APPROVAL" then
      let conditions := [] in
      let conditions :=
        add_if (flt (Fin 36) dti)
          "Reduce existing debt to improve debt-to-income ratio" conditions in
      let conditions :=
        add_if (flt es (Fin 50))
          "Provide additional employment verification" conditions in
      add_if (credit_score <? 700)%Z
        "Consider a co-signer or additional collateral" conditions
    else [] in
  risk_factors <- _identify_risk_factors application_data financial_metrics ;;
  strengths <- _identify_strengths application_data financial_metrics ;;
  let reason :=
    "Rule-based evaluation score: " ++ fmt_float lib ".1f" total_score ++ "/100. " in
  let reason :=
    if approved then
      reason ++ "Application meets lending criteria with " ++ risk_level
             ++ " risk profile."
    else reason ++ "Application does not meet minimum lending criteria." in
  recommendations <-
    _generate_recommendations application_data financial_metrics approved ;;
  Ok [ ("approved", PBool approved);
       ("status", PStr status);
       ("risk_level", PStr risk_level);
       ("confidence_score", PNum (py_min (Fin 95) (fadd total_score (Fin 10))));
       ("recommended_interest_rate",
          get financial_metrics "estimated_interest_rate" (PInt 0));
       ("recommended_loan_amount", if approved then PNum loan_amount else PInt 0);
       ("conditions", strs conditions);
       ("risk_factors", strs risk_factors);
       ("strengths", strs strengths);
       ("reason", PStr reason);
       ("recommendations", strs recommendations);
       ("total_score", PNum total_score);
       ("score_breakdown", PDict [
          ("credit_score_component", PQ credit_component);
          ("debt_to_income_component", PQ dti_component);
          ("employment_component", PNum employment_component);
          ("income_component", PQ income_component);
          ("loan_to_income_component", PQ lti_component) ]) ].

(** The [except] block of [_rule_based_evaluation]. *)
Definition rule_error_result (e : pyexn) : dict :=
  [ ("approved", PBool false);
    ("status", PStr "ERROR");
    ("risk_level", PStr "high");
    ("reason", PStr ("Error in evaluation process: " ++ str_exn lib e));
    ("confidence_score", PQ 0) ].

Definition _rule_based_evaluation (application_data financial_metrics : dict)
  : dict :=
  match rule_based_body application_data financial_metrics with
  | Ok result => result
  | Raise e => rule_error_result e
  end.


(** [power x n] stands for [x ** n] on a float and an int, which raises
    OverflowError when the result does not fit a float; [u1] and [u2] are
    the two draws of [random.random()] behind the two calls of
    [_estimate_interest_rate]. *)
Definition metrics_body (power : pyfloat -> Z -> result pyfloat)
  (u1 u2 : Q) (application_data : dict) : result dict :=
  annual_income <- py_float lib (get application_data "annual_income" (PInt 0)) ;;
  loan_amount <- py_float lib (get application_data "loan_amount" (PInt 0)) ;;
  existing_debt <- py_float lib (get application_data "existing_debt" (PInt 0)) ;;
  loan_term <- py_int lib (get application_data "loan_term" (PInt 60)) ;;
  credit_score <- py_int lib (get application_data "credit_score" (PInt 0)) ;;
  employment_years <- py_int lib (get application_data "employment_years" (PInt 0)) ;;
  let monthly_income := fdiv_const annual_income 12 in
  let monthly_existing_debt := fdiv_const existing_debt 12 in
  let estimated_interest_rate :=
    _estimate_interest_rate u1 credit_score / 100 / 12 in
  monthly_payment <-
    (if negb (Qle_bool estimated_interest_rate 0) then
       growth <- power (Fin (1 + estimated_interest_rate)) loan_term ;;
       fdiv (fmul loan_amount (fmul (Fin estimated_interest_rate) growth))
            (fadd growth (Fin (-1)))
     else fdiv loan_amount (Fin (inject_Z loan_term))) ;;
  let total_monthly_debt := fadd monthly_existing_debt monthly_payment in
  debt_to_income_ratio <-
    (if flt fzero monthly_income then
       ratio <- fdiv total_monthly_debt monthly_income ;;
       Ok (fmul ratio (Fin 100))
     else Ok (Fin 999)) ;;
  loan_to_income_ratio <-
    (if flt fzero annual_income then
       ratio <- fdiv loan_amount annual_income ;;
       Ok (fmul ratio (Fin 100))
     else Ok (Fin 999)) ;;
  Ok [ ("monthly_income", PNum monthly_income);
       ("monthly_existing_debt", PNum monthly_existing_debt);
       ("estimated_monthly_payment", PNum monthly_payment);
       ("total_monthly_debt", PNum total_monthly_debt);
       ("debt_to_income_ratio", PNum debt_to_income_ratio);
       ("loan_to_income_ratio", PNum loan_to_income_ratio);
       ("estimated_interest_rate",
        PQ (_estimate_interest_rate u2 credit_score));
       ("employment_stability_score",
        PQ (_calculate_employment_score employment_years
              (get application_data "employment_status" (PStr EmptyString)))) ].

(** The [except] block returns the empty dict. *)
Definition _calculate_financial_metrics (power : pyfloat -> Z -> result pyfloat)
  (u1 u2 : Q) (application_data : dict) : dict :=
  match metrics_body power u1 u2 application_data with
  | Ok metrics => metrics
  | Raise _ => []
  end.

(** The values interpolated into the prompt, in order; the fixed text of
    the template around them is not reproduced.  The three amounts of the
    application and the five metrics are formatted as numbers, which
    raises when one of them is not a number. *)
Definition _create_evaluation_prompt (application_data financial_metrics : dict)
  : result string :=
  let field k default := str_of lib (get application_data k default) in
  annual_income <-
    py_format lib ",.2f" (get application_data "annual_income" (PInt 0)) ;;
  loan_amount <-
    py_format lib ",.2f" (get application_data "loan_amount" (PInt 0)) ;;
  existing_debt <-
    py_format lib ",.2f" (get application_data "existing_debt" (PInt 0)) ;;
  monthly_income <-
    py_format lib ",.2f" (get financial_metrics "monthly_income" (PInt 0)) ;;
  monthly_payment <-
    py_format lib ",.2f"
      (get financial_metrics "estimated_monthly_payment" (PInt 0)) ;;
  debt_to_income <-
    py_format lib ".1f" (get financial_metrics "debt_to_income_ratio" (PInt 0)) ;;
  loan_to_income <-
    py_format lib ".1f" (get financial_metrics "loan_to_income_ratio" (PInt 0)) ;;
  employment_score <-
    py_format lib ".1f"
      (get financial_metrics "employment_stability_score" (PInt 0)) ;;
  Ok (join "|"
        [ field "applicant_name" (PStr "N/A"); annual_income;
          field "employment_status" (PStr "N/A"); field "employer" (PStr "N/A");
          field "employment_years" (PInt 0); field "credit_score" (PInt 0);
          loan_amount; field "loan_purpose" (PStr "N/A");
          field "loan_term" (PInt 0); existing_debt;
          monthly_income; monthly_payment; debt_to_income; loan_to_income;
          employment_score ]).

(** The [try] block of one attempt of [_get_ai_evaluation], after
    [requests.post] returned or raised. *)
Definition attempt_body (out : http_outcome) : result (option dict) :=
  match out with
  | Fails e => Raise e
  | Reply status_code text =>
      if (status_code =? 200)%Z then
        result <- FraudAnalyzer.response_json lib text ;;
        response <- FraudAnalyzer.item result "response" ;;
        Ok (_parse_ai_response response)
      else Ok None
  end.

(** [if attempt < self.max_retries - 1: time.sleep(self.retry_delay)] *)
Definition pause (self : t) (attempt : nat) (st : io) : io :=
  if (Z.of_nat attempt <? Z.of_nat (max_retries self) - 1)%Z
  then sleep (retry_delay self) st else st.

(** [for attempt in todo: ...] followed by [return None]. *)
Fixpoint attempts (self : t) (w : world) (prompt : string)
  (todo : list nat) (st : io) : option dict * io :=
  match todo with
  | [] => (None, st)
  | attempt :: rest =>
      let out := endpoint w prompt (requests_sent st) in
      let st := send st in
      match attempt_body out with
      | Ok (Some parsed_result) =>
          if truthy (PDict parsed_result)
          then (Some (dict_set "success" (PBool true) parsed_result), st)
          else attempts self w prompt rest (pause self attempt st)
      | Ok None => attempts self w prompt rest (pause self attempt st)
      | Raise _ => attempts self w prompt rest (pause self attempt st)
      end
  end.

Definition _get_ai_evaluation (self : t) (w : world) (prompt : string)
  (st : io) : option dict * io :=
  attempts self w prompt (seq 0 (max_retries self)) st.

(** [key not in d or d[key] <= 0]: the comparison raises TypeError when
    the value is not a number. *)
Definition absent_or_not_positive (key : string) (d : dict) : result bool :=
  match dict_get key d with
  | None => Ok true
  | Some v => x <- num v ;; Ok (fle x fzero)
  end.

(** The [try] block of [_combine_ai_and_metrics]. *)
Definition combine_body (ai_result financial_metrics application_data : dict)
  : result dict :=
  let combined_result := ai_result in
  let combined_result :=
    dict_update combined_result
      [ ("debt_to_income_ratio",
         get financial_metrics "debt_to_income_ratio" (PInt 0));
        ("loan_to_income_ratio",
         get financial_metrics "loan_to_income_ratio" (PInt 0));
        ("employment_stability_score",
         get financial_metrics "employment_stability_score" (PInt 0));
        ("estimated_monthly_payment",
         get financial_metrics "estimated_monthly_payment" (PInt 0)) ] in
  use_estimate <-
    absent_or_not_positive "recommended_interest_rate" combined_result ;;
  let combined_result :=
    if use_estimate
    then dict_set "recommended_interest_rate"
           (get financial_metrics "estimated_interest_rate" (PInt 0))
           combined_result
    else combined_result in
  use_request <-
    absent_or_not_positive "recommended_loan_amount" combined_result ;;
  combined_result <-
    (if use_request then
       loan_amount <- py_float lib (get application_data "loan_amount" (PInt 0)) ;;
       Ok (dict_set "recommended_loan_amount" (PNum loan_amount) combined_result)
     else Ok combined_result) ;;
  let combined_result :=
    dict_set "approved"
      (PBool (truthy (get combined_result "approved" (PBool false))))
      combined_result in
  combined_result <-
    (if negb (truthy (get combined_result "risk_factors" PNone)) then
       risk_factors <- _identify_risk_factors application_data financial_metrics ;;
       Ok (dict_set "risk_factors" (strs risk_factors) combined_result)
     else Ok combined_result) ;;
  combined_result <-
    (if negb (truthy (get combined_result "strengths" PNone)) then
       strengths <- _identify_strengths application_data financial_metrics ;;
       Ok (dict_set "strengths" (strs strengths) combined_result)
     else Ok combined_result) ;;
  Ok combined_result.

(** The [except] block falls back to the rule-based evaluation. *)
Definition _combine_ai_and_metrics
  (ai_result financial_metrics application_data : dict) : dict :=
  match combine_body ai_result financial_metrics application_data with
  | Ok combined_result => combined_result
  | Raise _ => _rule_based_evaluation application_data financial_metrics
  end.

(** [ai_result and ai_result.get('success', False)], as a condition. *)
Definition succeeded (ai_result : option dict) : bool :=
  match ai_result with
  | Some ai => truthy (PDict ai) && truthy (get ai "success" (PBool false))
  | None => false
  end.

(** [clock w 0] is the reading stamped on the result. *)
Definition evaluate_application (power : pyfloat -> Z -> result pyfloat)
  (u1 u2 : Q) (self : t) (w : world) (application_data : dict)
  : result dict * io :=
  let financial_metrics :=
    _calculate_financial_metrics power u1 u2 application_data in
  match _create_evaluation_prompt application_data financial_metrics with
  | Raise e => (Raise e, io0)
  | Ok prompt =>
      let '(ai_result, st) := _get_ai_evaluation self w prompt io0 in
      let final_result :=
        match ai_result with
        | Some ai =>
            if succeeded ai_result
            then _combine_ai_and_metrics ai financial_metrics application_data
            else _rule_based_evaluation application_data financial_metrics
        | None => _rule_based_evaluation application_data financial_metrics
        end in
      let final_result :=
        dict_update final_result
          [ ("evaluation_timestamp", PStr (isoformat (clock w 0%nat)));
            ("evaluation_method",
             PStr (if succeeded ai_result then "ai_powered" else "rule_based"));
            ("financial_metrics", PDict financial_metrics) ] in
      (Ok final_result, st)
  end.

End WithLib.

End CreditScoring.

(** ** llm_screening.py *)

Module LLMScreening.

Record t : Type := {
  api_base : string;
  model : string;
  max_retries : nat;
  retry_delay : Z
}.

Definition __init__ : t := {|
  api_base := "http://localhost:11434/api/generate";
  model := "llama3.2:1b";
  max_retries := 3;
  retry_delay := 1
|}.

(** The refusal every failure path returns. *)
Definition refusal (reason : string) : dict :=
  [ ("allowed", PBool false);
    ("risk_level", PStr "high");
    ("reason", PStr reason) ].

Section WithLib.
Variable lib : PyLib.

Definition required_keys : list string := ["allowed"; "risk_level"; "reason"].

Definition missing_fields : pyexn :=
  ExValue "Missing required fields in LLM response".

(** The [try] block of [_parse_screening_result]. *)
Definition parse_body (response_text : pyval) : result dict :=
  match response_text with
  | PStr text =>
      let json_str := extract_object text in
      match json_loads lib json_str with
      | None => Raise (ExJSON json_str)
      | Some (PDict result) =>
          if negb (forallb (fun key => has_key key result) required_keys)
          then Raise missing_fields
          else
            risk_level <- subscript result "risk_level" ;;
            let result :=
              if negb (in_strs risk_level ["low"; "medium"; "high"])
              then dict_set "risk_level" (PStr "high") result else result in
            Ok [ ("allowed", PBool (truthy (get result "allowed" (PBool false))));
                 ("risk_level", get result "risk_level" (PStr "high"));
                 ("reason",
                  PStr (str_of lib
                          (get result "reason"
                               (PStr "Unable to parse LLM response")))) ]
      | Some (PList l) =>
          (* membership in a list, then list[str] *)
          if forallb (fun key => existsb (fun v => eq_str v key) l) required_keys
          then Raise (ExType (PList l)) else Raise missing_fields
      | Some (PStr s) =>
          (* substring test, then str[str] *)
          if forallb (contains s) required_keys
          then Raise (ExType (PStr s)) else Raise missing_fields
      | Some other => Raise (ExType other)
      end
  | PList _ => Raise (ExAttr response_text "strip")
  | _ => Raise (ExType response_text)
  end.

Definition _parse_screening_result (response_text : pyval) : dict :=
  match parse_body response_text with
  | Ok parsed => parsed
  | Raise e =>
      if is_json_decode_error e
      then refusal ("Invalid JSON response from LLM: " ++ str_exn lib e)
      else refusal ("Error parsing LLM response: " ++ str_exn lib e)
  end.

(** The values interpolated into the prompt, in order; a missing key
    raises KeyError. *)
Definition _create_screening_prompt (payment_data : dict) : result string :=
  sender_name <- subscript payment_data "sender_name" ;;
  sender_account <- subscript payment_data "sender_account" ;;
  receiver_name <- subscript payment_data "receiver_name" ;;
  receiver_account <- subscript payment_data "receiver_account" ;;
  amount <- subscript payment_data "amount" ;;
  currency <- subscript payment_data "currency" ;;
  purpose <- subscript payment_data "purpose" ;;
  Ok (join "|" (map (str_of lib)
        [ sender_name; sender_account; receiver_name; receiver_account;
          amount; currency; purpose ])).

(** The [try] block of one attempt up to the test of the status code:
    the parsed result of a 200 response, or the status and text of another
    response. *)
Definition attempt_body (out : http_outcome) : result (dict + Z * string) :=
  match out with
  | Fails e => Raise e
  | Reply status_code text =>
      if (status_code =? 200)%Z then
        result <- FraudAnalyzer.response_json lib text ;;
        response <- FraudAnalyzer.item result "response" ;;
        Ok (inl (_parse_screening_result response))
      else Ok (inr (status_code, text))
  end.

Definition last_attempt (self : t) (attempt : nat) : bool :=
  negb (Z.of_nat attempt <? Z.of_nat (max_retries self) - 1)%Z.

(** [for attempt in todo: ...]; the loop falls through (and the method
    returns None) only when there is nothing to do. *)
Fixpoint attempts (self : t) (w : world) (prompt : string)
  (todo : list nat) (st : io) : option dict * io :=
  match todo with
  | [] => (None, st)
  | attempt :: rest =>
      let out := endpoint w prompt (requests_sent st) in
      let st := send st in
      match attempt_body out with
      | Ok (inl parsed_result) => (Some parsed_result, st)
      | Ok (inr (status_code, text)) =>
          if last_attempt self attempt then
            (Some (refusal ("LLM service error: " ++ str_of lib (PInt status_code)
                            ++ ". Response: " ++ text)), st)
          else attempts self w prompt rest (sleep (retry_delay self) st)
      | Raise e =>
          if last_attempt self attempt then
            (Some (refusal
                     ((if is_request_exception e
                       then "LLM service connection error: "
                       else "Unexpected error: ") ++ str_exn lib e)), st)
          else attempts self w prompt rest (sleep (retry_delay self) st)
      end
  end.

Definition screen_payment (self : t) (w : world) (payment_data : dict)
  : result (option dict) * io :=
  match _create_screening_prompt payment_data with
  | Raise e => (Raise e, io0)
  | Ok prompt =>
      let '(r, st) := attempts self w prompt (seq 0 (max_retries self)) io0 in
      (Ok r, st)
  end.

End WithLib.

End LLMScreening.

(** ** fraud_detection.py *)

Module FraudDetection.

(** The keys the monitoring thread and the manual entry write into a
    transaction record. *)
Definition record_keys : list string :=
  [ "fraud_score"; "risk_level"; "fraud_indicators"; "analysis_method";
    "status"; "ai_confidence" ].

(** [transaction.update({...})], the statement both
    [TransactionMonitoringThread.run] and [process_manual_transaction]
    execute on the result of the analysis. *)
Definition record_analysis (transaction fraud_result : dict) : dict :=
  dict_update transaction
    [ ("fraud_score", get fraud_result "fraud_score" (PInt 0));
      ("risk_level", get fraud_result "risk_level" (PStr "low"));
      ("fraud_indicators", get fraud_result "fraud_indicators" (PList []));
      ("analysis_method", get fraud_result "analysis_method" (PStr "rule_based"));
      ("status",
       PStr (if truthy (get fraud_result "is_fraud" (PBool false))
             then "flagged" else "approved"));
      ("ai_confidence", get fraud_result "ai_confidence" (PInt 0)) ].

Section WithLib.
Variable lib : PyLib.

(** The record [process_manual_transaction] hands to the database, or
    [None] when the analysis raised and the [except] clause only shows a
    warning.  The same holds for one round of the loop of the monitoring
    thread. *)
Definition process_manual_transaction (fraud_analyzer : FraudAnalyzer.t)
  (w : world) (transaction : dict) : option dict * io :=
  match FraudAnalyzer.analyze_transaction lib fraud_analyzer w transaction with
  | (Ok fraud_result, st) => (Some (record_analysis transaction fraud_result), st)
  | (Raise _, st) => (None, st)
  end.

End WithLib.

End FraudDetection.

(** ** payment.py *)

Module Payment.

(** [len(v)] *)
Definition py_len (v : pyval) : result Z :=
  match v with
  | PStr s => Ok (len s)
  | PList l => Ok (Z.of_nat (List.length l))
  | PDict d => Ok (Z.of_nat (List.length d))
  | _ => Raise (ExType v)
  end.

Section WithLib.
Variable lib : PyLib.

(** The [else] branch of [PaymentThread.run]: the screening without the
    language model.  The receiver's account is looked at only when the
    sender's account has at most ten characters. *)
Definition rule_based_screening (payment_data : dict) : result dict :=
  amount_field <- subscript payment_data "amount" ;;
  amount <- py_float lib amount_field ;;
  sender_account <- subscript payment_data "sender_account" ;;
  sender_length <- py_len sender_account ;;
  is_international <-
    (if sender_length >? 10 then Ok true
     else
       receiver_account <- subscript payment_data "receiver_account" ;;
       receiver_length <- py_len receiver_account ;;
       Ok (receiver_length >? 10)) ;;
  if flt (Fin 1000000) amount then
    Ok [ ("allowed", PBool false);
         ("risk_level", PStr "high");
         ("reason",
          PStr "High-value transaction requires additional verification") ]
  else if is_international then
    Ok [ ("allowed", PBool true);
         ("risk_level", PStr "medium");
         ("reason",
          PStr "International transfer - standard verification required") ]
  else
    Ok [ ("allowed", PBool true);
         ("risk_level", PStr "low");
         ("reason", PStr "Standard domestic transaction") ].

(** [PaymentThread.run], without the progress signals: what is emitted
    as the screening result. *)
Definition run (use_llm : bool) (w : world) (payment_data : dict)
  : result (option dict) * io :=
  if use_llm
  then LLMScreening.screen_payment lib LLMScreening.__init__ w payment_data
  else
    match rule_based_screening payment_data with
    | Ok screening_result => (Ok (Some screening_result), io0)
    | Raise e => (Raise e, io0)
    end.

End WithLib.

(** [payment.is_high_risk = result['risk_level'] == 'high'] in
    [handle_screening_result], for a payment found in the database. *)
Definition handle_screening_result (screening : option dict) : result bool :=
  match screening with
  | None => Raise (ExType PNone)
  | Some screening_result =>
      risk_level <- subscript screening_result "risk_level" ;;
      Ok (eq_str risk_level "high")
  end.

End Payment.

(** ** loan_application.py *)

Module LoanApplication.

Local Open Scope Q_scope.

Section WithLib.
Variable lib : PyLib.

(** The [try] block of [LoanProcessingThread._rule_based_scoring]; [u]
    is the draw of [random.random()] behind the one call of
    [random.uniform] an approval makes. *)
Definition scoring_body (u : Q) (loan_data : dict) : result dict :=
  credit_score <- py_int lib (get loan_data "credit_score" (PInt 0)) ;;
  annual_income <- py_float lib (get loan_data "annual_income" (PInt 0)) ;;
  loan_amount <- py_float lib (get loan_data "loan_amount" (PInt 0)) ;;
  existing_debt <- py_float lib (get loan_data "existing_debt" (PInt 0)) ;;
  employment_years <- py_int lib (get loan_data "employment_years" (PInt 0)) ;;
  let monthly_income := fdiv_const annual_income 12 in
  let monthly_debt := fdiv_const existing_debt 12 in
  loan_term <- py_int lib (get loan_data "loan_term" (PInt 60)) ;;
  loan_payment <- fdiv loan_amount (Fin (inject_Z loan_term)) ;;
  let total_monthly_debt := fadd monthly_debt loan_payment in
  debt_to_income <-
    (if flt fzero monthly_income then
       ratio <- fdiv total_monthly_debt monthly_income ;;
       Ok (fmul ratio (Fin 100))
     else Ok (Fin 100)) ;;
  let score := 0%Z in
  let risk_factors := [] in
  let '(score, risk_factors) :=
    if (credit_score >=? 750)%Z then ((score + 40)%Z, risk_factors)
    else if (credit_score >=? 700)%Z then ((score + 30)%Z, risk_factors)
    else if (credit_score >=? 650)%Z then ((score + 20)%Z, risk_factors)
    else if (credit_score >=? 600)%Z then ((score + 10)%Z, risk_factors)
    else (score,
          CreditScoring.append risk_factors
            ("Low credit score: " ++ str_of lib (PInt credit_score))) in
  let '(score, risk_factors) :=
    if fle debt_to_income (Fin 30) then ((score + 30)%Z, risk_factors)
    else if fle debt_to_income (Fin 40) then ((score + 20)%Z, risk_factors)
    else if fle debt_to_income (Fin 50) then ((score + 10)%Z, risk_factors)
    else (score,
          CreditScoring.append risk_factors
            ("High debt-to-income ratio: "
             ++ fmt_float lib ".1f" debt_to_income ++ "%")) in
  let '(score, risk_factors) :=
    if (employment_years >=? 5)%Z then ((score + 20)%Z, risk_factors)
    else if (employment_years >=? 2)%Z then ((score + 15)%Z, risk_factors)
    else if (employment_years >=? 1)%Z then ((score + 10)%Z, risk_factors)
    else (score,
          CreditScoring.append risk_factors
            ("Short employment history: "
             ++ str_of lib (PInt employment_years) ++ " years")) in
  let '(score, risk_factors) :=
    if fge annual_income (Fin 75000) then ((score + 10)%Z, risk_factors)
    else if fge annual_income (Fin 50000) then ((score + 5)%Z, risk_factors)
    else if flt annual_income (Fin 30000) then
      (score,
       CreditScoring.append risk_factors
         ("Low annual income: $" ++ fmt_float lib ",.2f" annual_income))
    else (score, risk_factors) in
  let '(status, risk_level, interest_rate) :=
    if (score >=? 80)%Z then
      ("APPROVED", "low", PQ (3.5 + CreditScoring.uniform 0 1.5 u))
    else if (score >=? 60)%Z then
      ("CONDITIONAL_APPROVAL", "medium", PQ (5.0 + CreditScoring.uniform 0 2.0 u))
    else ("REJECTED", "high", PNone) in
  let reason := "Credit score: " ++ str_of lib (PInt score) ++ "/100. " in
  let reason :=
    match risk_factors with
    | [] => reason ++ "All criteria met satisfactorily."
    | _ => reason ++ "Risk factors: " ++ join "; " risk_factors
    end in
  Ok [ ("approved", PBool (String.eqb status "APPROVED"));
       ("status", PStr status);
       ("risk_level", PStr risk_level);
       ("credit_score_calculated", PInt score);
       ("debt_to_income_ratio", PNum debt_to_income);
       ("interest_rate", interest_rate);
       ("reason", PStr reason);
       ("risk_factors", CreditScoring.strs risk_factors) ].

(** The [except] block of [_rule_based_scoring]. *)
Definition scoring_error_result (e : pyexn) : dict :=
  [ ("approved", PBool false);
    ("status", PStr "ERROR");
    ("risk_level", PStr "high");
    ("reason", PStr ("Error in processing: " ++ str_exn lib e)) ].

Definition _rule_based_scoring (u : Q) (loan_data : dict) : dict :=
  match scoring_body u loan_data with
  | Ok result => result
  | Raise e => scoring_error_result e
  end.

(** [LoanProcessingThread.run], without the progress signals: what is
    emitted as the scoring result.  The thread builds its own
    [CreditScoring()]. *)
Definition run (power : pyfloat -> Z -> result pyfloat) (u u1 u2 : Q)
  (use_ai : bool) (w : world) (loan_data : dict) : result dict * io :=
  if use_ai
  then CreditScoring.evaluate_application lib power u1 u2
         (CreditScoring.__init__ "http://localhost:11434/api/generate"
            "llama3.2:1b") w loan_data
  else (Ok (_rule_based_scoring u loan_data), io0).

End WithLib.

End LoanApplication.

(** ** Executable instances of the library functions

    Reference implementations for text with code points below 256, used to
    run the engine on concrete inputs. *)

Module Ref.

Local Open Scope Z_scope.

Definition quote : ascii := "034"%char.
Definition backslash : ascii := "092"%char.

(** A JSON or Python text written with ['] where the text has a double
    quote. *)
Definition text (s : string) : string :=
  replace_char "'"%char (String quote EmptyString) s.

Definition is_digit (c : ascii) : bool :=
  let n := Z.of_nat (nat_of_ascii c) in (48 <=? n) && (n <=? 57).

Definition digit_val (c : ascii) : Z := Z.of_nat (nat_of_ascii c) - 48.

(** Leading decimal digits of a string: their value, their number, the rest. *)
Fixpoint digits (s : string) (acc : Z) (n : nat) : Z * nat * string :=
  match s with
  | String c s' =>
      if is_digit c then digits s' (10 * acc + digit_val c) (S n)
      else (acc, n, s)
  | EmptyString => (acc, n, s)
  end.

Definition pow10 (n : nat) : Q := inject_Z (10 ^ Z.of_nat n).

(** An unsigned decimal numeral: digits, optional fraction, optional
    exponent.  [strict] asks for the JSON form (no leading zero, digits on
    both sides of the point). *)
Definition unsigned_number (strict : bool) (s : string) : option (Q * string) :=
  let '(ip, n, r) := digits s 0 0%nat in
  let leading_zero :=
    match s with
    | String "0" _ => (2 <=? n)%nat
    | _ => false
    end in
  if (strict && ((n =? 0)%nat || leading_zero))%bool then None
  else
    let '(fp, m, r, has_point) :=
      match r with
      | String "." r' =>
          let '(fp, m, r'') := digits r' 0 0%nat in (fp, m, r'', true)
      | _ => (0, 0%nat, r, false)
      end in
    if (has_point && strict && (m =? 0)%nat)%bool then None
    else if ((n =? 0) && (m =? 0))%nat then None
    else
      let mantissa := (inject_Z ip + inject_Z fp / pow10 m)%Q in
      match r with
      | String e r' =>
          if (Ascii.eqb e "e" || Ascii.eqb e "E")%bool then
            let '(neg, r'') :=
              match r' with
              | String "-" t => (true, t)
              | String "+" t => (false, t)
              | _ => (false, r')
              end in
            let '(ex, k, rest) := digits r'' 0 0%nat in
            if (k =? 0)%nat then
              if strict then Some (Qred mantissa, r) else None
            else
              Some (Qred (if neg then mantissa / pow10 (Z.to_nat ex)
                          else mantissa * pow10 (Z.to_nat ex))%Q, rest)
          else Some (Qred mantissa, r)
      | EmptyString => Some (Qred mantissa, r)
      end.

Fixpoint skip_ws (s : string) : string :=
  match s with
  | String c s' =>
      let n := Z.of_nat (nat_of_ascii c) in
      if (n =? 32) || (n =? 9) || (n =? 10) || (n =? 13) then skip_ws s' else s
  | EmptyString => s
  end.

Definition hex_val (c : ascii) : option Z :=
  let n := Z.of_nat (nat_of_ascii c) in
  if (48 <=? n) && (n <=? 57) then Some (n - 48)
  else if (97 <=? n) && (n <=? 102) then Some (n - 87)
  else if (65 <=? n) && (n <=? 70) then Some (n - 55)
  else None.

(** The inside of a JSON string, after the opening quote. *)
Fixpoint string_body (s : string) : option (string * string) :=
  match s with
  | EmptyString => None
  | String c s' =>
      if Ascii.eqb c quote then Some (EmptyString, s')
      else if Ascii.eqb c backslash then
        match s' with
        | String e s'' =>
            let simple (x : ascii) :=
              match string_body s'' with
              | Some (t, r) => Some (String x t, r)
              | None => None
              end in
            if Ascii.eqb e quote then simple quote
            else if Ascii.eqb e backslash then simple backslash
            else if Ascii.eqb e "/" then simple "/"%char
            else if Ascii.eqb e "b" then simple "008"%char
            else if Ascii.eqb e "f" then simple "012"%char
            else if Ascii.eqb e "n" then simple "010"%char
            else if Ascii.eqb e "r" then simple "013"%char
            else if Ascii.eqb e "t" then simple "009"%char
            else if Ascii.eqb e "u" then
              match s'' with
              | String a (String b (String c1 (String d r)) as tail3) =>
                  match hex_val a, hex_val b, hex_val c1, hex_val d with
                  | Some 0, Some 0, Some h, Some l =>
                      match string_body r with
                      | Some (t, r') =>
                          Some (String (ascii_of_nat (Z.to_nat (16 * h + l))) t, r')
                      | None => None
                      end
                  | _, _, _, _ => None
                  end
              | _ => None
              end
            else None
        | EmptyString => None
        end
      else if (Z.of_nat (nat_of_ascii c) <? 32) then None
      else
        match string_body s' with
        | Some (t, r) => Some (String c t, r)
        | None => None
        end
  end.

Definition literal (word : string) (v : pyval) (s : string)
  : option (pyval * string) :=
  if String.prefix word s then Some (v, drop (String.length word) s) else None.

(** A JSON value, then the rest of the text. *)
Fixpoint value (fuel : nat) (s : string) : option (pyval * string) :=
  match fuel with
  | O => None
  | S fuel =>
      match skip_ws s with
      | String "{" r =>
          match skip_ws r with
          | String "}" r' => Some (PDict [], r')
          | _ => members fuel r []
          end
      | String "[" r =>
          match skip_ws r with
          | String "]" r' => Some (PList [], r')
          | _ => elements fuel r []
          end
      | String "t" _ as t => literal "true" (PBool true) t
      | String "f" _ as t => literal "false" (PBool false) t
      | String "n" _ as t => literal "null" PNone t
      | String "N" _ as t => literal "NaN" (PNum NaN) t
      | String "I" _ as t => literal "Infinity" (PNum PosInf) t
      | String "-" (String "I" _ as t) => literal "Infinity" (PNum NegInf) t
      | String "-" r =>
          match unsigned_number true r with
          | Some (q, r') => Some (PNum (Fin (- q)), r')
          | None => None
          end
      | String c r as t =>
          if Ascii.eqb c quote then
            match string_body r with
            | Some (str, r') => Some (PStr str, r')
            | None => None
            end
          else
            match unsigned_number true t with
            | Some (q, r') => Some (PNum (Fin q), r')
            | None => None
            end
      | EmptyString => None
      end
  end
with elements (fuel : nat) (s : string) (acc : list pyval)
  : option (pyval * string) :=
  match fuel with
  | O => None
  | S fuel =>
      match value fuel s with
      | Some (v, r) =>
          match skip_ws r with
          | String "," r' => elements fuel r' (acc ++ [v])%list
          | String "]" r' => Some (PList (acc ++ [v])%list, r')
          | _ => None
          end
      | None => None
      end
  end
with members (fuel : nat) (s : string) (acc : dict)
  : option (pyval * string) :=
  match fuel with
  | O => None
  | S fuel =>
      match skip_ws s with
      | String c r =>
          if Ascii.eqb c quote then
            match string_body r with
            | Some (key, r') =>
                match skip_ws r' with
                | String ":" r'' =>
                    match value fuel r'' with
                    | Some (v, r3) =>
                        match skip_ws r3 with
                        | String "," r4 => members fuel r4 (dict_set key v acc)
                        | String "}" r4 => Some (PDict (dict_set key v acc), r4)
                        | _ => None
                        end
                    | None => None
                    end
                | _ => None
                end
            | None => None
            end
          else None
      | EmptyString => None
      end
  end.

(** [json.loads] *)
Definition json_loads (s : string) : option pyval :=
  match value (2 * String.length s + 4) s with
  | Some (v, r) =>
      match skip_ws r with
      | EmptyString => Some v
      | _ => None
      end
  | None => None
  end.

Definition dec (z : Z) : string := NilZero.string_of_int (Z.to_int z).

(** A text as it stands inside a JSON string: quotes and backslashes
    escaped. *)
Fixpoint escape (s : string) : string :=
  match s with
  | EmptyString => EmptyString
  | String c s' =>
      if (Ascii.eqb c quote || Ascii.eqb c backslash)%bool
      then String backslash (String c (escape s'))
      else String c (escape s')
  end.

Definition sign_and_rest (s : string) : bool * string :=
  match s with
  | String "-" r => (true, r)
  | String "+" r => (false, r)
  | _ => (false, s)
  end.

(** [float(text)] on decimal numerals, [inf], [infinity] and [nan]. *)
Definition float_of_str (s : string) : option pyfloat :=
  let '(neg, body) := sign_and_rest (strip s) in
  let word := lower body in
  if (String.eqb word "inf" || String.eqb word "infinity")%bool
  then Some (if neg then NegInf else PosInf)
  else if String.eqb word "nan" then Some NaN
  else
    match unsigned_number false body with
    | Some (q, EmptyString) => Some (Fin (if neg then - q else q)%Q)
    | _ => None
    end.

(** [int(text)] on decimal numerals. *)
Definition int_of_str (s : string) : option Z :=
  let '(neg, body) := sign_and_rest (strip s) in
  match digits body 0 0%nat with
  | (z, S _, EmptyString) => Some (if neg then - z else z)
  | _ => None
  end.

(** Exactly [n] decimal digits. *)
Fixpoint fixed_digits (n : nat) (s : string) (acc : Z) : option (Z * string) :=
  match n with
  | O => Some (acc, s)
  | S n' =>
      match s with
      | String c s' =>
          if is_digit c then fixed_digits n' s' (10 * acc + digit_val c) else None
      | EmptyString => None
      end
  end.

Definition is_leap (y : Z) : bool :=
  ((y mod 4 =? 0) && negb (y mod 100 =? 0)) || (y mod 400 =? 0).

Definition days_in_month (y m : Z) : Z :=
  if m =? 2 then (if is_leap y then 29 else 28)
  else if (m =? 4) || (m =? 6) || (m =? 9) || (m =? 11) then 30 else 31.

(** Days since 1970-01-01 in the proleptic Gregorian calendar. *)
Definition days_from_civil (y m d : Z) : Z :=
  let y' := if m <=? 2 then y - 1 else y in
  let era := y' / 400 in
  let yoe := y' - era * 400 in
  let mp := (m + 9) mod 12 in
  let doy := (153 * mp + 2) / 5 + d - 1 in
  let doe := yoe * 365 + yoe / 4 - yoe / 100 + doy in
  era * 146097 + doe - 719468.

(** Monday is 0; 1970-01-01 was a Thursday. *)
Definition weekday_of (y m d : Z) : Z := (days_from_civil y m d + 3) mod 7.

Definition two (z : Z) : string :=
  if z <? 10 then "0" ++ dec z else dec z.

Definition four (z : Z) : string :=
  (if z <? 10 then "000" else if z <? 100 then "00"
   else if z <? 1000 then "0" else EmptyString) ++ dec z.

(** [datetime.fromisoformat] on [YYYY-MM-DD], optionally followed by one
    separator character and [HH:MM], [HH:MM:SS] or [HH:MM:SS.ffffff], and
    then an offset [+HH:MM] or [-HH:MM]. *)
Definition fromisoformat (s : string) : option datetime :=
  match fixed_digits 4 s 0 with
  | Some (y, String "-" s1) =>
      match fixed_digits 2 s1 0 with
      | Some (m, String "-" s2) =>
          match fixed_digits 2 s2 0 with
          | Some (d, rest) =>
              if (1 <=? y) && (1 <=? m) && (m <=? 12) && (1 <=? d)
                 && (d <=? days_in_month y m)
              then
                let date := four y ++ "-" ++ two m ++ "-" ++ two d in
                let make (h : Z) (time : string) :=
                  Some {| hour := h; weekday := weekday_of y m d;
                          isoformat := date ++ "T" ++ time |} in
                let offset_ok (t : string) :=
                  match t with
                  | EmptyString => true
                  | String sg t' =>
                      (Ascii.eqb sg "+" || Ascii.eqb sg "-")%bool
                      && match fixed_digits 2 t' 0 with
                         | Some (oh, String ":" t'') =>
                             match fixed_digits 2 t'' 0 with
                             | Some (om, EmptyString) => (oh <? 24) && (om <? 60)
                             | _ => false
                             end
                         | _ => false
                         end
                  end in
                match rest with
                | EmptyString => make 0 "00:00:00"
                | String _ s3 =>
                    match fixed_digits 2 s3 0 with
                    | Some (h, String ":" s4) =>
                        match fixed_digits 2 s4 0 with
                        | Some (mi, s5) =>
                            if (h <? 24) && (mi <? 60) then
                              match s5 with
                              | String ":" s6 =>
                                  match fixed_digits 2 s6 0 with
                                  | Some (sec, s7) =>
                                      if sec <? 60 then
                                        match s7 with
                                        | String "." s8 =>
                                            match fixed_digits 6 s8 0 with
                                            | Some (us, s9) =>
                                                if offset_ok s9 then
                                                  make h (two h ++ ":" ++ two mi ++ ":"
                                                          ++ two sec
                                                          ++ (if us =? 0 then EmptyString
                                                              else "." ++ take 6 s8)
                                                          ++ s9)
                                                else None
                                            | None => None
                                            end
                                        | _ =>
                                            if offset_ok s7 then
                                              make h (two h ++ ":" ++ two mi ++ ":"
                                                      ++ two sec ++ s7)
                                            else None
                                        end
                                      else None
                                  | None => None
                                  end
                              | _ =>
                                  if offset_ok s5 then
                                    make h (two h ++ ":" ++ two mi ++ ":00" ++ s5)
                                  else None
                              end
                            else None
                        | None => None
                        end
                    | _ => None
                    end
                end
              else None
          | None => None
          end
      | _ => None
      end
  | _ => None
  end.

(** Rounding to the nearest integer, ties to even. *)
Definition round_half_even (q : Q) : Z :=
  let f := Qfloor q in
  let r := (q - inject_Z f)%Q in
  match (r ?= 1 # 2)%Q with
  | Lt => f
  | Gt => f + 1
  | Eq => if Z.even f then f else f + 1
  end.

(** Thousands separators, on the reversed digits. *)
Fixpoint group3 (rev_digits : list ascii) (k : nat) : list ascii :=
  match rev_digits with
  | [] => []
  | c :: rest =>
      match k, rest with
      | 2%nat, _ :: _ => c :: ","%char :: group3 rest 0
      | _, _ => c :: group3 rest (S k)
      end
  end.

Definition grouped (s : string) : string :=
  string_of_list_ascii
    (rev (group3 (rev (list_ascii_of_string s)) 0)).

Fixpoint zeros (n : nat) : string :=
  match n with
  | O => EmptyString
  | S n' => String "0" (zeros n')
  end.

(** [format(x, '.nf')], with [,] for the grouping option. *)
Definition fixed (decimals : nat) (grouping : bool) (x : pyfloat) : string :=
  match x with
  | NaN => "nan"
  | PosInf => "inf"
  | NegInf => "-inf"
  | Fin q =>
      let neg := negb (Qle_bool 0 q) in
      let a := Qabs q in
      let scale := 10 ^ Z.of_nat decimals in
      let n := round_half_even (a * inject_Z scale) in
      let ip := dec (n / scale) in
      let fp := dec (n mod scale) in
      (if neg then "-" else EmptyString)
      ++ (if grouping then grouped ip else ip)
      ++ (match decimals with
          | O => EmptyString
          | _ => "." ++ zeros (decimals - String.length fp) ++ fp
          end)
  end.

Definition fmt_float (spec : string) (x : pyfloat) : string :=
  if String.eqb spec ",.2f" then fixed 2 true x
  else if String.eqb spec ".2f" then fixed 2 false x
  else if String.eqb spec ".1f" then fixed 1 false x
  else fixed 6 false x.

Definition fmt_02d (n : Z) : string :=
  if (0 <=? n) && (n <? 10) then "0" ++ dec n else dec n.

(** The least [k <= fuel] with [q * 10^k] an integer, if any. *)
Fixpoint decimals_needed (fuel : nat) (k : nat) (q : Q) : option nat :=
  if Qeq_bool (inject_Z (Qfloor q)) q then Some k
  else match fuel with
       | O => None
       | S fuel' => decimals_needed fuel' (S k) (q * 10)%Q
       end.

Definition show_num (x : pyfloat) : string :=
  match x with
  | Fin q =>
      match decimals_needed 17 0 q with
      | Some k => fixed k false x
      | None => fixed 17 false x
      end
  | other => fixed 0 false other
  end.

Definition type_name (v : pyval) : string :=
  match v with
  | PNone => "NoneType"
  | PBool _ => "bool"
  | PNum _ => "float"
  | PStr _ => "str"
  | PList _ => "list"
  | PDict _ => "dict"
  end.

(** [str(v)] when [top] is true, [repr(v)] otherwise. *)
Fixpoint show (top : bool) (v : pyval) : string :=
  match v with
  | PNone => "None"
  | PBool true => "True"
  | PBool false => "False"
  | PNum x => show_num x
  | PStr s => if top then s else "'" ++ s ++ "'"
  | PList l => "[" ++ join ", " (map (show false) l) ++ "]"
  | PDict d =>
      "{" ++ join ", "
               (map (fun kv => match kv with
                               | (k, v') => "'" ++ k ++ "': " ++ show false v'
                               end) d)
          ++ "}"
  end.

Definition str_of (v : pyval) : string := show true v.

(** The wording of the interpreter's messages, approximately. *)
Definition str_exn (e : pyexn) : string :=
  match e with
  | ExFloat (PStr s) => "could not convert string to float: '" ++ s ++ "'"
  | ExFloat v =>
      "float() argument must be a string or a real number, not '"
      ++ type_name v ++ "'"
  | ExInt (PStr s) => "invalid literal for int() with base 10: '" ++ s ++ "'"
  | ExInt v =>
      "int() argument must be a string, a bytes-like object or a real number, not '"
      ++ type_name v ++ "'"
  | ExAttr v attr =>
      "'" ++ type_name v ++ "' object has no attribute '" ++ attr ++ "'"
  | ExFormat v spec =>
      "unsupported format string passed to " ++ type_name v ++ ".__format__"
  | ExKey k => "'" ++ k ++ "'"
  | ExType v => "unsupported operand type: '" ++ type_name v ++ "'"
  | ExJSON _ => "Expecting value: line 1 column 1 (char 0)"
  | ExValue msg => msg
  | ExRequest detail => detail
  | ExOther detail => detail
  end.

Definition lib : PyLib :=
  Build_PyLib json_loads float_of_str int_of_str fromisoformat
              fmt_float fmt_02d str_of str_exn.

End Ref.

(** ** The threshold ladders *)

Local Open Scope Q_scope.

(** The ladder of [_rule_based_analysis] and [_generate_rule_explanation]. *)
Definition rule_ladder (score : Q) : string :=
  if Qle_bool 80 score then "high"
  else if Qle_bool 50 score then "medium"
  else if Qle_bool 30 score then "low"
  else "very_low".

(** The ladder of [_combine_ai_and_rules]. *)
Definition combiner_ladder (score : Q) : string :=
  if Qle_bool 85 score then "critical"
  else if Qle_bool 70 score then "high"
  else if Qle_bool 50 score then "medium"
  else if Qle_bool 30 score then "low"
  else "very_low".

(** The ladder in the words of the specification: very_low below 15, low in
    [15,30), medium in [30,50), high in [50,80), critical from 80. *)
Definition spec_ladder (score : Q) : string :=
  if Qle_bool 80 score then "critical"
  else if Qle_bool 50 score then "high"
  else if Qle_bool 30 score then "medium"
  else if Qle_bool 15 score then "low"
  else "very_low".

(** The score of a verdict, in lowest terms. *)
Definition score_of (verdict : dict) : option Q :=
  match dict_get "fraud_score" verdict with
  | Some (PNum (Fin q)) => Some (Qred q)
  | _ => None
  end.

(** [c] does not occur in [s]. *)
Definition absent (c : ascii) (s : string) : Prop :=
  ~ In c (list_ascii_of_string s).

Local Close Scope Q_scope.

(** ** Concrete inputs *)

Module Sample.

Definition monday_noon : datetime :=
  {| hour := 12; weekday := 0; isoformat := "2025-02-03T12:00:00" |}.


(** An endpoint nobody listens on. *)
Definition unreachable : world :=
  {| endpoint := fun _ _ => Fails (ExRequest "Connection refused");
     clock := fun _ => monday_noon |}.

(** The envelope [{"response": <text>}] the endpoint wraps its text in. *)
Definition envelope (response : string) : string :=
  Ref.text "{'response': '" ++ Ref.escape response ++ Ref.text "'}".

(** An endpoint that answers 200 with the same text every time. *)
Definition answering (response : string) : world :=
  {| endpoint := fun _ _ => Reply 200 (envelope response);
     clock := fun _ => monday_noon |}.


(** A purchase abroad: the only rule that fires is the foreign location. *)
Definition abroad : dict :=
  [ ("transaction_id", PStr "TXN002");
    ("amount", PQ 50);
    ("merchant_category", PStr "grocery");
    ("transaction_type", PStr "purchase");
    ("location", PStr "London, UK");
    ("timestamp", PStr "2025-02-03T12:00:00") ].

(** A large wire transfer: amount 30, merchant 15, type 25 points. *)
Definition wire : dict :=
  [ ("transaction_id", PStr "TXN003");
    ("amount", PQ 12000);
    ("merchant_category", PStr "wire_transfer");
    ("transaction_type", PStr "transfer");
    ("location", PStr "New York");
    ("timestamp", PStr "2025-02-03T12:00:00") ].


(** A record whose location column is NULL. *)
Definition no_location : dict :=
  [ ("transaction_id", PStr "TXN005");
    ("amount", PQ 50);
    ("location", PNone);
    ("timestamp", PStr "2025-02-03T12:00:00") ].


(** Advisory texts. *)
Definition advisory (fraud_score : string) : string :=
  Ref.text "{'is_fraud': true, 'fraud_score': " ++ fraud_score
  ++ Ref.text ", 'risk_level': 'high', 'confidence': 90, 'explanation': 'x'}".

Definition noisy : string :=
  Ref.text "garbage{'fraud_score':150,'risk_level':'banana','is_fraud':'yes','explanation':'x'}trailing".


Definition no_explanation : string :=
  Ref.text "{'fraud_score':150,'risk_level':'high','is_fraud':true}".

Definition no_reason : string :=
  Ref.text "{'approved':true,'status':'APPROVED','risk_level':'low'}".

(** A payment to screen. *)
Definition payment : dict :=
  [ ("reference", PStr "PAY-1");
    ("sender_name", PStr "A"); ("sender_account", PStr "1");
    ("receiver_name", PStr "B"); ("receiver_account", PStr "2");
    ("amount", PQ 10); ("currency", PStr "EUR"); ("purpose", PStr "rent") ].

End Sample.

(** ** Auxiliary definitions for the statements *)

(** Whether the reply to one request ends the loop of the client of the
    fraud analyzer. *)
Definition usable (lib : PyLib) (out : http_outcome) : bool :=
  match FraudAnalyzer.attempt_body lib out with
  | Ok (Some parsed_result) => truthy (PDict parsed_result)
  | _ => false
  end.

(** A verdict whose score is a number between 0 and 100. *)
Definition score_in_range (verdict : dict) : Prop :=
  exists q, dict_get "fraud_score" verdict = Some (PNum (Fin q))
            /\ (0 <= q <= 100)%Q.


(** Two steps of [FraudAnalyzer.parse_body], named: the tier and the
    confidence of the decoded object. *)
Definition level_step (level : pyval) (d : dict) : dict :=
  if negb (in_strs level FraudAnalyzer.valid_risk_levels)
  then dict_set "risk_level" (PStr "medium") d else d.

Definition confidence_step (lib : PyLib) (d : dict) : result dict :=
  if has_key "confidence" d then
    confidence <- py_float lib (get d "confidence" (PInt 0)) ;;
    Ok (dict_set "confidence" (PNum (FraudAnalyzer.clamp_0_100 confidence)) d)
  else Ok d.

(** ** Auxiliary definitions for the further properties *)

(** Every append to the indicators comes with one to the risk factors. *)
Definition paired (f : FraudAnalyzer.findings) : Prop :=
  List.length (FraudAnalyzer.indicators f)
  = List.length (FraudAnalyzer.risk_factors f).

(** One step of the rule engine: it contributes [a] to the score and
    turns the findings [f] into [f'].  Either nothing happened, or the
    contribution is positive and an indicator was appended. *)
Definition grown (a : Q) (f f' : FraudAnalyzer.findings) : Prop :=
  (a == 0 /\ f' = f)%Q
  \/ (0 < a)%Q
     /\ (List.length (FraudAnalyzer.indicators f)
         < List.length (FraudAnalyzer.indicators f'))%nat.

(** Further concrete inputs. *)
Module Cases.

(** An endpoint whose first request fails and which answers 200 with the
    same text from the second request on. *)
Definition flaky (response : string) : world :=
  {| endpoint := fun _ n =>
       match n with
       | O => Fails (ExRequest "Connection reset")
       | S _ => Reply 200 (Sample.envelope response)
       end;
     clock := fun _ => Sample.monday_noon |}.

(** An advisory verdict as the client hands it to the combiner. *)
Definition advisory_verdict : dict :=
  [ ("is_fraud", PBool true); ("fraud_score", PQ 20);
    ("risk_level", PStr "high"); ("confidence", PQ 90);
    ("explanation", PStr "x");
    ("recommendations", PList [PStr "call the customer"]);
    ("success", PBool true) ].

(** An advisory verdict one of whose indicators is itself a list. *)
Definition nested_verdict : dict :=
  [ ("is_fraud", PBool true); ("fraud_score", PQ 80);
    ("risk_level", PStr "high"); ("explanation", PStr "x");
    ("fraud_indicators", PList [PList [PStr "velocity"]]);
    ("success", PBool true) ].

(** A transaction whose amount arrives as text. *)
Definition amount_as_text : dict :=
  [ ("transaction_id", PStr "TXN006");
    ("amount", PStr "50");
    ("location", PStr "New York");
    ("timestamp", PStr "2025-02-03T12:00:00") ].

(** A payment record without a purpose. *)
Definition payment_without_purpose : dict :=
  [ ("reference", PStr "PAY-2");
    ("sender_name", PStr "A"); ("sender_account", PStr "1");
    ("receiver_name", PStr "B"); ("receiver_account", PStr "2");
    ("amount", PQ 10); ("currency", PStr "EUR") ].

(** A screening reply that allows the payment under a tier the screener
    does not know. *)
Definition allowing : string :=
  Ref.text "{'allowed': true, 'risk_level': 'none', 'reason': 'ok'}".

(** [x ** n] in exact arithmetic, for the evaluation of examples. *)
Definition power (x : pyfloat) (n : Z) : result pyfloat :=
  match x with
  | Fin q => Ok (Fin (Qpower q n))
  | _ => Raise (ExOther "Numerical result out of range")
  end.

(** A loan application with a term of zero months. *)
Definition zero_term : dict :=
  [ ("reference", PStr "LOAN-TEST-003");
    ("annual_income", PQ 90000);
    ("loan_amount", PQ 20000);
    ("existing_debt", PQ 0);
    ("loan_term", PInt 0);
    ("credit_score", PInt 780);
    ("employment_years", PInt 6);
    ("employment_status", PStr "Full-time") ].

(** A loan application of somebody without income. *)
Definition no_income : dict :=
  [ ("reference", PStr "LOAN-TEST-004");
    ("annual_income", PQ 0);
    ("loan_amount", PQ 20000);
    ("existing_debt", PQ 0);
    ("loan_term", PInt 60);
    ("credit_score", PInt 780);
    ("employment_years", PInt 6);
    ("employment_status", PStr "Full-time") ].


(** An advisory evaluation with an unknown status and a textual
    approval. *)
Definition odd_evaluation : string :=
  Ref.text "{'approved': 'false', 'status': 'MAYBE', 'risk_level': 'low', 'reason': 'x'}".



End Cases.

(** The keys the combiner of the fraud analyzer writes. *)
Definition combiner_keys : list string :=
  [ "fraud_score"; "risk_level"; "is_fraud"; "fraud_indicators";
    "risk_factors"; "ai_confidence"; "rule_confidence";
    "combined_confidence"; "analysis_method"; "ai_score"; "rule_score";
    "score_weights"; "explanation" ].

(** [combined_score >= 50 or (ai_is_fraud and rule_score >= 30)] *)
Definition combined_flag (ai_says : pyval) (combined_score rule_score : pyfloat)
  : pyval :=
  if fge combined_score (Fin 50) then PBool true
  else if truthy ai_says then PBool (fge rule_score (Fin 30)) else ai_says.

(** A verdict of the payment screener: a bool, one of three tiers and a
    text, in this order and nothing else. *)
Definition screening_verdict (r : dict) : Prop :=
  exists (allowed : bool) (risk_level reason : string),
    r = [ ("allowed", PBool allowed);
          ("risk_level", PStr risk_level);
          ("reason", PStr reason) ]
    /\ FraudAnalyzer.str_in risk_level ["low"; "medium"; "high"] = true.

(** The keys of the payment record the screening prompt reads. *)
Definition prompt_keys : list string :=
  [ "sender_name"; "sender_account"; "receiver_name"; "receiver_account";
    "amount"; "currency"; "purpose" ].

(** The ladder of [CreditScoring._rule_based_evaluation]. *)
Definition evaluation_ladder (total_score : pyfloat) : string * string * bool :=
  if fge total_score (Fin 80) then ("APPROVED", "low", true)
  else if fge total_score (Fin 65) then ("CONDITIONAL_APPROVAL", "medium", true)
  else ("REJECTED", "high", false).

(** The keys the combiner of the loan evaluator may write. *)
Definition evaluation_combiner_keys : list string :=
  [ "debt_to_income_ratio"; "loan_to_income_ratio";
    "employment_stability_score"; "estimated_monthly_payment";
    "recommended_interest_rate"; "recommended_loan_amount"; "approved";
    "risk_factors"; "strengths" ].


(** Proof steps shared by the lemmas on the rule engine. *)
Ltac split_ifs :=
  repeat (match goal with
          | |- context [if ?c then _ else _] => destruct c
          end; cbv iota beta zeta).

Ltac default_rules_eval :=
  cbn [fst snd FraudAnalyzer.fraud_rules FraudAnalyzer.fraud_patterns
       FraudAnalyzer.default FraudAnalyzer.__init__ FraudAnalyzer.default_rules
       FraudAnalyzer.high_amount FraudAnalyzer.very_high_amount
       FraudAnalyzer.amount_weight FraudAnalyzer.foreign_countries
       FraudAnalyzer.high_risk_locations FraudAnalyzer.location_weight
       FraudAnalyzer.unusual_hours FraudAnalyzer.time_weight
       FraudAnalyzer.high_risk_categories FraudAnalyzer.medium_risk_categories
       FraudAnalyzer.merchant_weight].

(** Proof steps shared by the lemmas on the findings of the rule engine;
    [flagged] is the lemma on [flag] the step relies on. *)
Ltac paired_ifs flagged :=
  cbv zeta; split_ifs; cbn [snd]; repeat apply flagged; assumption.

Ltac grown_leaf flagged :=
  unfold grown; rewrite ?flagged;
  first [ left; split; [lra | reflexivity]
        | right; split; [lra | lia] ].

Ltac grown_ifs flagged :=
  cbv zeta; split_ifs; default_rules_eval; grown_leaf flagged.

(** * Properties *)

(** ** Dicts *)

Lemma dict_get_set_same (k : string) (v : pyval) (d : dict) :
  dict_get k (dict_set k v d) = Some v.
Proof.
  induction d as [|[k' v'] d IH]; simpl.
  - now rewrite String.eqb_refl.
  - destruct (String.eqb k k') eqn:E; simpl; rewrite E; auto.
Qed.

Lemma dict_get_set_other (k k' : string) (v : pyval) (d : dict) :
  String.eqb k k' = false ->
  dict_get k (dict_set k' v d) = dict_get k d.
Proof.
  intros Hk. induction d as [|[k0 v0] d IH]; simpl.
  - now rewrite Hk.
  - destruct (String.eqb k' k0) eqn:E; simpl.
    + apply String.eqb_eq in E. subst k0. now rewrite Hk.
    + destruct (String.eqb k k0); auto.
Qed.

Lemma has_key_set_other (k k' : string) (v : pyval) (d : dict) :
  String.eqb k k' = false ->
  has_key k (dict_set k' v d) = has_key k d.
Proof. intros H. unfold has_key. now rewrite dict_get_set_other. Qed.

(** ** Floats *)

Local Open Scope Q_scope.

Lemma Qle_bool_false (x y : Q) : Qle_bool x y = false -> y < x.
Proof.
  intros H. apply Qnot_le_lt. intros C.
  apply Qle_bool_iff in C. congruence.
Qed.

Lemma py_min_fin (a q : Q) :
  exists m, py_min (Fin a) (Fin q) = Fin m /\ m <= a /\ m <= q /\ (m = a \/ m = q).
Proof.
  unfold py_min, flt. destruct (Qle_bool a q) eqn:E; simpl.
  - exists a. apply Qle_bool_iff in E. repeat split; auto; lra.
  - exists q. apply Qle_bool_false in E. repeat split; auto; lra.
Qed.

Lemma clamp_0_100_range (x : pyfloat) :
  exists q, FraudAnalyzer.clamp_0_100 x = Fin q /\ 0 <= q <= 100.
Proof.
  unfold FraudAnalyzer.clamp_0_100, py_max, py_min.
  destruct x as [q| | |]; simpl.
  - destruct (Qle_bool 100 q) eqn:E; simpl.
    + exists 100. split; [reflexivity | lra].
    + apply Qle_bool_false in E.
      destruct (Qle_bool q 0) eqn:E0; simpl.
      * exists 0. split; [reflexivity | lra].
      * apply Qle_bool_false in E0. exists q. split; [reflexivity | lra].
  - exists 100. split; [reflexivity | lra].
  - exists 0. split; [reflexivity | lra].
  - exists 100. split; [reflexivity | lra].
Qed.

Lemma rule_ladder_min (s : Q) :
  forall m, py_min (Fin 100) (Fin s) = Fin m -> rule_ladder m = rule_ladder s.
Proof.
  intros m. unfold py_min, flt.
  destruct (Qle_bool 100 s) eqn:E; simpl; intros H; inversion H; subst; auto.
  apply Qle_bool_iff in E. unfold rule_ladder.
  assert (H80 : Qle_bool 80 s = true) by (apply Qle_bool_iff; lra).
  now rewrite H80.
Qed.

(** ** The rule engine *)

Module RuleFacts.
Import FraudAnalyzer.

Section WithLib.
Variable lib : PyLib.

Lemma analyze_amount_nonneg amount f :
  0 <= fst (_analyze_amount lib default amount f).
Proof.
  unfold _analyze_amount; cbv zeta. split_ifs; default_rules_eval; lra.
Qed.

Lemma analyze_location_nonneg location f s f' :
  _analyze_location lib default location f = Ok (s, f') -> 0 <= s.
Proof.
  unfold _analyze_location; cbv zeta. default_rules_eval.
  destruct (py_lower location) as [low|e]; [|discriminate].
  unfold bind. split_ifs; intros H; inversion H; subst; lra.
Qed.

Lemma analyze_time_nonneg ts f :
  0 <= fst (_analyze_time_patterns lib default ts f).
Proof.
  unfold _analyze_time_patterns; cbv zeta. split_ifs; default_rules_eval; lra.
Qed.

Lemma analyze_merchant_nonneg category f :
  0 <= fst (_analyze_merchant_category lib default category f).
Proof.
  unfold _analyze_merchant_category; cbv zeta.
  split_ifs; default_rules_eval; lra.
Qed.

Lemma analyze_type_nonneg ty amount f :
  0 <= fst (_analyze_transaction_type lib default ty amount f).
Proof.
  unfold _analyze_transaction_type; cbv zeta.
  split_ifs; default_rules_eval; lra.
Qed.

Lemma analyze_velocity_nonneg tx f :
  0 <= fst (_analyze_velocity_patterns default tx f).
Proof.
  unfold _analyze_velocity_patterns; cbv zeta.
  split_ifs; default_rules_eval; lra.
Qed.

Lemma match_patterns_nonneg patterns :
  Forall (fun p => 0 <= risk_score p) patterns ->
  forall tx amount location category s f s' f',
    0 <= s ->
    match_patterns patterns tx amount location category s f = Ok (s', f') ->
    0 <= s'.
Proof.
  induction 1 as [|p ps Hp Hps IH];
    intros tx amount location category s f s' f' Hs; cbn [match_patterns].
  - intros H; inversion H; subst; auto.
  - destruct (count_matches p tx amount location category) as [m|e];
      unfold bind; [|discriminate].
    destruct (Qle_bool _ _).
    + apply IH. nra.
    + apply IH. auto.
Qed.

Lemma default_patterns_nonneg :
  Forall (fun p => 0 <= risk_score p) default_patterns.
Proof. repeat constructor; cbn [risk_score]; lra. Qed.

Lemma analyze_patterns_nonneg tx f s f' :
  _analyze_fraud_patterns lib default tx f = Ok (s, f') -> 0 <= s.
Proof.
  unfold _analyze_fraud_patterns; cbv zeta.
  destruct (py_float lib _) as [amount|e]; unfold bind; [|discriminate].
  apply match_patterns_nonneg; [apply default_patterns_nonneg | lra].
Qed.

(** What a verdict of the [try] block looks like: the score is the capped
    sum, the tier is the ladder of the sum. *)
Lemma rule_body_shape self now tx v :
  rule_based_body lib self now tx = Ok v ->
  exists s rest,
    v = ("fraud_score", PNum (py_min (Fin 100) (Fin s)))
          :: ("risk_level", PStr (rule_ladder s)) :: rest
    /\ (self = default -> 0 <= s).
Proof.
  unfold rule_based_body; cbv zeta.
  destruct (py_float lib _) as [amount|e]; unfold bind; [|discriminate].
  destruct (_analyze_amount lib self amount no_findings) as [a1 f1] eqn:E1.
  destruct (_analyze_location lib self _ f1) as [[a2 f2]|e] eqn:E2;
    [|discriminate].
  destruct (_analyze_time_patterns lib self _ f2) as [a3 f3] eqn:E3.
  destruct (_analyze_merchant_category lib self _ f3) as [a4 f4] eqn:E4.
  destruct (_analyze_transaction_type lib self _ amount f4) as [a5 f5] eqn:E5.
  destruct (_analyze_velocity_patterns self tx f5) as [a6 f6] eqn:E6.
  destruct (_analyze_fraud_patterns lib self tx f6) as [[a7 f7]|e] eqn:E7;
    [|discriminate].
  set (s := 0 + a1 + a2 + a3 + a4 + a5 + a6 + a7).
  destruct (if Qle_bool 80 s then ("high", true)
            else if Qle_bool 50 s then ("medium", true)
            else if Qle_bool 30 s then ("low", false)
            else ("very_low", false)) as [rl isf] eqn:El.
  assert (rl = rule_ladder s) as ->.
  { unfold rule_ladder. revert El.
    destruct (Qle_bool 80 s); [intros El; now inversion El|].
    destruct (Qle_bool 50 s); [intros El; now inversion El|].
    destruct (Qle_bool 30 s); intros El; now inversion El. }
  intros H. inversion H; subst v. exists s. eexists. split; [reflexivity|].
  intros ->.
  pose proof (analyze_amount_nonneg amount no_findings) as H1. rewrite E1 in H1.
  pose proof (analyze_location_nonneg _ _ _ _ E2) as H2.
  pose proof (analyze_time_nonneg
                (read_timestamp lib now (get tx "timestamp" (PStr ""))) f2) as H3.
  rewrite E3 in H3.
  pose proof (analyze_merchant_nonneg (get tx "merchant_category" (PStr "")) f3) as H4.
  rewrite E4 in H4.
  pose proof (analyze_type_nonneg (get tx "transaction_type" (PStr "")) amount f4) as H5.
  rewrite E5 in H5.
  pose proof (analyze_velocity_nonneg tx f5) as H6. rewrite E6 in H6.
  pose proof (analyze_patterns_nonneg _ _ _ _ E7) as H7.
  cbn [fst] in *. unfold s. lra.
Qed.
End WithLib.
End RuleFacts.

(** ** The response parser *)

Module ParserFacts.
Import FraudAnalyzer.

Section WithLib.
Variable lib : PyLib.

Lemma listify_get_other (k field : string) (d : dict) :
  String.eqb k field = false ->
  dict_get k (listify lib d field) = dict_get k d.
Proof.
  intros H. unfold listify.
  destruct (dict_get field d) as [[| | | |l|]|]; auto;
    now rewrite dict_get_set_other.
Qed.

Lemma listify_all_get_other (k : string) (d : dict) :
  existsb (String.eqb k) list_fields = false ->
  dict_get k (fold_left (listify lib) list_fields d) = dict_get k d.
Proof.
  unfold list_fields. cbn [existsb fold_left]. intros H.
  repeat (apply orb_false_iff in H; destruct H as [? H]).
  repeat (rewrite listify_get_other by assumption). reflexivity.
Qed.

Lemma has_key_true (k : string) (d : dict) :
  has_key k d = true -> exists v, dict_get k d = Some v.
Proof. unfold has_key. destruct (dict_get k d); [eauto | discriminate]. Qed.

Lemma required_present (d : dict) :
  forallb (fun field => has_key field d) required_fields = true ->
  has_key "is_fraud" d = true /\ has_key "fraud_score" d = true
  /\ has_key "risk_level" d = true /\ has_key "explanation" d = true.
Proof.
  unfold required_fields. cbn [forallb]. intros H.
  repeat (apply andb_true_iff in H; destruct H as [? H]). auto.
Qed.

Lemma confidence_step_get_other (k : string) (d d' : dict) :
  String.eqb k "confidence" = false ->
  confidence_step lib d = Ok d' -> dict_get k d' = dict_get k d.
Proof.
  intros Hk. unfold confidence_step.
  destruct (has_key "confidence" d).
  - destruct (py_float lib _); unfold bind; [|discriminate].
    intros H; inversion H; subst. now rewrite dict_get_set_other.
  - intros H; inversion H; subst; auto.
Qed.

(** The parser, step by step, on a decoded object that has the required
    fields. *)
Lemma parse_body_object (raw : string) (d : dict) :
  json_loads lib (extract_object raw) = Some (PDict d) ->
  forallb (fun field => has_key field d) required_fields = true ->
  parse_body lib raw =
    (fraud_score <- py_float lib (get d "fraud_score" (PInt 0)) ;;
     let d1 := dict_set "fraud_score" (PNum (clamp_0_100 fraud_score))
                 (dict_set "is_fraud"
                    (PBool (truthy (get d "is_fraud" (PBool false)))) d) in
     d2 <- confidence_step lib (level_step (get d "risk_level" PNone) d1) ;;
     Ok (Some (fold_left (listify lib) list_fields d2))).
Proof.
  intros Hj Hr. unfold parse_body. cbv zeta. rewrite Hj, Hr. cbn [negb].
  apply required_present in Hr. destruct Hr as (_ & _ & Hl & _).
  apply has_key_true in Hl. destruct Hl as [level Hl].
  unfold subscript, level_step, confidence_step, get.
  rewrite !dict_get_set_other by reflexivity. rewrite Hl.
  destruct (dict_get "fraud_score" d) as [v|];
    (destruct (py_float lib _) as [x|e]; unfold bind; [|reflexivity]);
    rewrite !dict_get_set_other by reflexivity; rewrite Hl; reflexivity.
Qed.

Lemma parse_body_inv (raw : string) (ai : dict) :
  parse_body lib raw = Ok (Some ai) ->
  exists d, json_loads lib (extract_object raw) = Some (PDict d)
            /\ forallb (fun field => has_key field d) required_fields = true.
Proof.
  unfold parse_body. cbv zeta.
  destruct (json_loads lib _) as [[| | | | |d]|]; try discriminate.
  destruct (forallb _ _) eqn:E; cbn [negb]; [|discriminate].
  intros _. eauto.
Qed.

(** The score of a parsed advisory verdict is the clamped score of the
    response. *)
Lemma parsed_score (raw : string) (ai : dict) :
  _parse_ai_response lib (PStr raw) = Some ai ->
  exists x, dict_get "fraud_score" ai = Some (PNum (clamp_0_100 x)).
Proof.
  unfold _parse_ai_response.
  destruct (parse_body lib raw) as [[r|]|e] eqn:E; try discriminate.
  intros H; inversion H; subst r; clear H.
  destruct (parse_body_inv _ _ E) as (d & Hj & Hr).
  rewrite (parse_body_object _ _ Hj Hr) in E.
  destruct (py_float lib _) as [x|e]; unfold bind in E; [|discriminate].
  cbv zeta in E.
  destruct (confidence_step lib _) as [d2|e] eqn:Ec; [|discriminate].
  assert (Hai : ai = fold_left (listify lib) list_fields d2) by congruence.
  rewrite Hai. exists x.
  rewrite listify_all_get_other by reflexivity.
  rewrite (confidence_step_get_other "fraud_score" _ _ eq_refl Ec).
  unfold level_step. destruct (negb _).
  - rewrite dict_get_set_other by reflexivity. apply dict_get_set_same.
  - apply dict_get_set_same.
Qed.

End WithLib.
End ParserFacts.

(** ** Strings *)

Module StringFacts.

Local Open Scope Z_scope.

Lemma absent_cons (c a : ascii) (s : string) :
  absent c (String a s) <-> a <> c /\ absent c s.
Proof. unfold absent; simpl. tauto. Qed.

Lemma absent_app (c : ascii) (s t : string) :
  absent c (s ++ t) <-> absent c s /\ absent c t.
Proof.
  induction s as [|a s IH]; simpl.
  - unfold absent at 2; simpl. tauto.
  - rewrite !absent_cons, IH. tauto.
Qed.

Lemma absent_lstrip (c : ascii) (s : string) :
  absent c s -> absent c (lstrip s).
Proof.
  induction s as [|a s IH]; simpl; auto.
  intros H. destruct (is_space a); auto.
  apply absent_cons in H. tauto.
Qed.

Lemma absent_rstrip (c : ascii) (s : string) :
  absent c s -> absent c (rstrip s).
Proof.
  induction s as [|a s IH]; simpl; auto.
  intros H. apply absent_cons in H. destruct H as [Ha Hs].
  specialize (IH Hs).
  destruct (rstrip s) as [|b t].
  - destruct (is_space a); [exact IH|]. apply absent_cons. auto.
  - apply absent_cons. auto.
Qed.

Lemma absent_strip (c : ascii) (s : string) :
  absent c s -> absent c (strip s).
Proof. intros H. apply absent_rstrip, absent_lstrip, H. Qed.

Lemma length_app (s t : string) :
  String.length (s ++ t) = (String.length s + String.length t)%nat.
Proof. induction s; simpl; auto. Qed.

Lemma app_assoc (s t u : string) : (s ++ t) ++ u = s ++ (t ++ u).
Proof. induction s; simpl; congruence. Qed.

Lemma app_empty_r (s : string) : s ++ EmptyString = s.
Proof. induction s; simpl; congruence. Qed.

Lemma drop_app (s t : string) : drop (String.length s) (s ++ t) = t.
Proof. induction s; simpl; auto. Qed.

Lemma take_app (s t : string) : take (String.length s) (s ++ t) = s.
Proof. induction s; simpl; congruence. Qed.

(** A one-character needle is a prefix exactly of the strings that start
    with it. *)
Lemma prefix_char (c a : ascii) (s : string) :
  String.prefix (String c EmptyString) (String a s) = Ascii.eqb c a.
Proof.
  simpl. destruct (ascii_dec c a) as [->|N].
  - rewrite Ascii.eqb_refl. now destruct s.
  - symmetry. now apply Ascii.eqb_neq.
Qed.

Lemma prefix_char_head (c : ascii) (s : string) :
  String.prefix (String c EmptyString) (String c s) = true.
Proof. rewrite prefix_char. apply Ascii.eqb_refl. Qed.

Lemma prefix_char_absent (c : ascii) (s : string) :
  absent c s -> String.prefix (String c EmptyString) s = false.
Proof.
  destruct s as [|a s]; [reflexivity|].
  intros H. apply absent_cons in H. rewrite prefix_char.
  apply Ascii.eqb_neq. intuition congruence.
Qed.

(** [find] of a character that does not occur. *)
Lemma find_at_absent (c : ascii) (s : string) (i : Z) :
  absent c s -> find_at (String c EmptyString) s i = -1.
Proof.
  revert i. induction s as [|a s IH]; intros i H.
  - reflexivity.
  - cbn [find_at]. rewrite (prefix_char_absent _ _ H).
    apply absent_cons in H. apply IH. tauto.
Qed.

(** [find] of a character skips a prefix in which it does not occur. *)
Lemma find_at_skip (c : ascii) (p t : string) (i : Z) :
  absent c p ->
  find_at (String c EmptyString) (p ++ String c t) i = i + len p.
Proof.
  revert i. induction p as [|a p IH]; intros i H.
  - cbn [append find_at]. rewrite prefix_char_head. unfold len. simpl. lia.
  - cbn [append find_at]. rewrite prefix_char.
    apply absent_cons in H. destruct H as [Ha Hp].
    assert (Ascii.eqb c a = false) as -> by (apply Ascii.eqb_neq; congruence).
    rewrite IH by assumption. unfold len. cbn [String.length]. lia.
Qed.

Lemma rfind_at_absent (c : ascii) (s : string) (i : Z) :
  absent c s -> rfind_at (String c EmptyString) s i = -1.
Proof.
  revert i. induction s as [|a s IH]; intros i H.
  - reflexivity.
  - cbn [rfind_at]. apply absent_cons in H. destruct H as [Ha Hs].
    rewrite IH by assumption. cbn [Z.leb Z.compare].
    rewrite prefix_char.
    assert (Ascii.eqb c a = false) as -> by (apply Ascii.eqb_neq; congruence).
    reflexivity.
Qed.

(** [rfind] of a character stops at its last occurrence. *)
Lemma rfind_at_last (c : ascii) (p t : string) (i : Z) :
  0 <= i -> absent c t ->
  rfind_at (String c EmptyString) (p ++ String c t) i = i + len p.
Proof.
  revert i. induction p as [|a p IH]; intros i Hi H.
  - cbn [append rfind_at]. rewrite rfind_at_absent by assumption.
    cbn [Z.leb Z.compare]. rewrite prefix_char_head. unfold len. simpl. lia.
  - cbn [append rfind_at]. rewrite IH by (assumption || lia).
    assert ((0 <=? i + 1 + len p) = true) as ->.
    { apply Z.leb_le. unfold len. lia. }
    unfold len. cbn [String.length]. lia.
Qed.

(** A non-empty string is its front followed by its last character. *)
Lemma last_char (a : ascii) (s : string) :
  exists front c, String a s = front ++ String c EmptyString.
Proof.
  revert a. induction s as [|b s IH]; intros a.
  - exists EmptyString, a. reflexivity.
  - destruct (IH b) as (front & c & E). exists (String a front), c.
    simpl. now rewrite E.
Qed.

Lemma endswith_char (c a : ascii) (front : string) :
  endswith (front ++ String a EmptyString) (String c EmptyString)
  = Ascii.eqb a c.
Proof.
  unfold endswith. rewrite length_app. cbn [String.length].
  replace (String.length front + 1 - 1)%nat with (String.length front) by lia.
  rewrite drop_app.
  assert ((1 <=? String.length front + 1)%nat = true) as ->
      by (apply Nat.leb_le; lia).
  cbn [andb String.eqb]. now destruct (Ascii.eqb a c).
Qed.

Lemma clamp_index_mid (i : nat) (s : string) :
  (i <= String.length s)%nat -> clamp_index (Z.of_nat i) s = i.
Proof.
  intros H. unfold clamp_index, len.
  assert ((Z.of_nat i <? 0) = false) as -> by (apply Z.ltb_ge; lia).
  rewrite Z.min_l by lia. rewrite Z.max_r by lia. apply Nat2Z.id.
Qed.

Lemma lstrip_app (p t : string) (c : ascii) :
  is_space c = false -> lstrip (p ++ String c t) = lstrip p ++ String c t.
Proof.
  intros Hc. induction p as [|a p IH]; simpl.
  - now rewrite Hc.
  - destruct (is_space a); auto.
Qed.

Lemma rstrip_app (p t : string) (c : ascii) :
  is_space c = false -> rstrip (p ++ String c t) = p ++ String c (rstrip t).
Proof.
  intros Hc. induction p as [|a p IH]; cbn [append rstrip].
  - rewrite Hc. now destruct (rstrip t).
  - rewrite IH. now destruct p.
Qed.

(** *** What the extraction leaves of a text without an opening brace *)

Lemma extract_object_no_brace (raw : string) :
  absent "{" raw ->
  extract_object raw = EmptyString \/ extract_object raw = "}".
Proof.
  intros H. apply absent_strip in H. unfold extract_object. cbv zeta.
  set (s := strip raw) in *. clearbody s.
  unfold startswith. rewrite (prefix_char_absent _ _ H). cbn [negb].
  unfold find. rewrite (find_at_absent _ _ _ H).
  destruct s as [|a s].
  - left. reflexivity.
  - destruct (last_char a s) as (front & c & E). rewrite E in *.
    assert (Hs : slice_from (-1) (front ++ String c EmptyString)
                 = String c EmptyString).
    { unfold slice_from, clamp_index, len. rewrite length_app.
      cbn [String.length Z.ltb Z.compare].
      replace (Z.to_nat _) with (String.length front).
      - apply drop_app.
      - rewrite Z.min_l by lia. rewrite Z.max_r by lia. lia. }
    rewrite Hs.
    change (String c EmptyString) with (EmptyString ++ String c EmptyString).
    rewrite endswith_char.
    destruct (Ascii.eqb c "}") eqn:Ec; cbn [negb].
    + right. apply Ascii.eqb_eq in Ec. now subst c.
    + left. unfold rfind. cbn [append rfind_at Z.leb Z.compare Z.add].
      rewrite prefix_char.
      rewrite Ascii.eqb_sym, Ec. reflexivity.
Qed.

(** *** What the extraction leaves of an object wrapped in other text *)

Lemma extract_object_wrapped (before inner after : string) :
  absent "{" before -> absent "}" after ->
  extract_object (before ++ String "{" (inner ++ String "}" after))
  = String "{" (inner ++ String "}" EmptyString).
Proof.
  intros Hb Ha. unfold extract_object. cbv zeta. unfold strip.
  rewrite lstrip_app by reflexivity.
  replace (lstrip before ++ String "{" (inner ++ String "}" after))
    with ((lstrip before ++ String "{" inner) ++ String "}" after)
    by (rewrite app_assoc; reflexivity).
  rewrite rstrip_app by reflexivity.
  apply absent_lstrip in Hb. apply absent_rstrip in Ha.
  set (b := lstrip before) in *. set (a := rstrip after) in *.
  clearbody a b.
  rewrite app_assoc. cbn [append].
  set (tail := inner ++ String "}" a).
  assert (H1 : (if negb (startswith (b ++ String "{" tail) "{")
                then slice_from (find (b ++ String "{" tail) "{")
                       (b ++ String "{" tail)
                else b ++ String "{" tail)
               = String "{" tail).
  { destruct b as [|x b].
    - cbn [append]. unfold startswith. rewrite prefix_char_head. reflexivity.
    - apply absent_cons in Hb. destruct Hb as [Hx Hb].
      unfold startswith. cbn [append]. rewrite prefix_char.
      assert (Ascii.eqb "{" x = false) as ->
          by (apply Ascii.eqb_neq; congruence).
      cbn [negb]. unfold find.
      change (String x (b ++ String "{" tail))
        with (String x b ++ String "{" tail).
      rewrite find_at_skip by (apply absent_cons; auto).
      unfold slice_from, len. rewrite Z.add_0_l.
      rewrite clamp_index_mid by (rewrite length_app; lia).
      apply drop_app. }
  rewrite H1. clear H1. unfold tail. clear tail.
  change (String "{" (inner ++ String "}" a))
    with (String "{" inner ++ String "}" a).
  set (front := String "{" inner).
  change (String "{" (inner ++ String "}" EmptyString))
    with (front ++ String "}" EmptyString).
  destruct a as [|y a].
  - rewrite endswith_char. reflexivity.
  - destruct (last_char y a) as (mid & c & E). rewrite E in *.
    apply absent_app in Ha. destruct Ha as [Hmid Hc].
    apply absent_cons in Hc. destruct Hc as [Hc _].
    replace (front ++ String "}" (mid ++ String c EmptyString))
      with ((front ++ String "}" mid) ++ String c EmptyString)
      by (rewrite app_assoc; reflexivity).
    rewrite endswith_char.
    assert (Ascii.eqb c "}" = false) as ->
        by (apply Ascii.eqb_neq; congruence).
    cbn [negb].
    replace ((front ++ String "}" mid) ++ String c EmptyString)
      with (front ++ String "}" (mid ++ String c EmptyString))
      by (rewrite app_assoc; reflexivity).
    unfold rfind. rewrite rfind_at_last.
    + unfold slice_to, len. rewrite Z.add_0_l.
      replace (Z.of_nat (String.length front) + 1)
        with (Z.of_nat (String.length (front ++ String "}" EmptyString)))
        by (rewrite length_app; cbn [String.length]; lia).
      rewrite clamp_index_mid.
      * replace (front ++ String "}" (mid ++ String c EmptyString))
          with ((front ++ String "}" EmptyString) ++ (mid ++ String c EmptyString))
          by (rewrite app_assoc; reflexivity).
        apply take_app.
      * rewrite !length_app. cbn [String.length]. lia.
    + lia.
    + apply absent_app. split.
      * exact Hmid.
      * apply absent_cons. split; [congruence | unfold absent; simpl; tauto].
Qed.

End StringFacts.

(** ** The advisory client *)

Module ClientFacts.
Import FraudAnalyzer.

Section WithLib.
Variable lib : PyLib.

Lemma pause_requests self attempt st :
  requests_sent (pause self attempt st) = requests_sent st.
Proof. unfold pause. now destruct (_ <? _)%Z. Qed.


(** A result of the client is a parsed response marked as a success. *)
Lemma attempts_result self w prompt todo st ai st' :
  attempts lib self w prompt todo st = (Some ai, st') ->
  exists raw parsed,
    _parse_ai_response lib (PStr raw) = Some parsed
    /\ ai = dict_set "success" (PBool true) parsed.
Proof.
  revert st. induction todo as [|attempt rest IH]; intros st.
  - discriminate.
  - cbn [attempts].
    destruct (attempt_body lib _) as [[p|]|e] eqn:E; try apply IH.
    destruct (truthy (PDict p)); [|apply IH].
    intros H. injection H as <- _.
    unfold attempt_body in E.
    destruct (endpoint w prompt (requests_sent st)) as [code body|e];
      [|discriminate].
    destruct (code =? 200)%Z; [|discriminate].
    destruct (response_json lib body) as [r|e]; unfold bind in E; [|discriminate].
    destruct (item r "response") as [resp|e]; [|discriminate].
    injection E as E.
    destruct resp as [| | |raw| |]; try discriminate.
    exists raw, p. auto.
Qed.

Lemma usable_fails e : usable lib (Fails e) = false.
Proof. reflexivity. Qed.

End WithLib.
End ClientFacts.

(** ** The combiner *)

Module CombinerFacts.
Import FraudAnalyzer.

Local Open Scope Q_scope.

Section WithLib.
Variable lib : PyLib.

Lemma combine_body_score ai rule tx v a r :
  combine_body lib ai rule tx = Ok v ->
  dict_get "fraud_score" ai = Some (PNum (Fin a)) ->
  dict_get "fraud_score" rule = Some (PNum (Fin r)) ->
  dict_get "fraud_score" v = Some (PNum (Fin (a * 0.6 + r * 0.4)))
  /\ dict_get "risk_level" v = Some (PStr (combiner_ladder (a * 0.6 + r * 0.4)))
  /\ dict_get "analysis_method" v = Some (PStr "ai_enhanced").
Proof.
  intros H Ha Hr. unfold combine_body in H. cbv zeta in H.
  destruct (list_add _ _) as [l1|e]; unfold bind in H; [|discriminate].
  destruct (list_of_set l1) as [i1|e]; [|discriminate].
  destruct (list_add _ _) as [l2|e]; [|discriminate].
  destruct (list_of_set l2) as [i2|e]; [|discriminate].
  unfold get in H. rewrite Ha, Hr in H.
  cbn [num as_num] in H.
  destruct (num _) as [ac|e]; [|discriminate].
  destruct (num _) as [rc|e]; [|discriminate].
  injection H as H. rewrite <- H. clear H.
  unfold dict_update. cbn [fold_left fst snd fmul fadd].
  repeat split.
  - rewrite !dict_get_set_other by reflexivity. apply dict_get_set_same.
  - rewrite !dict_get_set_other by reflexivity. apply dict_get_set_same.
  - rewrite !dict_get_set_other by reflexivity. apply dict_get_set_same.
Qed.

End WithLib.
End CombinerFacts.

(** ** The evaluation as a whole *)

Module EngineFacts.
Import FraudAnalyzer.

Local Open Scope Q_scope.

Section WithLib.
Variable lib : PyLib.

Lemma rule_verdict_shape self now tx :
  exists s rest,
    _rule_based_analysis lib self now tx
    = ("fraud_score", PNum (py_min (Fin 100) (Fin s)))
        :: ("risk_level", PStr (rule_ladder s)) :: rest
    /\ (self = default -> 0 <= s).
Proof.
  unfold _rule_based_analysis.
  destruct (rule_based_body lib self now tx) as [v|e] eqn:E.
  - apply RuleFacts.rule_body_shape in E. exact E.
  - exists 50. eexists. split; [reflexivity | intros _; lra].
Qed.

Lemma rule_verdict_score self now tx :
  exists q, dict_get "fraud_score" (_rule_based_analysis lib self now tx)
            = Some (PNum (Fin q))
            /\ dict_get "risk_level" (_rule_based_analysis lib self now tx)
               = Some (PStr (rule_ladder q))
            /\ q <= 100
            /\ (self = default -> 0 <= q).
Proof.
  destruct (rule_verdict_shape self now tx) as (s & rest & E & Hs).
  rewrite E. destruct (py_min_fin 100 s) as (m & Em & H100 & Hms & Hcase).
  exists m. rewrite Em. cbn [dict_get String.eqb Ascii.eqb Bool.eqb].
  repeat split; auto.
  - now rewrite (rule_ladder_min s m Em).
  - intros D. specialize (Hs D). destruct Hcase; subst; lra.
Qed.

Lemma rule_verdict_in_range now tx :
  score_in_range (_rule_based_analysis lib default now tx).
Proof.
  destruct (rule_verdict_score default now tx) as (q & E & _ & H1 & H0).
  exists q. split; [exact E|]. split; auto.
Qed.

Lemma score_in_range_set k v d :
  String.eqb "fraud_score" k = false ->
  score_in_range d -> score_in_range (dict_set k v d).
Proof.
  intros Hk (q & E & R). exists q. split; [|exact R].
  now rewrite dict_get_set_other.
Qed.

Lemma parsed_in_range raw ai :
  _parse_ai_response lib (PStr raw) = Some ai -> score_in_range ai.
Proof.
  intros H. destruct (ParserFacts.parsed_score lib raw ai H) as (x & E).
  destruct (clamp_0_100_range x) as (q & Eq & R).
  exists q. rewrite E, Eq. auto.
Qed.

Lemma combined_in_range ai rule tx :
  score_in_range ai -> score_in_range rule ->
  score_in_range (_combine_ai_and_rules lib ai rule tx).
Proof.
  intros (a & Ea & Ra) (r & Er & Rr). unfold _combine_ai_and_rules.
  destruct (combine_body lib ai rule tx) as [v|e] eqn:E.
  - destruct (CombinerFacts.combine_body_score lib _ _ _ _ _ _ E Ea Er)
      as (Es & _).
    exists (a * 0.6 + r * 0.4). split; [exact Es | lra].
  - apply score_in_range_set; [reflexivity|]. exists r. auto.
Qed.

(** The last statements of [analyze_transaction]: stamping keeps the
    score, and formatting a numeric score for the log does not raise. *)
Lemma stamped_ok (final : dict) (stamp : string) (x : pyfloat) :
  dict_get "fraud_score" final = Some (PNum x) ->
  (_ <- py_format lib ".1f"
          (get (dict_update final
                  [ ("analysis_timestamp", PStr stamp);
                    ("analyzer_version", PStr "1.0") ])
               "fraud_score" (PInt 0)) ;;
   Ok (dict_update final
         [ ("analysis_timestamp", PStr stamp);
           ("analyzer_version", PStr "1.0") ]))%py
  = Ok (dict_update final
          [ ("analysis_timestamp", PStr stamp);
            ("analyzer_version", PStr "1.0") ]).
Proof.
  intros H. unfold dict_update, get. cbn [fold_left fst snd].
  rewrite !dict_get_set_other by reflexivity. rewrite H. reflexivity.
Qed.


Lemma analyze_in_range w tx v st :
  analyze_transaction lib default w tx = (Ok v, st) -> score_in_range v.
Proof.
  unfold analyze_transaction. cbv zeta.
  destruct (_create_fraud_analysis_prompt lib tx _) as [prompt|e];
    [|discriminate].
  destruct (_get_ai_analysis lib default w prompt io0) as [ai st'] eqn:Ea.
  pose proof (rule_verdict_in_range (clock w 0%nat) tx) as Hr.
  set (rule := _rule_based_analysis lib default (clock w 0%nat) tx) in *.
  assert (Hrule : score_in_range
                    (dict_set "analysis_method" (PStr "rule_based") rule))
    by (apply score_in_range_set; [reflexivity | exact Hr]).
  match goal with
  | |- (bind (py_format lib ".1f" (get (dict_update ?f _) _ _)) _, _) = _ -> _ =>
      assert (Hf : score_in_range f)
  end.
  { destruct ai as [ai|]; [|exact Hrule].
    destruct (truthy (PDict ai) && truthy (get ai "success" (PBool false)));
      [|exact Hrule].
    apply combined_in_range; [|exact Hr].
    unfold _get_ai_analysis in Ea.
    destruct (ClientFacts.attempts_result lib _ _ _ _ _ _ _ Ea)
      as (raw & parsed & Hp & ->).
    apply score_in_range_set; [reflexivity|].
    eapply parsed_in_range; eauto. }
  destruct Hf as (q & Eq & Rq).
  rewrite (stamped_ok _ _ (Fin q) Eq).
  intros H. injection H as <- _.
  exists q. split; [|exact Rq].
  unfold dict_update. cbn [fold_left fst snd].
  now rewrite !dict_get_set_other by reflexivity.
Qed.

End WithLib.
End EngineFacts.

(** ** The normalisation of a decoded object *)

Module NormaliseFacts.
Import FraudAnalyzer ParserFacts.

Section WithLib.
Variable lib : PyLib.

Lemma level_step_get_other (k : string) (level : pyval) (d : dict) :
  String.eqb k "risk_level" = false ->
  dict_get k (level_step level d) = dict_get k d.
Proof.
  intros H. unfold level_step. destruct (negb _); auto.
  now rewrite dict_get_set_other.
Qed.



Lemma missing_required (d : dict) (fields : list string) (field : string) :
  In field fields -> has_key field d = false ->
  forallb (fun f => has_key f d) fields = false.
Proof.
  intros Hin Hk. destruct (forallb _ fields) eqn:E; auto.
  rewrite forallb_forall in E. specialize (E field Hin). congruence.
Qed.

End WithLib.
End NormaliseFacts.

(** ** What the prompt and the combiner read of the verdicts *)

Module PromptFacts.
Import FraudAnalyzer.

Local Open Scope Q_scope.



Section WithLib.
Variable lib : PyLib.




End WithLib.
End PromptFacts.

Module MergeFacts.
Import FraudAnalyzer ParserFacts.

Local Open Scope Q_scope.





Lemma get_set_other (k k' : string) (v default : pyval) (d : dict) :
  String.eqb k k' = false ->
  get (dict_set k' v d) k default = get d k default.
Proof. intros H. unfold get. now rewrite dict_get_set_other. Qed.

Section WithLib.
Variable lib : PyLib.

Lemma listify_same (d : dict) (field : string) :
  dict_get field (listify lib d field) = None
  \/ exists l, dict_get field (listify lib d field) = Some (PList l).
Proof.
  unfold listify. destruct (dict_get field d) as [v|] eqn:E; [|now left].
  right.
  destruct v; try (rewrite dict_get_set_same; destruct (truthy _); eauto).
  rewrite E. eauto.
Qed.

Lemma get_list_cases (d : dict) (field : string) :
  dict_get field d = None \/ (exists l, dict_get field d = Some (PList l)) ->
  exists l, get d field (PList []) = PList l.
Proof. unfold get. intros [-> | (l & ->)]; eauto. Qed.

Lemma listified_indicators (d : dict) :
  exists l,
    get (fold_left (listify lib) list_fields d) "fraud_indicators" (PList [])
    = PList l.
Proof.
  apply get_list_cases. unfold list_fields. cbn [fold_left].
  rewrite !listify_get_other by reflexivity. apply listify_same.
Qed.

Lemma listified_factors (d : dict) :
  exists l,
    get (fold_left (listify lib) list_fields d) "risk_factors" (PList [])
    = PList l.
Proof.
  apply get_list_cases. unfold list_fields. cbn [fold_left].
  rewrite !listify_get_other by reflexivity. apply listify_same.
Qed.

Lemma confidence_step_numeric (d d' : dict) :
  confidence_step lib d = Ok d' ->
  exists c, as_num (get d' "confidence" (PInt 0)) = Some c.
Proof.
  unfold confidence_step, has_key.
  destruct (dict_get "confidence" d) as [v|] eqn:E.
  - destruct (py_float lib _) as [x|e]; unfold bind; [|discriminate].
    intros H. injection H as <-. unfold get. rewrite dict_get_set_same.
    cbn [as_num]. eauto.
  - intros H. injection H as <-. unfold get. rewrite E. cbn [as_num PInt]. eauto.
Qed.

(** What the combiner reads of a parsed advisory verdict. *)
Lemma parsed_fields (raw : string) (ai : dict) :
  _parse_ai_response lib (PStr raw) = Some ai ->
  (exists a, dict_get "fraud_score" ai = Some (PNum (Fin a)) /\ 0 <= a <= 100)
  /\ (exists l, get ai "fraud_indicators" (PList []) = PList l)
  /\ (exists l, get ai "risk_factors" (PList []) = PList l)
  /\ (exists c, as_num (get ai "confidence" (PInt 0)) = Some c).
Proof.
  intros H. split.
  { destruct (parsed_score lib raw ai H) as (x & E).
    destruct (clamp_0_100_range x) as (q & Eq & R).
    exists q. rewrite E, Eq. auto. }
  unfold _parse_ai_response in H.
  destruct (parse_body lib raw) as [[r|]|e] eqn:E; try discriminate.
  injection H as ->.
  destruct (parse_body_inv lib _ _ E) as (d & Hj & Hr).
  rewrite (parse_body_object lib _ _ Hj Hr) in E.
  destruct (py_float lib _) as [x|e]; unfold bind in E; [|discriminate].
  cbv zeta in E.
  destruct (confidence_step lib _) as [d2|e] eqn:Ec; [|discriminate].
  assert (Hai : ai = fold_left (listify lib) list_fields d2) by congruence.
  rewrite Hai. split; [apply listified_indicators|].
  split; [apply listified_factors|].
  unfold get. rewrite listify_all_get_other by reflexivity.
  apply (confidence_step_numeric _ _ Ec).
Qed.


End WithLib.
End MergeFacts.

(** * The properties the specification states *)

Local Open Scope Q_scope.

(** ** C2: the tier of the rule verdict *)

(** C2, as the code has it.  For every feature map (and whatever the clock
    reads), the risk tier of the rule engine's verdict is a fixed threshold
    function of the verdict's score, but the function is [rule_ladder]: high
    from 80, medium in [50,80), low in [30,50), very_low below 30.  The rule
    engine never answers critical, and this holds on its error path too
    (score 50, tier medium). *)
Theorem rule_tier_follows_rule_ladder
  (lib : PyLib) (self : FraudAnalyzer.t) (now : datetime) (transaction : dict) :
  exists q,
    dict_get "fraud_score" (FraudAnalyzer._rule_based_analysis lib self now transaction)
    = Some (PNum (Fin q))
    /\ dict_get "risk_level" (FraudAnalyzer._rule_based_analysis lib self now transaction)
       = Some (PStr (rule_ladder q))
    /\ rule_ladder q <> "critical".
Proof.
  destruct (EngineFacts.rule_verdict_score lib self now transaction)
    as (q & Es & El & _).
  exists q. repeat split; auto.
  unfold rule_ladder.
  destruct (Qle_bool 80 q); [discriminate|].
  destruct (Qle_bool 50 q); [discriminate|].
  destruct (Qle_bool 30 q); discriminate.
Qed.

(** C2 fails as stated: a purchase in London scores 20 points, which the
    ladder of the specification calls low, and the rule engine answers
    very_low. *)
Lemma rule_tier_differs_from_spec_ladder :
  score_of (FraudAnalyzer._rule_based_analysis Ref.lib FraudAnalyzer.default
              Sample.monday_noon Sample.abroad) = Some 20
  /\ dict_get "risk_level"
       (FraudAnalyzer._rule_based_analysis Ref.lib FraudAnalyzer.default
          Sample.monday_noon Sample.abroad) = Some (PStr "very_low")
  /\ spec_ladder 20 = "low".
Proof. vm_compute. repeat split; reflexivity. Qed.

(** ** C8: scores stay within 0 and 100 *)

(** C8.  The score of the rule verdict of any feature map, the score of any
    successfully parsed advisory verdict, and the score of the final verdict
    of any evaluation that returns one all lie in [0,100]. *)
Theorem scores_in_range (lib : PyLib) :
  (forall now transaction,
      score_in_range
        (FraudAnalyzer._rule_based_analysis lib FraudAnalyzer.default now transaction))
  /\ (forall raw ai,
         FraudAnalyzer._parse_ai_response lib (PStr raw) = Some ai ->
         score_in_range ai)
  /\ (forall w transaction verdict st,
         FraudAnalyzer.analyze_transaction lib FraudAnalyzer.default w transaction
         = (Ok verdict, st) ->
         score_in_range verdict).
Proof.
  repeat split.
  - apply EngineFacts.rule_verdict_in_range.
  - apply EngineFacts.parsed_in_range.
  - apply EngineFacts.analyze_in_range.
Qed.

Lemma scores_in_range_witness :
  score_in_range
    (FraudAnalyzer._rule_based_analysis Ref.lib FraudAnalyzer.default
       Sample.monday_noon Sample.wire)
  /\ (exists ai,
         FraudAnalyzer._parse_ai_response Ref.lib (PStr Sample.noisy) = Some ai
         /\ score_in_range ai)
  /\ (exists verdict st,
         FraudAnalyzer.analyze_transaction Ref.lib FraudAnalyzer.default
           (Sample.answering (Sample.advisory "100")) Sample.wire
         = (Ok verdict, st)
         /\ score_in_range verdict).
Proof.
  destruct (scores_in_range Ref.lib) as (Hrule & Hparse & Hfinal).
  split; [apply Hrule|]. split.
  - destruct (FraudAnalyzer._parse_ai_response Ref.lib (PStr Sample.noisy))
      as [ai|] eqn:E.
    + exists ai. split; [reflexivity|]. exact (Hparse Sample.noisy ai E).
    + vm_compute in E. discriminate.
  - destruct (FraudAnalyzer.analyze_transaction Ref.lib FraudAnalyzer.default
                (Sample.answering (Sample.advisory "100")) Sample.wire)
      as [[verdict|e] st] eqn:E.
    + exists verdict, st. split; [reflexivity|].
      exact (Hfinal _ _ _ _ E).
    + vm_compute in E. discriminate.
Defined.

(** ** C1: the combined score and its tier *)




(** ** C4: an unreachable endpoint *)




(** ** C3: the error path *)




(** ** C5: a reply that does not parse *)




(** ** C6: a noisy but complete response *)




(** ** C7: a missing required field *)

(** C7.  When the text left by the extraction decodes to an object that
    lacks one of the required fields, the parser of the fraud analyzer and
    the parser of the loan evaluator both return nothing. *)
Theorem missing_field_hard_failure
  (lib : PyLib) (raw : string) (object : dict) (field : string) :
  json_loads lib (extract_object raw) = Some (PDict object) ->
  has_key field object = false ->
  (In field FraudAnalyzer.required_fields ->
   FraudAnalyzer._parse_ai_response lib (PStr raw) = None)
  /\ (In field CreditScoring.required_fields ->
      CreditScoring._parse_ai_response lib (PStr raw) = None).
Proof.
  intros Hj Hk. split; intros Hin.
  - unfold FraudAnalyzer._parse_ai_response, FraudAnalyzer.parse_body.
    cbv zeta. rewrite Hj.
    now rewrite (NormaliseFacts.missing_required object _ field Hin Hk).
  - unfold CreditScoring._parse_ai_response, CreditScoring.parse_body.
    cbv zeta. rewrite Hj.
    now rewrite (NormaliseFacts.missing_required object _ field Hin Hk).
Qed.

Lemma missing_field_hard_failure_witness :
  FraudAnalyzer._parse_ai_response Ref.lib (PStr Sample.no_explanation) = None
  /\ CreditScoring._parse_ai_response Ref.lib (PStr Sample.no_reason) = None.
Proof.
  split.
  - destruct (missing_field_hard_failure Ref.lib Sample.no_explanation
                [("fraud_score", PNum (Fin 150)); ("risk_level", PStr "high");
                 ("is_fraud", PBool true)]
                "explanation") as (Hfraud & _).
    + vm_compute. reflexivity.
    + reflexivity.
    + apply Hfraud. simpl. tauto.
  - destruct (missing_field_hard_failure Ref.lib Sample.no_reason
                [("approved", PBool true); ("status", PStr "APPROVED");
                 ("risk_level", PStr "low")]
                "reason") as (_ & Hcredit).
    + vm_compute. reflexivity.
    + reflexivity.
    + apply Hcredit. simpl. tauto.
Defined.

(** ** C10: a text without an opening brace *)

(** C10.  For a decoder that rejects the empty text and the text made of one
    closing brace (as json.loads does), a response text in which no opening
    brace occurs never yields a parsed verdict: the parsers of the fraud
    analyzer and of the loan evaluator return nothing, and the parser of the
    payment screener returns its refusal for invalid JSON. *)
Theorem no_brace_no_verdict (lib : PyLib) (raw : string) :
  json_loads lib EmptyString = None ->
  json_loads lib "}" = None ->
  absent "{" raw ->
  FraudAnalyzer._parse_ai_response lib (PStr raw) = None
  /\ CreditScoring._parse_ai_response lib (PStr raw) = None
  /\ LLMScreening._parse_screening_result lib (PStr raw)
     = LLMScreening.refusal
         ("Invalid JSON response from LLM: "
          ++ str_exn lib (ExJSON (extract_object raw))).
Proof.
  intros He Hc Hraw.
  assert (Hj : json_loads lib (extract_object raw) = None).
  { destruct (StringFacts.extract_object_no_brace raw Hraw) as [-> | ->];
      assumption. }
  repeat split.
  - unfold FraudAnalyzer._parse_ai_response, FraudAnalyzer.parse_body.
    cbv zeta. now rewrite Hj.
  - unfold CreditScoring._parse_ai_response, CreditScoring.parse_body.
    cbv zeta. now rewrite Hj.
  - unfold LLMScreening._parse_screening_result, LLMScreening.parse_body.
    cbv zeta. now rewrite Hj.
Qed.

Lemma no_brace_no_verdict_witness :
  FraudAnalyzer._parse_ai_response Ref.lib
    (PStr "I cannot help with that }") = None
  /\ FraudAnalyzer._parse_ai_response Ref.lib (PStr EmptyString) = None.
Proof.
  split.
  - apply (no_brace_no_verdict Ref.lib "I cannot help with that }");
      [reflexivity | reflexivity |].
    unfold absent. vm_compute. intuition discriminate.
  - apply (no_brace_no_verdict Ref.lib EmptyString);
      [reflexivity | reflexivity |].
    unfold absent. vm_compute. tauto.
Defined.

(** ** C9: determinism of the rule engine *)




(** * Further lemmas *)

(** ** The rule engine, step by step *)

Module RuleMore.
Import FraudAnalyzer.

Local Open Scope Q_scope.

Section WithLib.
Variable lib : PyLib.

Lemma rule_body_inv self now tx v :
  rule_based_body lib self now tx = Ok v ->
  exists amount a1 f1 a2 f2 a3 f3 a4 f4 a5 f5 a6 f6 a7 f7,
    py_float lib (get tx "amount" (PInt 0)) = Ok amount
    /\ _analyze_amount lib self amount no_findings = (a1, f1)
    /\ _analyze_location lib self (get tx "location" (PStr EmptyString)) f1
       = Ok (a2, f2)
    /\ _analyze_time_patterns lib self
         (read_timestamp lib now (get tx "timestamp" (PStr EmptyString))) f2
       = (a3, f3)
    /\ _analyze_merchant_category lib self
         (get tx "merchant_category" (PStr EmptyString)) f3 = (a4, f4)
    /\ _analyze_transaction_type lib self
         (get tx "transaction_type" (PStr EmptyString)) amount f4 = (a5, f5)
    /\ _analyze_velocity_patterns self tx f5 = (a6, f6)
    /\ _analyze_fraud_patterns lib self tx f6 = Ok (a7, f7)
    /\ v = [ ("fraud_score",
              PNum (py_min (Fin 100) (Fin (0 + a1 + a2 + a3 + a4 + a5 + a6 + a7))));
             ("risk_level",
              PStr (rule_ladder (0 + a1 + a2 + a3 + a4 + a5 + a6 + a7)));
             ("is_fraud",
              PBool (Qle_bool 50 (0 + a1 + a2 + a3 + a4 + a5 + a6 + a7)));
             ("fraud_indicators", strs (indicators f7));
             ("risk_factors", strs (risk_factors f7));
             ("explanation",
              PStr (_generate_rule_explanation lib
                      (0 + a1 + a2 + a3 + a4 + a5 + a6 + a7) f7));
             ("confidence",
              PNum (py_min (Fin 95)
                      (Fin (0 + a1 + a2 + a3 + a4 + a5 + a6 + a7 + 10))));
             ("analysis_method", PStr "rule_based");
             ("score_breakdown", PDict [
                ("amount_score", PQ a1); ("location_score", PQ a2);
                ("time_score", PQ a3); ("merchant_score", PQ a4);
                ("type_score", PQ a5); ("velocity_score", PQ a6);
                ("pattern_score", PQ a7) ]) ].
Proof.
  unfold rule_based_body; cbv zeta.
  destruct (py_float lib _) as [amount|e]; unfold bind; [|discriminate].
  destruct (_analyze_amount lib self amount no_findings) as [a1 f1] eqn:E1.
  destruct (_analyze_location lib self _ f1) as [[a2 f2]|e] eqn:E2;
    [|discriminate].
  destruct (_analyze_time_patterns lib self _ f2) as [a3 f3] eqn:E3.
  destruct (_analyze_merchant_category lib self _ f3) as [a4 f4] eqn:E4.
  destruct (_analyze_transaction_type lib self _ amount f4) as [a5 f5] eqn:E5.
  destruct (_analyze_velocity_patterns self tx f5) as [a6 f6] eqn:E6.
  destruct (_analyze_fraud_patterns lib self tx f6) as [[a7 f7]|e] eqn:E7;
    [|discriminate].
  set (s := 0 + a1 + a2 + a3 + a4 + a5 + a6 + a7).
  destruct (if Qle_bool 80 s then ("high", true)
            else if Qle_bool 50 s then ("medium", true)
            else if Qle_bool 30 s then ("low", false)
            else ("very_low", false)) as [rl isf] eqn:El.
  assert (rl = rule_ladder s /\ isf = Qle_bool 50 s) as [-> ->].
  { unfold rule_ladder. revert El.
    destruct (Qle_bool 80 s) eqn:E80.
    - assert (Qle_bool 50 s = true) as ->
          by (apply Qle_bool_iff; apply Qle_bool_iff in E80; lra).
      intros El; now inversion El.
    - destruct (Qle_bool 50 s); [intros El; now inversion El|].
      destruct (Qle_bool 30 s); intros El; now inversion El. }
  intros H. injection H as <-.
  exists amount, a1, f1, a2, f2, a3, f3, a4, f4, a5, f5, a6, f6, a7, f7.
  repeat split; assumption || reflexivity.
Qed.

(** *** Pairing *)

Lemma flag_paired tag text f : paired f -> paired (flag tag text f).
Proof.
  unfold paired, flag. cbn [indicators risk_factors].
  rewrite !length_app. cbn [List.length]. lia.
Qed.

Lemma analyze_amount_paired self amount f :
  paired f -> paired (snd (_analyze_amount lib self amount f)).
Proof. intros H. unfold _analyze_amount. paired_ifs flag_paired. Qed.

Lemma analyze_location_paired self location f a f' :
  paired f -> _analyze_location lib self location f = Ok (a, f') -> paired f'.
Proof.
  intros H. unfold _analyze_location. cbv zeta.
  match goal with
  | |- context [bind ?m _] => destruct m as [low|e]
  end; unfold bind; [|discriminate].
  split_ifs; intros E; injection E as <- <-; repeat apply flag_paired; assumption.
Qed.

Lemma analyze_time_paired self ts f :
  paired f -> paired (snd (_analyze_time_patterns lib self ts f)).
Proof. intros H. unfold _analyze_time_patterns. paired_ifs flag_paired. Qed.

Lemma analyze_merchant_paired self category f :
  paired f -> paired (snd (_analyze_merchant_category lib self category f)).
Proof. intros H. unfold _analyze_merchant_category. paired_ifs flag_paired. Qed.

Lemma analyze_type_paired self ty amount f :
  paired f -> paired (snd (_analyze_transaction_type lib self ty amount f)).
Proof. intros H. unfold _analyze_transaction_type. paired_ifs flag_paired. Qed.

Lemma analyze_velocity_paired self tx f :
  paired f -> paired (snd (_analyze_velocity_patterns self tx f)).
Proof. intros H. unfold _analyze_velocity_patterns. paired_ifs flag_paired. Qed.

Lemma match_patterns_paired patterns tx amount location category :
  forall s f s' f',
    paired f ->
    match_patterns patterns tx amount location category s f = Ok (s', f') ->
    paired f'.
Proof.
  induction patterns as [|p ps IH]; intros s f s' f' Hf; cbn [match_patterns].
  - intros H. injection H as <- <-. exact Hf.
  - destruct (count_matches p tx amount location category) as [m|e];
      unfold bind; [|discriminate].
    destruct (Qle_bool _ _).
    + apply IH. now apply flag_paired.
    + apply IH. exact Hf.
Qed.

Lemma analyze_patterns_paired self tx f a f' :
  paired f -> _analyze_fraud_patterns lib self tx f = Ok (a, f') -> paired f'.
Proof.
  intros H. unfold _analyze_fraud_patterns. cbv zeta.
  destruct (py_float lib _) as [amount|e]; unfold bind; [|discriminate].
  apply match_patterns_paired. exact H.
Qed.

(** *** Growth: a contribution comes with an indicator *)

Lemma flag_length tag text f :
  List.length (indicators (flag tag text f)) = S (List.length (indicators f)).
Proof. unfold flag. cbn [indicators]. rewrite length_app. cbn. lia. Qed.

Lemma grown_trans a b f f' f'' :
  grown a f f' -> grown b f' f'' -> grown (a + b) f f''.
Proof.
  unfold grown. intros [[Ha ->]|[Ha La]] [[Hb ->]|[Hb Lb]].
  - left. split; [lra | reflexivity].
  - right. split; [lra | lia].
  - right. split; [lra | lia].
  - right. split; [lra | lia].
Qed.

Lemma analyze_amount_grown amount f :
  grown (fst (_analyze_amount lib default amount f)) f
        (snd (_analyze_amount lib default amount f)).
Proof. unfold _analyze_amount. grown_ifs flag_length. Qed.

Lemma analyze_location_grown location f a f' :
  _analyze_location lib default location f = Ok (a, f') -> grown a f f'.
Proof.
  unfold _analyze_location; cbv zeta. default_rules_eval.
  destruct (py_lower location) as [low|e]; unfold bind; [|discriminate].
  split_ifs; intros E; injection E as <- <-; grown_leaf flag_length.
Qed.

Lemma analyze_time_grown ts f :
  grown (fst (_analyze_time_patterns lib default ts f)) f
        (snd (_analyze_time_patterns lib default ts f)).
Proof. unfold _analyze_time_patterns. grown_ifs flag_length. Qed.

Lemma analyze_merchant_grown category f :
  grown (fst (_analyze_merchant_category lib default category f)) f
        (snd (_analyze_merchant_category lib default category f)).
Proof. unfold _analyze_merchant_category. grown_ifs flag_length. Qed.

Lemma analyze_type_grown ty amount f :
  grown (fst (_analyze_transaction_type lib default ty amount f)) f
        (snd (_analyze_transaction_type lib default ty amount f)).
Proof. unfold _analyze_transaction_type. grown_ifs flag_length. Qed.

Lemma analyze_velocity_grown tx f :
  grown (fst (_analyze_velocity_patterns default tx f)) f
        (snd (_analyze_velocity_patterns default tx f)).
Proof. unfold _analyze_velocity_patterns. grown_ifs flag_length. Qed.

Lemma match_patterns_grown patterns tx amount location category :
  Forall (fun p => 0 < risk_score p) patterns ->
  forall s f s' f',
    match_patterns patterns tx amount location category s f = Ok (s', f') ->
    grown (s' - s) f f'.
Proof.
  induction 1 as [|p ps Hp Hps IH]; intros s f s' f'; cbn [match_patterns].
  - intros H. injection H as <- <-. left. split; [lra | reflexivity].
  - destruct (count_matches p tx amount location category) as [m|e];
      unfold bind; [|discriminate].
    destruct (Qle_bool _ _).
    + intros H. apply IH in H. unfold grown in *. rewrite flag_length in H.
      right. destruct H as [[H1 H2]|[H1 H2]].
      * rewrite H2, flag_length. split; [nra | lia].
      * split; [nra | lia].
    + intros H. exact (IH _ _ _ _ H).
Qed.

Lemma default_patterns_pos :
  Forall (fun p => 0 < risk_score p) default_patterns.
Proof. repeat constructor; cbn [risk_score]; lra. Qed.

Lemma analyze_patterns_grown tx f a f' :
  _analyze_fraud_patterns lib default tx f = Ok (a, f') -> grown a f f'.
Proof.
  unfold _analyze_fraud_patterns; cbv zeta.
  destruct (py_float lib _) as [amount|e]; unfold bind; [|discriminate].
  intros H.
  pose proof (match_patterns_grown _ tx amount _ _ default_patterns_pos
                _ _ _ _ H) as G.
  unfold grown in *. destruct G as [[G1 G2]|[G1 G2]].
  - left. split; [lra | assumption].
  - right. split; [lra | assumption].
Qed.

(** The seven steps together. *)
Lemma rule_body_grown now tx v :
  rule_based_body lib default now tx = Ok v ->
  exists s f,
    v = ("fraud_score", PNum (py_min (Fin 100) (Fin s)))
          :: ("risk_level", PStr (rule_ladder s))
          :: ("is_fraud", PBool (Qle_bool 50 s))
          :: ("fraud_indicators", strs (indicators f))
          :: skipn 4 v
    /\ grown s no_findings f.
Proof.
  intros H.
  destruct (rule_body_inv _ _ _ _ H)
    as (amount & a1 & f1 & a2 & f2 & a3 & f3 & a4 & f4 & a5 & f5 & a6 & f6
        & a7 & f7 & _ & E1 & E2 & E3 & E4 & E5 & E6 & E7 & ->).
  exists (0 + a1 + a2 + a3 + a4 + a5 + a6 + a7), f7.
  split; [reflexivity|].
  pose proof (analyze_amount_grown amount no_findings) as G1.
  rewrite E1 in G1. cbn [fst snd] in G1.
  pose proof (analyze_location_grown _ _ _ _ E2) as G2.
  pose proof (analyze_time_grown
                (read_timestamp lib now
                   (get tx "timestamp" (PStr EmptyString))) f2) as G3.
  rewrite E3 in G3. cbn [fst snd] in G3.
  pose proof (analyze_merchant_grown
                (get tx "merchant_category" (PStr EmptyString)) f3) as G4.
  rewrite E4 in G4. cbn [fst snd] in G4.
  pose proof (analyze_type_grown
                (get tx "transaction_type" (PStr EmptyString)) amount f4) as G5.
  rewrite E5 in G5. cbn [fst snd] in G5.
  pose proof (analyze_velocity_grown tx f5) as G6.
  rewrite E6 in G6. cbn [fst snd] in G6.
  pose proof (analyze_patterns_grown _ _ _ _ E7) as G7.
  assert (G0 : grown 0 no_findings no_findings)
    by (left; split; [lra | reflexivity]).
  repeat (eapply grown_trans; [|eassumption]). exact G0.
Qed.

End WithLib.
End RuleMore.

(** ** The advisory client, request by request *)

Module ClientMore.
Import FraudAnalyzer.

Section WithLib.
Variable lib : PyLib.

Lemma pause_slept self a st :
  (a < max_retries self)%nat ->
  requests_sent st = S a ->
  slept st
  = (retry_delay self * Z.of_nat (Nat.min a (pred (max_retries self))))%Z ->
  requests_sent (pause self a st) = S a
  /\ slept (pause self a st)
     = (retry_delay self
        * Z.of_nat (Nat.min (S a) (pred (max_retries self))))%Z.
Proof.
  intros Ha Hr Hs. unfold pause.
  destruct (Z.of_nat a <? Z.of_nat (max_retries self) - 1)%Z eqn:E.
  - apply Z.ltb_lt in E. cbn [sleep requests_sent slept].
    split; [exact Hr|]. rewrite Hs.
    replace (Nat.min a (pred (max_retries self))) with a by lia.
    replace (Nat.min (S a) (pred (max_retries self))) with (S a) by lia.
    lia.
  - apply Z.ltb_ge in E. split; [exact Hr|]. rewrite Hs.
    replace (Nat.min a (pred (max_retries self))) with a by lia.
    replace (Nat.min (S a) (pred (max_retries self))) with a by lia.
    reflexivity.
Qed.

(** The invariant of the loop: before attempt [a], [a] requests were sent
    and the client slept after each of them. *)
Lemma attempts_budget self w prompt :
  forall n a st,
    (a + n = max_retries self)%nat ->
    requests_sent st = a ->
    slept st
    = (retry_delay self * Z.of_nat (Nat.min a (pred (max_retries self))))%Z ->
    (requests_sent (snd (attempts lib self w prompt (seq a n) st))
     <= max_retries self)%nat
    /\ slept (snd (attempts lib self w prompt (seq a n) st))
       = (retry_delay self
          * Z.of_nat (pred (requests_sent
                              (snd (attempts lib self w prompt (seq a n) st)))))%Z
    /\ match fst (attempts lib self w prompt (seq a n) st) with
       | None =>
           requests_sent (snd (attempts lib self w prompt (seq a n) st))
           = max_retries self
       | Some d =>
           (a < requests_sent (snd (attempts lib self w prompt (seq a n) st)))%nat
           /\ dict_get "success" d = Some (PBool true)
       end.
Proof.
  induction n as [|n IH]; intros a st Han Hr Hs.
  - cbn [seq attempts fst snd]. rewrite Hr, Hs.
    replace (Nat.min a (pred (max_retries self)))
      with (pred a) by lia.
    repeat split; lia.
  - cbn [seq attempts].
    assert (Hlt : (a < max_retries self)%nat) by lia.
    assert (Hsend : requests_sent (send st) = S a)
      by (cbn [send requests_sent]; now rewrite Hr).
    assert (Hsl : slept (send st)
                  = (retry_delay self
                     * Z.of_nat (Nat.min a (pred (max_retries self))))%Z)
      by exact Hs.
    destruct (pause_slept self a (send st) Hlt Hsend Hsl) as [Pr Ps].
    assert (Hrest :
      (requests_sent (snd (attempts lib self w prompt (seq (S a) n)
                             (pause self a (send st))))
       <= max_retries self)%nat
      /\ slept (snd (attempts lib self w prompt (seq (S a) n)
                       (pause self a (send st))))
         = (retry_delay self
            * Z.of_nat (pred (requests_sent
                 (snd (attempts lib self w prompt (seq (S a) n)
                         (pause self a (send st)))))))%Z
      /\ match fst (attempts lib self w prompt (seq (S a) n)
                      (pause self a (send st))) with
         | None =>
             requests_sent (snd (attempts lib self w prompt (seq (S a) n)
                                   (pause self a (send st))))
             = max_retries self
         | Some d =>
             (a < requests_sent (snd (attempts lib self w prompt (seq (S a) n)
                                        (pause self a (send st)))))%nat
             /\ dict_get "success" d = Some (PBool true)
         end).
    { destruct (IH (S a) (pause self a (send st)) ltac:(lia) Pr Ps)
        as (H1 & H2 & H3).
      split; [exact H1|]. split; [exact H2|].
      destruct (fst _); [|exact H3].
      destruct H3 as [H3 H4]. split; [lia | exact H4]. }
    destruct (attempt_body lib _) as [[p|]|e]; try exact Hrest.
    destruct (truthy (PDict p)); [|exact Hrest].
    cbn [fst snd]. rewrite Hsend, Hsl.
    replace (Nat.min a (pred (max_retries self))) with a by lia.
    cbn [pred]. repeat split; try lia.
    apply dict_get_set_same.
Qed.

(** The attempts before the first usable reply change nothing but the
    counters. *)
Lemma attempts_skip self w prompt k :
  forall a st,
    requests_sent st = a ->
    (forall n, (a <= n < a + k)%nat -> usable lib (endpoint w prompt n) = false) ->
    forall rest,
    exists st',
      attempts lib self w prompt (seq a k ++ rest)%list st
      = attempts lib self w prompt rest st'
      /\ requests_sent st' = (a + k)%nat.
Proof.
  induction k as [|k IH]; intros a st Hr Hu rest.
  - exists st. split; [reflexivity | lia].
  - cbn [seq app attempts].
    pose proof (Hu a ltac:(lia)) as Ha. unfold usable in Ha.
    rewrite Hr.
    assert (Hp : requests_sent (pause self a (send st)) = S a)
      by (rewrite ClientFacts.pause_requests; cbn [send requests_sent]; lia).
    destruct (IH (S a) (pause self a (send st)) Hp
                 ltac:(intros n Hn; apply Hu; lia) rest) as (st' & E & R).
    exists st'. split; [|lia].
    destruct (attempt_body lib _) as [[p|]|e]; try exact E.
    rewrite Ha. exact E.
Qed.

End WithLib.
End ClientMore.

(** ** The combiner, field by field *)

Module CombinerMore.
Import FraudAnalyzer.

Local Open Scope Q_scope.

Lemma str_in_cons_false k k' l :
  str_in k (k' :: l) = false -> String.eqb k k' = false /\ str_in k l = false.
Proof. unfold str_in. cbn [existsb]. apply orb_false_iff. Qed.

Section WithLib.
Variable lib : PyLib.

Lemma combine_body_inv ai rule tx v :
  combine_body lib ai rule tx = Ok v ->
  exists a r : pyfloat,
    num (get ai "fraud_score" (PInt 0)) = Ok a
    /\ num (get rule "fraud_score" (PInt 0)) = Ok r
    /\ dict_get "analysis_method" v = Some (PStr "ai_enhanced")
    /\ dict_get "fraud_score" v
       = Some (PNum (fadd (fmul a (Fin 0.6)) (fmul r (Fin 0.4))))
    /\ dict_get "is_fraud" v
       = Some (combined_flag (get ai "is_fraud" (PBool false))
                 (fadd (fmul a (Fin 0.6)) (fmul r (Fin 0.4))) r)
    /\ dict_get "ai_score" v = Some (get ai "fraud_score" (PInt 0))
    /\ dict_get "rule_score" v = Some (get rule "fraud_score" (PInt 0))
    /\ dict_get "ai_confidence" v = Some (get ai "confidence" (PInt 0))
    /\ dict_get "rule_confidence" v = Some (get rule "confidence" (PInt 0))
    /\ (forall k, str_in k combiner_keys = false ->
                  dict_get k v = dict_get k ai).
Proof.
  intros H. unfold combine_body in H. cbv zeta in H.
  destruct (list_add _ _) as [l1|e]; unfold bind in H; [|discriminate].
  destruct (list_of_set l1) as [i1|e]; [|discriminate].
  destruct (list_add _ _) as [l2|e]; [|discriminate].
  destruct (list_of_set l2) as [i2|e]; [|discriminate].
  destruct (num (get ai "fraud_score" (PInt 0))) as [a|e]; [|discriminate].
  destruct (num (get rule "fraud_score" (PInt 0))) as [r|e]; [|discriminate].
  destruct (num (get ai "confidence" (PInt 0))) as [ac|e]; [|discriminate].
  destruct (num (get rule "confidence" (PInt 0))) as [rc|e]; [|discriminate].
  injection H as H. rewrite <- H. clear H.
  exists a, r. split; [reflexivity|]. split; [reflexivity|].
  unfold dict_update. cbn [fold_left fst snd].
  repeat match goal with |- _ /\ _ => split end;
    try (rewrite !dict_get_set_other by reflexivity; apply dict_get_set_same).
  intros k Hk. unfold combiner_keys in Hk.
  repeat match type of Hk with
         | str_in k (_ :: _) = false =>
             apply str_in_cons_false in Hk;
             let E := fresh "E" in destruct Hk as [E Hk]
         end.
  rewrite !dict_get_set_other by assumption. reflexivity.
Qed.

Lemma combine_cases ai rule tx :
  (exists v, combine_body lib ai rule tx = Ok v
             /\ _combine_ai_and_rules lib ai rule tx = v)
  \/ _combine_ai_and_rules lib ai rule tx
     = dict_set "analysis_method" (PStr "rule_based_fallback") rule.
Proof.
  unfold _combine_ai_and_rules.
  destruct (combine_body lib ai rule tx) as [v|e]; eauto.
Qed.

Lemma find_unhashable_app (l l' : list pyval) (v : pyval) :
  List.find (fun v => negb (hashable v)) l = Some v ->
  List.find (fun v => negb (hashable v)) (l ++ l')%list = Some v.
Proof.
  induction l as [|x l IH]; cbn [List.find app]; [discriminate|].
  destruct (negb (hashable x)); auto.
Qed.

Lemma find_unhashable_some (l : list pyval) :
  forallb hashable l = false ->
  exists v, List.find (fun v => negb (hashable v)) l = Some v.
Proof.
  induction l as [|x l IH]; cbn [forallb List.find]; [discriminate|].
  destruct (hashable x); cbn [andb negb]; eauto.
Qed.

End WithLib.
End CombinerMore.

(** ** The parsed advisory verdict, field by field *)

Module ParserMore.
Import FraudAnalyzer ParserFacts.

Local Open Scope Q_scope.

Section WithLib.
Variable lib : PyLib.

Lemma listify_all_list (d : dict) (field : string) :
  In field list_fields ->
  dict_get field (fold_left (listify lib) list_fields d) = None
  \/ exists l, dict_get field (fold_left (listify lib) list_fields d)
               = Some (PList l).
Proof.
  unfold list_fields. cbn [fold_left In].
  intros [<-|[<-|[<-|[<-|[<-|[]]]]]];
    rewrite ?listify_get_other by reflexivity;
    apply MergeFacts.listify_same.
Qed.

Lemma in_strs_str (v : pyval) (l : list string) :
  in_strs v l = true -> exists s, v = PStr s /\ str_in s l = true.
Proof.
  unfold in_strs, str_in. intros H.
  destruct v as [|b|x|s|l0|d0];
    [ exfalso | exfalso | exfalso | | exfalso | exfalso ];
    try (induction l as [|t l IHl]; cbn [existsb eq_str orb] in H;
         [discriminate | auto]).
  exists s. split; [reflexivity | exact H].
Qed.

Lemma confidence_step_range (d d' : dict) :
  confidence_step lib d = Ok d' ->
  dict_get "confidence" d' = None
  \/ exists c, dict_get "confidence" d' = Some (PNum (Fin c))
               /\ 0 <= c <= 100.
Proof.
  unfold confidence_step, has_key.
  destruct (dict_get "confidence" d) as [v|] eqn:E.
  - destruct (py_float lib _) as [x|e]; unfold bind; [|discriminate].
    intros H. injection H as <-. right.
    destruct (clamp_0_100_range x) as (q & Eq & R).
    exists q. rewrite dict_get_set_same, Eq. auto.
  - intros H. injection H as <-. now left.
Qed.

Lemma parsed_normal_form (raw : string) (ai : dict) :
  _parse_ai_response lib (PStr raw) = Some ai ->
  (exists b, dict_get "is_fraud" ai = Some (PBool b))
  /\ (exists level, dict_get "risk_level" ai = Some (PStr level)
                    /\ str_in level valid_risk_levels = true)
  /\ has_key "explanation" ai = true
  /\ (dict_get "confidence" ai = None
      \/ exists c, dict_get "confidence" ai = Some (PNum (Fin c))
                   /\ 0 <= c <= 100)
  /\ (forall field, In field list_fields ->
        dict_get field ai = None
        \/ exists l, dict_get field ai = Some (PList l)).
Proof.
  unfold _parse_ai_response.
  destruct (parse_body lib raw) as [[r|]|e] eqn:E; try discriminate.
  intros H; injection H as ->.
  destruct (parse_body_inv _ _ _ E) as (d & Hj & Hr).
  rewrite (parse_body_object _ _ _ Hj Hr) in E.
  destruct (py_float lib _) as [x|e]; unfold bind in E; [|discriminate].
  cbv zeta in E.
  destruct (confidence_step lib _) as [d2|e] eqn:Ec; [|discriminate].
  assert (Hai : ai = fold_left (listify lib) list_fields d2) by congruence.
  rewrite Hai. clear Hai E.
  apply required_present in Hr. destruct Hr as (_ & _ & Hl & He).
  apply has_key_true in Hl. destruct Hl as (lv & Hl).
  split; [|split; [|split; [|split]]].
  - rewrite listify_all_get_other by reflexivity.
    rewrite (confidence_step_get_other lib "is_fraud" _ _ eq_refl Ec).
    rewrite (NormaliseFacts.level_step_get_other "is_fraud") by reflexivity.
    rewrite dict_get_set_other by reflexivity.
    rewrite dict_get_set_same. eauto.
  - rewrite listify_all_get_other by reflexivity.
    rewrite (confidence_step_get_other lib "risk_level" _ _ eq_refl Ec).
    unfold level_step, get. rewrite Hl.
    destruct (in_strs lv valid_risk_levels) eqn:Ev; cbn [negb].
    + rewrite !dict_get_set_other by reflexivity. rewrite Hl.
      destruct (in_strs_str _ _ Ev) as (s & -> & Hs). eauto.
    + rewrite dict_get_set_same. exists "medium"%string. split; reflexivity.
  - unfold has_key.
    rewrite listify_all_get_other by reflexivity.
    rewrite (confidence_step_get_other lib "explanation" _ _ eq_refl Ec).
    rewrite (NormaliseFacts.level_step_get_other "explanation") by reflexivity.
    rewrite !dict_get_set_other by reflexivity.
    exact He.
  - rewrite listify_all_get_other by reflexivity.
    apply (confidence_step_range _ _ Ec).
  - intros field Hf. now apply listify_all_list.
Qed.

End WithLib.
End ParserMore.

(** ** When the rule engine completes *)

Module RuleCompletes.
Import FraudAnalyzer.

Local Open Scope Q_scope.

Section WithLib.
Variable lib : PyLib.

Lemma any_in_str (s : string) (keywords : list string) :
  exists b, any_in (PStr s) keywords = Ok b.
Proof.
  induction keywords as [|k rest IH]; cbn [any_in contains_str bind]; eauto.
  destruct (contains s k); eauto.
Qed.

Lemma count_matches_str p tx amount s category :
  exists m, count_matches p tx amount (PStr s) category = Ok m.
Proof.
  unfold count_matches. cbv zeta.
  destruct (str_in "foreign_location" (pattern_indicators p)).
  - destruct (any_in_str s ["UK"; "France"; "Japan"; "Australia"]%string)
      as (b & ->).
    cbn [bind]. eauto.
  - cbn [bind]. eauto.
Qed.

Lemma match_patterns_str patterns tx amount s category :
  forall score f,
    exists r, match_patterns patterns tx amount (PStr s) category score f = Ok r.
Proof.
  induction patterns as [|p ps IH]; intros score f; cbn [match_patterns].
  - eauto.
  - destruct (count_matches_str p tx amount s category) as (m & ->).
    cbn [bind]. destruct (Qle_bool _ _); apply IH.
Qed.

Lemma analyze_location_str self s f :
  exists r, _analyze_location lib self (PStr s) f = Ok r.
Proof.
  unfold _analyze_location. cbv zeta.
  assert (H : exists low,
             match foreign_countries (fraud_rules self),
                   high_risk_locations (fraud_rules self) with
             | [], [] => if truthy (PStr s) then py_lower (PStr s)
                         else Ok EmptyString
             | _, _ => py_lower (PStr s)
             end = Ok low).
  { destruct (foreign_countries (fraud_rules self)),
             (high_risk_locations (fraud_rules self));
      cbn [py_lower]; try destruct (truthy (PStr s)); eauto. }
  destruct H as (low & ->). cbn [bind].
  split_ifs; eauto.
Qed.

Lemma rule_body_completes self now tx x s :
  py_float lib (get tx "amount" (PInt 0)) = Ok x ->
  get tx "location" (PStr EmptyString) = PStr s ->
  exists v, rule_based_body lib self now tx = Ok v.
Proof.
  intros Hx Hs. unfold rule_based_body. cbv zeta. rewrite Hx, Hs.
  cbn [bind].
  destruct (_analyze_amount lib self x no_findings) as [a1 f1].
  destruct (analyze_location_str self s f1) as ([a2 f2] & ->). cbn [bind].
  destruct (_analyze_time_patterns lib self _ f2) as [a3 f3].
  destruct (_analyze_merchant_category lib self _ f3) as [a4 f4].
  destruct (_analyze_transaction_type lib self _ x f4) as [a5 f5].
  destruct (_analyze_velocity_patterns self tx f5) as [a6 f6].
  unfold _analyze_fraud_patterns. cbv zeta. rewrite Hx, Hs. cbn [bind].
  destruct (match_patterns_str (fraud_patterns self) tx x s
              (get tx "merchant_category" (PStr EmptyString)) 0 f6)
    as ([a7 f7] & ->).
  cbn [bind].
  destruct (if Qle_bool 80 _ then _ else _) as [rl isf]. eauto.
Qed.

Lemma rule_body_bad_location now tx x :
  py_float lib (get tx "amount" (PInt 0)) = Ok x ->
  (forall s, get tx "location" (PStr EmptyString) <> PStr s) ->
  rule_based_body lib default now tx
  = Raise (ExAttr (get tx "location" (PStr EmptyString)) "lower").
Proof.
  intros Hx Hs. unfold rule_based_body. cbv zeta. rewrite Hx. cbn [bind].
  destruct (_analyze_amount lib default x no_findings) as [a1 f1].
  unfold _analyze_location. cbv zeta. default_rules_eval.
  destruct (get tx "location" (PStr EmptyString)) as [| | |s| |];
    try reflexivity.
  now destruct (Hs s).
Qed.

End WithLib.
End RuleCompletes.

(** ** The extraction, whatever the text *)

Module ExtractFacts.
Import StringFacts.

Local Open Scope Z_scope.

Lemma first_occurrence (c : ascii) (s : string) :
  absent c s \/ exists p t, s = p ++ String c t /\ absent c p.
Proof.
  induction s as [|a s IH].
  - left. unfold absent. simpl. tauto.
  - destruct (ascii_dec a c) as [->|N].
    + right. exists EmptyString, s. split; [reflexivity|].
      unfold absent. simpl. tauto.
    + destruct IH as [H|(p & t & -> & H)].
      * left. apply absent_cons. auto.
      * right. exists (String a p), t. split; [reflexivity|].
        apply absent_cons. auto.
Qed.

Lemma last_occurrence (c : ascii) (s : string) :
  absent c s \/ exists p t, s = p ++ String c t /\ absent c t.
Proof.
  induction s as [|a s IH].
  - left. unfold absent. simpl. tauto.
  - destruct IH as [H|(p & t & -> & H)].
    + destruct (ascii_dec a c) as [->|N].
      * right. exists EmptyString, s. auto.
      * left. apply absent_cons. auto.
    + right. exists (String a p), t. auto.
Qed.

Lemma endswith_absent (c : ascii) (s : string) :
  absent c s -> endswith s (String c EmptyString) = false.
Proof.
  intros H. destruct s as [|a s]; [reflexivity|].
  destruct (last_char a s) as (front & x & E). rewrite E in *.
  rewrite endswith_char. apply absent_app in H. destruct H as [_ H].
  apply absent_cons in H. apply Ascii.eqb_neq. tauto.
Qed.

(** The first truncation drops what precedes the first opening brace. *)
Lemma from_first_brace (b tail : string) :
  absent "{" b ->
  (if negb (startswith (b ++ String "{" tail) "{")
   then slice_from (find (b ++ String "{" tail) "{") (b ++ String "{" tail)
   else b ++ String "{" tail)
  = String "{" tail.
Proof.
  intros Hb. destruct b as [|x b].
  - cbn [append]. unfold startswith. rewrite prefix_char_head. reflexivity.
  - apply absent_cons in Hb. destruct Hb as [Hx Hb].
    unfold startswith. cbn [append]. rewrite prefix_char.
    assert (Ascii.eqb "{" x = false) as ->
        by (apply Ascii.eqb_neq; congruence).
    cbn [negb]. unfold find.
    change (String x (b ++ String "{" tail))
      with (String x b ++ String "{" tail).
    rewrite find_at_skip by (apply absent_cons; auto).
    unfold slice_from, len. rewrite Z.add_0_l.
    rewrite clamp_index_mid by (rewrite length_app; lia).
    apply drop_app.
Qed.

(** An object that is opened and never closed leaves nothing. *)
Lemma extract_object_unclosed (before rest : string) :
  absent "{" before -> absent "}" rest ->
  extract_object (before ++ String "{" rest) = EmptyString.
Proof.
  intros Hb Hr. unfold extract_object. cbv zeta. unfold strip.
  rewrite lstrip_app by reflexivity.
  rewrite rstrip_app by reflexivity.
  apply absent_lstrip in Hb. apply absent_rstrip in Hr.
  set (b := lstrip before) in *. set (a := rstrip rest) in *.
  clearbody a b.
  rewrite (from_first_brace b a Hb).
  assert (Ha : absent "}" (String "{" a))
    by (apply absent_cons; split; [discriminate | exact Hr]).
  rewrite (endswith_absent _ _ Ha). cbn [negb].
  unfold rfind. rewrite (rfind_at_absent _ _ _ Ha).
  reflexivity.
Qed.

End ExtractFacts.

(** ** The payment screener *)

Module ScreeningFacts.
Import LLMScreening.

Section WithLib.
Variable lib : PyLib.

Lemma refusal_verdict (reason : string) : screening_verdict (refusal reason).
Proof. exists false, "high"%string, reason. split; reflexivity. Qed.

Lemma refusal_not_allowed (reason : string) :
  get (refusal reason) "allowed" PNone = PBool false.
Proof. reflexivity. Qed.

(** What the parser returns, and where an allowance comes from. *)
Lemma parse_result_cases (response : pyval) :
  (exists reason, _parse_screening_result lib response = refusal reason)
  \/ exists text d level,
       response = PStr text
       /\ json_loads lib (extract_object text) = Some (PDict d)
       /\ FraudAnalyzer.str_in level ["low"; "medium"; "high"] = true
       /\ _parse_screening_result lib response
          = [ ("allowed", PBool (truthy (get d "allowed" (PBool false))));
              ("risk_level", PStr level);
              ("reason",
               PStr (str_of lib
                       (get d "reason"
                          (PStr "Unable to parse LLM response")))) ].
Proof.
  unfold _parse_screening_result.
  destruct (parse_body lib response) as [parsed|e] eqn:E.
  - right. unfold parse_body in E.
    destruct response as [| | |text| |]; try discriminate E.
    cbv zeta in E.
    destruct (json_loads lib (extract_object text))
      as [[| | |s|l|d]|] eqn:Ej; try discriminate E.
    + destruct (forallb _ _); discriminate E.
    + destruct (forallb _ _); discriminate E.
    + destruct (forallb _ _) eqn:Ef; cbn [negb] in E; [|discriminate E].
      unfold subscript in E.
      destruct (dict_get "risk_level" d) as [rl|] eqn:Erl;
        [|discriminate E].
      cbn [bind] in E.
      destruct (in_strs rl ["low"; "medium"; "high"]) eqn:Ev;
        cbn [negb] in E; cbv iota in E.
      * destruct (ParserMore.in_strs_str _ _ Ev) as (s & -> & Hs).
        exists text, d, s. repeat split; try assumption.
        assert (Hp : Ok parsed
                     = Ok [ ("allowed",
                             PBool (truthy (get d "allowed" (PBool false))));
                            ("risk_level", get d "risk_level" (PStr "high"));
                            ("reason",
                             PStr (str_of lib
                                     (get d "reason"
                                        (PStr "Unable to parse LLM response")))) ])
          by (rewrite <- E; reflexivity).
        injection Hp as ->. unfold get at 2. now rewrite Erl.
      * exists text, d, "high"%string. repeat split; try assumption.
        assert (Hp : Ok parsed
                     = Ok [ ("allowed",
                             PBool (truthy
                                      (get (dict_set "risk_level" (PStr "high") d)
                                         "allowed" (PBool false))));
                            ("risk_level",
                             get (dict_set "risk_level" (PStr "high") d)
                               "risk_level" (PStr "high"));
                            ("reason",
                             PStr (str_of lib
                                     (get (dict_set "risk_level" (PStr "high") d)
                                        "reason"
                                        (PStr "Unable to parse LLM response")))) ])
          by (rewrite <- E; reflexivity).
        injection Hp as ->.
        rewrite (MergeFacts.get_set_other "allowed") by reflexivity.
        rewrite (MergeFacts.get_set_other "reason") by reflexivity.
        unfold get at 2. now rewrite dict_get_set_same.
  - left. destruct (is_json_decode_error e); eauto.
Qed.

Lemma parse_result_verdict (response : pyval) :
  screening_verdict (_parse_screening_result lib response).
Proof.
  destruct (parse_result_cases response)
    as [(reason & ->)|(text & d & level & _ & _ & Hl & ->)].
  - apply refusal_verdict.
  - eexists _, level, _. split; [reflexivity | exact Hl].
Qed.

(** The invariant of the loop of [screen_payment]. *)
Lemma attempts_inv self w prompt :
  forall n a st,
    (a + S n = max_retries self)%nat ->
    requests_sent st = a ->
    slept st = (retry_delay self * Z.of_nat a)%Z ->
    exists r st',
      attempts lib self w prompt (seq a (S n)) st = (Some r, st')
      /\ (a < requests_sent st' <= max_retries self)%nat
      /\ slept st' = (retry_delay self * Z.of_nat (pred (requests_sent st')))%Z
      /\ screening_verdict r
      /\ (get r "allowed" PNone = PBool false
          \/ exists k text,
               (k < requests_sent st')%nat
               /\ endpoint w prompt k = Reply 200 text).
Proof.
  induction n as [|n IH]; intros a st Han Hr Hs.
  - (* the last attempt *)
    cbn [seq attempts].
    assert (Hlast : last_attempt self a = true).
    { unfold last_attempt. apply negb_true_iff. apply Z.ltb_ge. lia. }
    rewrite Hlast, Hr.
    assert (Hst : (a < requests_sent (send st) <= max_retries self)%nat
                  /\ slept (send st)
                     = (retry_delay self
                        * Z.of_nat (pred (requests_sent (send st))))%Z).
    { cbn [send requests_sent slept pred]. rewrite Hr, Hs. split; lia. }
    destruct Hst as [Hreq Hsl].
    destruct (attempt_body lib (endpoint w prompt a)) as [[parsed|[code body]]|e]
      eqn:E.
    + exists parsed, (send st). repeat split; try assumption; try lia.
      * unfold attempt_body in E.
        destruct (endpoint w prompt a) as [code body|e]; [|discriminate E].
        destruct (code =? 200)%Z; [|discriminate E].
        destruct (FraudAnalyzer.response_json lib body) as [j|e];
          [|discriminate E].
        cbn [bind] in E.
        destruct (FraudAnalyzer.item j "response") as [resp|e];
          [|discriminate E].
        cbn [bind] in E. injection E as <-. apply parse_result_verdict.
      * right. unfold attempt_body in E.
        destruct (endpoint w prompt a) as [code body|e] eqn:Ee;
          [|discriminate E].
        destruct (code =? 200)%Z eqn:Ec; [|discriminate E].
        apply Z.eqb_eq in Ec. subst code.
        exists a, body. split; [lia | exact Ee].
    + eexists _, (send st). split; [reflexivity|].
      repeat split; try assumption; try lia.
      * apply refusal_verdict.
      * left. reflexivity.
    + eexists _, (send st). split; [reflexivity|].
      repeat split; try assumption; try lia.
      * apply refusal_verdict.
      * left. reflexivity.
  - (* an attempt that is not the last one *)
    change (seq a (S (S n))) with (a :: seq (S a) (S n)).
    cbn [attempts].
    assert (Hlast : last_attempt self a = false).
    { unfold last_attempt. apply negb_false_iff. apply Z.ltb_lt. lia. }
    rewrite Hlast, Hr.
    destruct (IH (S a) (sleep (retry_delay self) (send st)))
      as (r & st' & E' & Hreq' & Hsl' & Hv' & Ha').
    { lia. }
    { cbn [sleep send requests_sent]. now rewrite Hr. }
    { cbn [sleep send slept]. rewrite Hs. lia. }
    destruct (attempt_body lib (endpoint w prompt a)) as [[parsed|[code body]]|e]
      eqn:E.
    + exists parsed, (send st).
      assert (Hreq : requests_sent (send st) = S a)
        by (cbn [send requests_sent]; now rewrite Hr).
      split; [reflexivity|]. rewrite Hreq. cbn [pred].
      split; [lia|]. split; [exact Hs|].
      unfold attempt_body in E.
      destruct (endpoint w prompt a) as [code body|e] eqn:Ee;
        [|discriminate E].
      destruct (code =? 200)%Z eqn:Ec; [|discriminate E].
      apply Z.eqb_eq in Ec. subst code.
      destruct (FraudAnalyzer.response_json lib body) as [j|e];
        [|discriminate E].
      cbn [bind] in E.
      destruct (FraudAnalyzer.item j "response") as [resp|e];
        [|discriminate E].
      cbn [bind] in E. injection E as <-.
      split; [apply parse_result_verdict|].
      right. exists a, body. split; [lia | exact Ee].
    + exists r, st'. split; [exact E'|]. split; [lia|]. auto.
    + exists r, st'. split; [exact E'|]. split; [lia|]. auto.
Qed.

Lemma prompt_missing_key (payment : dict) (key : string) :
  In key prompt_keys ->
  has_key key payment = false ->
  exists k, _create_screening_prompt lib payment = Raise (ExKey k)
            /\ has_key k payment = false.
Proof.
  intros Hin Hk. unfold _create_screening_prompt, subscript.
  assert (Hnone : dict_get key payment = None)
    by (unfold has_key in Hk; destruct (dict_get key payment);
        [discriminate | reflexivity]).
  repeat match goal with
         | |- context [dict_get ?k payment] =>
             lazymatch goal with
             | |- exists _, bind (match dict_get k payment with _ => _ end) _
                            = _ /\ _ =>
                 let E := fresh "E" in
                 destruct (dict_get k payment) eqn:E; cbn [bind];
                 [| exists k; split;
                    [reflexivity | unfold has_key; now rewrite E] ]
             end
         end.
  exfalso. unfold prompt_keys in Hin. cbn [In] in Hin.
  repeat (destruct Hin as [<-|Hin]; [congruence|]). exact Hin.
Qed.

Lemma screening_prompt_builds (payment : dict) :
  forallb (fun key => has_key key payment) prompt_keys = true ->
  exists prompt, _create_screening_prompt lib payment = Ok prompt.
Proof.
  unfold prompt_keys. cbn [forallb]. intros H.
  repeat (apply andb_true_iff in H; destruct H as [? H]).
  unfold _create_screening_prompt, subscript.
  repeat match goal with
         | Hk : has_key ?k payment = true |- _ =>
             apply ParserFacts.has_key_true in Hk;
             let v := fresh "v" in
             let E := fresh "E" in
             destruct Hk as (v & E); rewrite E; cbn [bind]
         end.
  eauto.
Qed.

End WithLib.
End ScreeningFacts.

(** ** The loan evaluator *)

Module CreditFacts.
Import CreditScoring.

Local Open Scope Q_scope.

Lemma employment_score_bounds (years : Z) (status : pyval) :
  0 <= _calculate_employment_score years status <= 70.
Proof.
  unfold _calculate_employment_score. cbv zeta.
  split_ifs;
    (split; [apply Qle_bool_iff | apply Qle_bool_iff]); vm_compute; reflexivity.
Qed.

Lemma employment_score_unemployed (years : Z) :
  _calculate_employment_score years (PStr "Unemployed") == 0.
Proof.
  unfold _calculate_employment_score. cbv zeta. cbn [eq_str String.eqb Ascii.eqb Bool.eqb].
  split_ifs; apply Qeq_bool_iff; vm_compute; reflexivity.
Qed.

Lemma eq_str_true (v : pyval) (s : string) : eq_str v s = true -> v = PStr s.
Proof.
  destruct v; try discriminate. cbn [eq_str]. intros H.
  apply String.eqb_eq in H. now subst.
Qed.

End CreditFacts.

(** ** The rule-based evaluation of a loan application *)

Module EvaluationFacts.
Import CreditScoring.

Local Open Scope Q_scope.

Section WithLib.
Variable lib : PyLib.

(** The [try] block of [_rule_based_evaluation], by its components. *)
Lemma evaluation_body_inv (app metrics v : dict) :
  rule_based_body lib app metrics = Ok v ->
  exists (income loan dti es lti : pyfloat) (cc dc ic lc : Q),
    py_float lib (get app "loan_amount" (PInt 0)) = Ok loan
    /\ py_float lib (get app "annual_income" (PInt 0)) = Ok income
    /\ num (get metrics "debt_to_income_ratio" (PInt 999)) = Ok dti
    /\ num (get metrics "employment_stability_score" (PInt 0)) = Ok es
    /\ num (get metrics "loan_to_income_ratio" (PInt 999)) = Ok lti
    /\ 7 <= cc <= 35 /\ 3 <= ic <= 15
    /\ 0 <= dc <= 25 /\ 0 <= lc <= 5
    /\ (fle dti (Fin 50) = true \/ dc = 0)
    /\ (fle lti (Fin 500) = true \/ lc = 0)
    /\ dict_get "total_score" v
       = Some (PNum (fadd (fadd (fadd (fadd (fadd (Fin 0) (Fin cc)) (Fin dc))
                                   (fmul (fdiv_const es 100) (Fin 20)))
                             (Fin ic)) (Fin lc)))
    /\ (exists t,
          dict_get "total_score" v = Some (PNum t)
          /\ dict_get "status" v = Some (PStr (fst (fst (evaluation_ladder t))))
          /\ dict_get "risk_level" v
             = Some (PStr (snd (fst (evaluation_ladder t))))
          /\ dict_get "approved" v = Some (PBool (snd (evaluation_ladder t)))
          /\ dict_get "recommended_loan_amount" v
             = Some (if snd (evaluation_ladder t) then PNum loan else PInt 0)
          /\ (fst (fst (evaluation_ladder t)) = "CONDITIONAL_APPROVAL"%string
              \/ dict_get "conditions" v = Some (PList []))).
Proof.
  unfold rule_based_body. cbv zeta.
  destruct (py_int lib (get app "credit_score" (PInt 0))) as [credit|e];
    cbn [bind]; [|discriminate].
  destruct (py_float lib (get app "annual_income" (PInt 0))) as [income|e];
    cbn [bind]; [|discriminate].
  destruct (py_float lib (get app "loan_amount" (PInt 0))) as [loan|e];
    cbn [bind]; [|discriminate].
  destruct (num (get metrics "debt_to_income_ratio" (PInt 999))) as [dti|e];
    cbn [bind]; [|discriminate].
  destruct (num (get metrics "employment_stability_score" (PInt 0)))
    as [es|e]; cbn [bind]; [|discriminate].
  destruct (num (get metrics "loan_to_income_ratio" (PInt 999))) as [lti|e];
    cbn [bind]; [|discriminate].
  set (cc := if (credit >=? 750)%Z then 35
             else if (credit >=? 700)%Z then 28
             else if (credit >=? 650)%Z then 21
             else if (credit >=? 600)%Z then 14 else 7).
  set (dc := if fle dti (Fin 30) then 25
             else if fle dti (Fin 36) then 20
             else if fle dti (Fin 43) then 15
             else if fle dti (Fin 50) then 10 else 0).
  set (ic := if fge income (Fin 100000) then 15
             else if fge income (Fin 75000) then 12
             else if fge income (Fin 50000) then 9
             else if fge income (Fin 30000) then 6 else 3).
  set (lc := if fle lti (Fin 200) then 5
             else if fle lti (Fin 300) then 3
             else if fle lti (Fin 500) then 1 else 0).
  set (t := fadd (fadd (fadd (fadd (fadd (Fin 0) (Fin cc)) (Fin dc))
                          (fmul (fdiv_const es 100) (Fin 20)))
                    (Fin ic)) (Fin lc)).
  intros H.
  exists income, loan, dti, es, lti, cc, dc, ic, lc.
  split; [reflexivity|]. split; [reflexivity|]. split; [reflexivity|].
  split; [reflexivity|]. split; [reflexivity|].
  split; [unfold cc; split_ifs; lra|].
  split; [unfold ic; split_ifs; lra|].
  split; [unfold dc; split_ifs; lra|].
  split; [unfold lc; split_ifs; lra|].
  split.
  { unfold dc. destruct (fle dti (Fin 30)) eqn:E30.
    - left. destruct dti as [q| | |]; try discriminate; try reflexivity.
      cbn [fle] in *. apply Qle_bool_iff. apply Qle_bool_iff in E30. lra.
    - destruct (fle dti (Fin 36)) eqn:E36.
      + left. destruct dti as [q| | |]; try discriminate; try reflexivity.
        cbn [fle] in *. apply Qle_bool_iff. apply Qle_bool_iff in E36. lra.
      + destruct (fle dti (Fin 43)) eqn:E43.
        * left. destruct dti as [q| | |]; try discriminate; try reflexivity.
          cbn [fle] in *. apply Qle_bool_iff. apply Qle_bool_iff in E43. lra.
        * destruct (fle dti (Fin 50)); [now left | now right]. }
  split.
  { unfold lc. destruct (fle lti (Fin 200)) eqn:E2.
    - left. destruct lti as [q| | |]; try discriminate; try reflexivity.
      cbn [fle] in *. apply Qle_bool_iff. apply Qle_bool_iff in E2. lra.
    - destruct (fle lti (Fin 300)) eqn:E3.
      + left. destruct lti as [q| | |]; try discriminate; try reflexivity.
        cbn [fle] in *. apply Qle_bool_iff. apply Qle_bool_iff in E3. lra.
      + destruct (fle lti (Fin 500)); [now left | now right]. }
  revert H. unfold evaluation_ladder.
  destruct (fge t (Fin 80)) eqn:E80.
  - destruct (_identify_risk_factors lib app metrics) as [rf|e];
      cbn [bind]; [|discriminate].
    destruct (_identify_strengths lib app metrics) as [st|e];
      cbn [bind]; [|discriminate].
    destruct (_generate_recommendations lib app metrics true) as [rec|e];
      cbn [bind]; [|discriminate].
    intros H. injection H as <-.
    split; [reflexivity|]. exists t. rewrite E80.
    repeat split; try reflexivity. right. reflexivity.
  - destruct (fge t (Fin 65)) eqn:E65.
    + destruct (_identify_risk_factors lib app metrics) as [rf|e];
        cbn [bind]; [|discriminate].
      destruct (_identify_strengths lib app metrics) as [st|e];
        cbn [bind]; [|discriminate].
      destruct (_generate_recommendations lib app metrics true) as [rec|e];
        cbn [bind]; [|discriminate].
      intros H. injection H as <-.
      split; [reflexivity|]. exists t. rewrite E80, E65.
      repeat split; try reflexivity. left. reflexivity.
    + destruct (_identify_risk_factors lib app metrics) as [rf|e];
        cbn [bind]; [|discriminate].
      destruct (_identify_strengths lib app metrics) as [st|e];
        cbn [bind]; [|discriminate].
      destruct (_generate_recommendations lib app metrics false) as [rec|e];
        cbn [bind]; [|discriminate].
      intros H. injection H as <-.
      split; [reflexivity|]. exists t. rewrite E80, E65.
      repeat split; try reflexivity. right. reflexivity.
Qed.

End WithLib.
End EvaluationFacts.

(** ** The advisory path of the loan evaluator *)

Module AdvisoryFacts.
Import CreditScoring.

Local Open Scope Q_scope.

Section WithLib.
Variable lib : PyLib.

(** What the parser leaves of a decoded object it accepts. *)
Lemma parsed_evaluation_fields (response : pyval) (ai : dict) :
  _parse_ai_response lib response = Some ai ->
  exists text d status risk_level,
    response = PStr text
    /\ json_loads lib (extract_object text) = Some (PDict d)
    /\ dict_get "status" ai = Some (PStr status)
    /\ FraudAnalyzer.str_in status
         ["APPROVED"; "CONDITIONAL_APPROVAL"; "REJECTED"] = true
    /\ dict_get "risk_level" ai = Some (PStr risk_level)
    /\ FraudAnalyzer.str_in risk_level ["low"; "medium"; "high"] = true
    /\ dict_get "approved" ai = dict_get "approved" d
    /\ dict_get "reason" ai = dict_get "reason" d
    /\ has_key "approved" d = true
    /\ has_key "reason" d = true.
Proof.
  unfold _parse_ai_response.
  destruct response as [| | |text| |]; try discriminate.
  destruct (parse_body lib text) as [[r|]|e] eqn:E; try discriminate.
  intros H. injection H as ->.
  unfold parse_body in E. cbv zeta in E.
  destruct (json_loads lib (extract_object text)) as [[| | | | |d]|] eqn:Ej;
    try discriminate E.
  destruct (forallb _ _) eqn:Ef; cbn [negb] in E; [|discriminate E].
  unfold required_fields in Ef. cbn [forallb] in Ef.
  repeat (apply andb_true_iff in Ef; destruct Ef as [? Ef]).
  unfold subscript in E.
  destruct (dict_get "status" d) as [sv|] eqn:Es; [|discriminate E].
  cbn [bind] in E.
  set (d1 := if negb (in_strs sv ["APPROVED"; "CONDITIONAL_APPROVAL"; "REJECTED"])
             then dict_set "status" (PStr "REJECTED") d else d) in *.
  assert (S1 : exists status,
             dict_get "status" d1 = Some (PStr status)
             /\ FraudAnalyzer.str_in status
                  ["APPROVED"; "CONDITIONAL_APPROVAL"; "REJECTED"] = true).
  { unfold d1.
    destruct (in_strs sv ["APPROVED"; "CONDITIONAL_APPROVAL"; "REJECTED"])
      eqn:Ev; cbn [negb].
    - destruct (ParserMore.in_strs_str _ _ Ev) as (s & -> & Hs). eauto.
    - rewrite dict_get_set_same. exists "REJECTED"%string. split; reflexivity. }
  assert (O1 : forall k, String.eqb k "status" = false ->
                         dict_get k d1 = dict_get k d).
  { intros k Hk. unfold d1.
    destruct (negb (in_strs sv ["APPROVED"; "CONDITIONAL_APPROVAL"; "REJECTED"]));
      [|reflexivity].
    now rewrite dict_get_set_other. }
  destruct (dict_get "risk_level" d1) as [rv|] eqn:Er; [|discriminate E].
  cbn [bind] in E.
  set (d2 := if negb (in_strs rv ["low"; "medium"; "high"])
             then dict_set "risk_level" (PStr "high") d1 else d1) in *.
  assert (S2 : exists risk_level,
             dict_get "risk_level" d2 = Some (PStr risk_level)
             /\ FraudAnalyzer.str_in risk_level ["low"; "medium"; "high"]
                = true).
  { unfold d2. destruct (in_strs rv ["low"; "medium"; "high"]) eqn:Ev;
      cbn [negb].
    - destruct (ParserMore.in_strs_str _ _ Ev) as (s & -> & Hs). eauto.
    - rewrite dict_get_set_same. exists "high"%string. split; reflexivity. }
  assert (O2 : forall k, String.eqb k "risk_level" = false ->
                         dict_get k d2 = dict_get k d1).
  { intros k Hk. unfold d2.
    destruct (negb (in_strs rv ["low"; "medium"; "high"])); [|reflexivity].
    now rewrite dict_get_set_other. }
  assert (O3 : forall k, String.eqb k "confidence_score" = false ->
                         dict_get k ai = dict_get k d2).
  { intros k Hk. destruct (has_key "confidence_score" d2).
    - destruct (num _) as [c|e]; cbn [bind] in E; [|discriminate E].
      injection E as <-. now rewrite dict_get_set_other.
    - cbn [bind] in E. injection E as <-. reflexivity. }
  destruct S1 as (status & Hst & Hsv). destruct S2 as (risk & Hrk & Hrv).
  exists text, d, status, risk.
  split; [reflexivity|]. split; [exact Ej|].
  split; [rewrite O3, O2 by reflexivity; exact Hst|].
  split; [exact Hsv|].
  split; [rewrite O3 by reflexivity; exact Hrk|].
  split; [exact Hrv|].
  split; [rewrite O3, O2, O1 by reflexivity; reflexivity|].
  split; [rewrite O3, O2, O1 by reflexivity; reflexivity|].
  split; assumption.
Qed.




(** The [try] block of the combiner, key by key. *)
Lemma evaluation_combine_inv (ai metrics app c : dict) :
  combine_body lib ai metrics app = Ok c ->
  dict_get "approved" c
  = Some (PBool (truthy (get ai "approved" (PBool false))))
  /\ dict_get "debt_to_income_ratio" c
     = Some (get metrics "debt_to_income_ratio" (PInt 0))
  /\ dict_get "employment_stability_score" c
     = Some (get metrics "employment_stability_score" (PInt 0))
  /\ (forall k, FraudAnalyzer.str_in k evaluation_combiner_keys = false ->
                dict_get k c = dict_get k ai).
Proof.
  unfold combine_body. cbv zeta. unfold dict_update. cbn [fold_left fst snd].
  set (c0 := dict_set "estimated_monthly_payment" _ _).
  destruct (absent_or_not_positive "recommended_interest_rate" c0)
    as [use_estimate|e]; cbn [bind]; [|discriminate].
  set (c1 := if use_estimate then _ else c0).
  destruct (absent_or_not_positive "recommended_loan_amount" c1)
    as [use_request|e]; cbn [bind]; [|discriminate].
  set (m2 := if use_request then _ else Ok c1).
  destruct m2 as [c2|e] eqn:E2; cbn [bind]; [|discriminate].
  set (c3 := dict_set "approved" _ c2).
  set (m4 := if negb (truthy (get c3 "risk_factors" PNone)) then _ else Ok c3).
  destruct m4 as [c4|e] eqn:E4; cbn [bind]; [|discriminate].
  set (m5 := if negb (truthy (get c4 "strengths" PNone)) then _ else Ok c4).
  destruct m5 as [c5|e] eqn:E5; cbn [bind]; [|discriminate].
  intros H. injection H as <-.
  (* each step, on the keys it does not write *)
  assert (O5 : forall k, String.eqb k "strengths" = false ->
                         dict_get k c5 = dict_get k c4).
  { intros k Hk. unfold m5 in E5.
    destruct (negb (truthy (get c4 "strengths" PNone))).
    - destruct (_identify_strengths lib app metrics); cbn [bind] in E5;
        [|discriminate]. injection E5 as <-. now rewrite dict_get_set_other.
    - injection E5 as <-. reflexivity. }
  assert (O4 : forall k, String.eqb k "risk_factors" = false ->
                         dict_get k c4 = dict_get k c3).
  { intros k Hk. unfold m4 in E4.
    destruct (negb (truthy (get c3 "risk_factors" PNone))).
    - destruct (_identify_risk_factors lib app metrics); cbn [bind] in E4;
        [|discriminate]. injection E4 as <-. now rewrite dict_get_set_other.
    - injection E4 as <-. reflexivity. }
  assert (O3 : forall k, String.eqb k "approved" = false ->
                         dict_get k c3 = dict_get k c2).
  { intros k Hk. unfold c3. now rewrite dict_get_set_other. }
  assert (O2 : forall k, String.eqb k "recommended_loan_amount" = false ->
                         dict_get k c2 = dict_get k c1).
  { intros k Hk. unfold m2 in E2. destruct use_request.
    - destruct (py_float lib _); cbn [bind] in E2; [|discriminate].
      injection E2 as <-. now rewrite dict_get_set_other.
    - injection E2 as <-. reflexivity. }
  assert (O1 : forall k, String.eqb k "recommended_interest_rate" = false ->
                         dict_get k c1 = dict_get k c0).
  { intros k Hk. unfold c1. destruct use_estimate; [|reflexivity].
    now rewrite dict_get_set_other. }
  split; [|split; [|split]].
  - rewrite O5, O4 by reflexivity. unfold c3. rewrite dict_get_set_same.
    do 2 f_equal. unfold get.
    rewrite O2, O1 by reflexivity. unfold c0.
    now rewrite !dict_get_set_other by reflexivity.
  - rewrite O5, O4, O3, O2, O1 by reflexivity. unfold c0.
    rewrite !dict_get_set_other by reflexivity. apply dict_get_set_same.
  - rewrite O5, O4, O3, O2, O1 by reflexivity. unfold c0.
    rewrite !dict_get_set_other by reflexivity. apply dict_get_set_same.
  - intros k Hk. unfold evaluation_combiner_keys in Hk.
    repeat match type of Hk with
           | FraudAnalyzer.str_in k (_ :: _) = false =>
               apply CombinerMore.str_in_cons_false in Hk;
               let E := fresh "K" in destruct Hk as [E Hk]
           end.
    rewrite O5, O4, O3, O2, O1 by assumption. unfold c0.
    now rewrite !dict_get_set_other by assumption.
Qed.


End WithLib.
End AdvisoryFacts.

(** ** The financial metrics *)

Module MetricsFacts.
Import CreditScoring.

Local Open Scope Q_scope.

Lemma not_positive_monthly (income : pyfloat) :
  flt fzero income = false -> flt fzero (fdiv_const income 12) = false.
Proof.
  destruct income as [x| | |]; cbn [fdiv_const flt fzero]; auto.
  intros H. apply negb_false_iff in H. apply Qle_bool_iff in H.
  apply negb_false_iff. apply Qle_bool_iff.
  unfold Qdiv. setoid_replace 0 with (0 * / 12) by ring.
  apply Qmult_le_compat_r; [exact H | discriminate].
Qed.

Section WithLib.
Variable lib : PyLib.
Variable power : pyfloat -> Z -> result pyfloat.

(** The [try] block of [_calculate_financial_metrics]. *)
Lemma metrics_body_inv (u1 u2 : Q) (app m : dict) :
  metrics_body lib power u1 u2 app = Ok m ->
  exists (income debt payment dti lti : pyfloat) (credit years : Z),
    py_float lib (get app "annual_income" (PInt 0)) = Ok income
    /\ m = [ ("monthly_income", PNum (fdiv_const income 12));
             ("monthly_existing_debt", PNum (fdiv_const debt 12));
             ("estimated_monthly_payment", PNum payment);
             ("total_monthly_debt", PNum (fadd (fdiv_const debt 12) payment));
             ("debt_to_income_ratio", PNum dti);
             ("loan_to_income_ratio", PNum lti);
             ("estimated_interest_rate",
              PQ (_estimate_interest_rate u2 credit));
             ("employment_stability_score",
              PQ (_calculate_employment_score years
                    (get app "employment_status" (PStr EmptyString)))) ]
    /\ (flt fzero income = true \/ (dti = Fin 999 /\ lti = Fin 999)).
Proof.
  unfold metrics_body. cbv zeta.
  destruct (py_float lib (get app "annual_income" (PInt 0))) as [income|e];
    cbn [bind]; [|discriminate].
  destruct (py_float lib (get app "loan_amount" (PInt 0))) as [loan|e];
    cbn [bind]; [|discriminate].
  destruct (py_float lib (get app "existing_debt" (PInt 0))) as [debt|e];
    cbn [bind]; [|discriminate].
  destruct (py_int lib (get app "loan_term" (PInt 60))) as [term|e];
    cbn [bind]; [|discriminate].
  destruct (py_int lib (get app "credit_score" (PInt 0))) as [credit|e];
    cbn [bind]; [|discriminate].
  destruct (py_int lib (get app "employment_years" (PInt 0))) as [years|e];
    cbn [bind]; [|discriminate].
  match goal with
  | |- bind ?p _ = _ -> _ => destruct p as [payment|e]
  end; cbn [bind]; [|discriminate].
  destruct (flt fzero income) eqn:Ei.
  - match goal with
    | |- bind ?p _ = _ -> _ => destruct p as [dti|e]
    end; cbn [bind]; [|discriminate].
    match goal with
    | |- bind ?p _ = _ -> _ => destruct p as [lti|e]
    end; cbn [bind]; [|discriminate].
    intros H. injection H as <-.
    exists income, debt, payment, dti, lti, credit, years.
    split; [reflexivity|]. split; [reflexivity|]. now left.
  - rewrite (not_positive_monthly income Ei). cbn [bind].
    intros H. injection H as <-.
    exists income, debt, payment, (Fin 999), (Fin 999), credit, years.
    split; [reflexivity|]. split; [reflexivity|]. right. split; reflexivity.
Qed.


End WithLib.

Section Bound.
Variable lib : PyLib.

(** With no points for the two ratios, the total stays below the 65 a
    conditional approval takes. *)
Lemma both_ratios_out (app metrics : dict) (dti lti : pyfloat) (es : Q) :
  num (get metrics "debt_to_income_ratio" (PInt 999)) = Ok dti ->
  fle dti (Fin 50) = false ->
  num (get metrics "loan_to_income_ratio" (PInt 999)) = Ok lti ->
  fle lti (Fin 500) = false ->
  num (get metrics "employment_stability_score" (PInt 0)) = Ok (Fin es) ->
  es <= 70 ->
  dict_get "approved" (_rule_based_evaluation lib app metrics)
  = Some (PBool false).
Proof.
  intros Hd Hd50 Hl Hl500 He Hes. unfold _rule_based_evaluation.
  destruct (rule_based_body lib app metrics) as [v|e] eqn:E; [|reflexivity].
  destruct (EvaluationFacts.evaluation_body_inv lib _ _ _ E)
    as (income & loan & dti' & es' & lti' & cc & dc & ic & lc & _ & _ & Hd'
        & He' & Hl' & Hcc & Hic & Hdc & Hlc & Cd & Cl & Ht & t & Ht' & _ & _
        & Ha & _).
  rewrite Hd in Hd'. injection Hd' as <-.
  rewrite Hl in Hl'. injection Hl' as <-.
  rewrite He in He'. injection He' as <-.
  destruct Cd as [Cd| ->]; [congruence|].
  destruct Cl as [Cl| ->]; [congruence|].
  rewrite Ht in Ht'. injection Ht' as <-.
  rewrite Ha. do 2 f_equal.
  cbn [fdiv_const fmul fadd]. unfold evaluation_ladder. cbn [fge fle].
  assert (H80 : Qle_bool 80 (0 + cc + 0 + es / 100 * 20 + ic + 0) = false).
  { destruct (Qle_bool 80 _) eqn:B; [|reflexivity].
    apply Qle_bool_iff in B. exfalso.
    assert (es / 100 * 20 <= 14)
      by (unfold Qdiv; setoid_replace (es * / 100 * 20) with (es * (1 # 5))
            by (field; discriminate); lra).
    lra. }
  assert (H65 : Qle_bool 65 (0 + cc + 0 + es / 100 * 20 + ic + 0) = false).
  { destruct (Qle_bool 65 _) eqn:B; [|reflexivity].
    apply Qle_bool_iff in B. exfalso.
    assert (es / 100 * 20 <= 14)
      by (unfold Qdiv; setoid_replace (es * / 100 * 20) with (es * (1 # 5))
            by (field; discriminate); lra).
    lra. }
  rewrite H80, H65. reflexivity.
Qed.

End Bound.
End MetricsFacts.

(** ** The rule-based scoring of the loan processing thread *)

Module ScoringFacts.
Import LoanApplication.

Local Open Scope Q_scope.

Section WithLib.
Variable lib : PyLib.

(** The [try] block of [_rule_based_scoring], by its four components. *)
Lemma scoring_body_inv (u : Q) (loan_data v : dict) :
  scoring_body lib u loan_data = Ok v ->
  exists (income dti : pyfloat) (c d e i : Z),
    py_float lib (get loan_data "annual_income" (PInt 0)) = Ok income
    /\ (0 <= c <= 40)%Z /\ (0 <= d <= 30)%Z /\ (0 <= e <= 20)%Z
    /\ (0 <= i <= 10)%Z
    /\ (fle dti (Fin 50) = true \/ d = 0%Z)
    /\ (fge income (Fin 50000) = true \/ i = 0%Z)
    /\ (flt fzero income = true \/ dti = Fin 100)
    /\ dict_get "credit_score_calculated" v = Some (PInt (c + d + e + i))
    /\ dict_get "debt_to_income_ratio" v = Some (PNum dti)
    /\ dict_get "status" v
       = Some (PStr (if (c + d + e + i >=? 80)%Z then "APPROVED"
                     else if (c + d + e + i >=? 60)%Z
                          then "CONDITIONAL_APPROVAL" else "REJECTED"))
    /\ dict_get "risk_level" v
       = Some (PStr (if (c + d + e + i >=? 80)%Z then "low"
                     else if (c + d + e + i >=? 60)%Z then "medium"
                          else "high"))
    /\ dict_get "approved" v = Some (PBool (c + d + e + i >=? 80)%Z)
    /\ dict_get "interest_rate" v
       = Some (if (c + d + e + i >=? 80)%Z
               then PQ (3.5 + CreditScoring.uniform 0 1.5 u)
               else if (c + d + e + i >=? 60)%Z
                    then PQ (5.0 + CreditScoring.uniform 0 2.0 u)
                    else PNone).
Proof.
  unfold scoring_body. cbv zeta.
  destruct (py_int lib (get loan_data "credit_score" (PInt 0))) as [credit|x];
    cbn [bind]; [|discriminate].
  destruct (py_float lib (get loan_data "annual_income" (PInt 0)))
    as [income|x]; cbn [bind]; [|discriminate].
  destruct (py_float lib (get loan_data "loan_amount" (PInt 0))) as [loan|x];
    cbn [bind]; [|discriminate].
  destruct (py_float lib (get loan_data "existing_debt" (PInt 0))) as [debt|x];
    cbn [bind]; [|discriminate].
  destruct (py_int lib (get loan_data "employment_years" (PInt 0)))
    as [years|x]; cbn [bind]; [|discriminate].
  destruct (py_int lib (get loan_data "loan_term" (PInt 60))) as [term|x];
    cbn [bind]; [|discriminate].
  destruct (fdiv loan (Fin (inject_Z term))) as [payment|x];
    cbn [bind]; [|discriminate].
  set (m := if flt fzero (fdiv_const income 12) then _ else Ok (Fin 100)).
  destruct m as [dti|x] eqn:Em; cbn [bind]; [|discriminate].
  assert (Hdti : flt fzero income = true \/ dti = Fin 100).
  { destruct (flt fzero income) eqn:Ei; [now left | right].
    unfold m in Em. rewrite (MetricsFacts.not_positive_monthly income Ei) in Em.
    now injection Em as <-. }
  clear Em m.
  set (p1 := if (credit >=? 750)%Z then _ else _).
  destruct p1 as [s1 r1] eqn:E1.
  assert (H1 : (0 <= s1 <= 40)%Z)
    by (unfold p1 in E1; revert E1; split_ifs; intros E1;
        injection E1 as <- _; lia).
  clear E1 p1.
  set (p2 := if fle dti (Fin 30) then _ else _).
  destruct p2 as [s2 r2] eqn:E2.
  assert (H2 : (0 <= s2 - s1 <= 30)%Z
               /\ (fle dti (Fin 50) = true \/ (s2 - s1 = 0)%Z)).
  { unfold p2 in E2. revert E2.
    destruct (fle dti (Fin 30)) eqn:B30.
    - intros E2. injection E2 as <- _. split; [lia | left].
      destruct dti as [q| | |]; try discriminate; try reflexivity.
      cbn [fle] in *. apply Qle_bool_iff. apply Qle_bool_iff in B30. lra.
    - destruct (fle dti (Fin 40)) eqn:B40.
      + intros E2. injection E2 as <- _. split; [lia | left].
        destruct dti as [q| | |]; try discriminate; try reflexivity.
        cbn [fle] in *. apply Qle_bool_iff. apply Qle_bool_iff in B40. lra.
      + destruct (fle dti (Fin 50)) eqn:B50;
          intros E2; injection E2 as <- _.
        * split; [lia | now left].
        * split; [lia | right; lia]. }
  clear E2 p2.
  set (p3 := if (years >=? 5)%Z then _ else _).
  destruct p3 as [s3 r3] eqn:E3.
  assert (H3 : (0 <= s3 - s2 <= 20)%Z)
    by (unfold p3 in E3; revert E3; split_ifs; intros E3;
        injection E3 as <- _; lia).
  clear E3 p3.
  set (p4 := if fge income (Fin 75000) then _ else _).
  destruct p4 as [s4 r4] eqn:E4.
  assert (H4 : (0 <= s4 - s3 <= 10)%Z
               /\ (fge income (Fin 50000) = true \/ (s4 - s3 = 0)%Z)).
  { unfold p4 in E4. revert E4.
    destruct (fge income (Fin 75000)) eqn:B75.
    - intros E4. injection E4 as <- _. split; [lia | left].
      unfold fge in *.
      destruct income as [q| | |]; try discriminate; try reflexivity.
      cbn [fle] in *. apply Qle_bool_iff. apply Qle_bool_iff in B75. lra.
    - destruct (fge income (Fin 50000)) eqn:B50.
      + intros E4. injection E4 as <- _. split; [lia | now left].
      + destruct (flt income (Fin 30000));
          intros E4; injection E4 as <- _; (split; [lia | right; lia]). }
  clear E4 p4.
  destruct H2 as [H2 C2]. destruct H4 as [H4 C4].
  intros H.
  exists income, dti, s1, (s2 - s1)%Z, (s3 - s2)%Z, (s4 - s3)%Z.
  replace (s1 + (s2 - s1) + (s3 - s2) + (s4 - s3))%Z with s4 by lia.
  split; [reflexivity|].
  split; [exact H1|]. split; [exact H2|]. split; [exact H3|].
  split; [exact H4|]. split; [exact C2|]. split; [exact C4|].
  split; [exact Hdti|].
  revert H. destruct (s4 >=? 80)%Z.
  - intros H. injection H as <-. repeat split; reflexivity.
  - destruct (s4 >=? 60)%Z; intros H; injection H as <-;
      repeat split; reflexivity.
Qed.

End WithLib.
End ScoringFacts.

(** ** The record of an analysed transaction *)

Module RecordFacts.
Import FraudAnalyzer.

Local Open Scope Q_scope.

Section WithLib.
Variable lib : PyLib.

(** The flag of a rule verdict follows its reported score. *)
Lemma rule_verdict_flag self now tx :
  exists m,
    dict_get "fraud_score" (_rule_based_analysis lib self now tx)
    = Some (PQ m)
    /\ dict_get "is_fraud" (_rule_based_analysis lib self now tx)
       = Some (PBool (Qle_bool 50 m)).
Proof.
  unfold _rule_based_analysis.
  destruct (rule_based_body lib self now tx) as [v|e] eqn:E.
  - destruct (RuleMore.rule_body_inv _ _ _ _ _ E)
      as (amount & a1 & f1 & a2 & f2 & a3 & f3 & a4 & f4 & a5 & f5 & a6 & f6
          & a7 & f7 & _ & _ & _ & _ & _ & _ & _ & _ & ->).
    set (s := 0 + a1 + a2 + a3 + a4 + a5 + a6 + a7).
    destruct (py_min_fin 100 s) as (m & Hm & H100 & Hs & Hcase).
    exists m. unfold PQ. cbn [dict_get String.eqb Ascii.eqb Bool.eqb].
    rewrite Hm. split; [reflexivity|]. do 2 f_equal.
    destruct Hcase as [->| ->]; [|reflexivity].
    transitivity true; [|reflexivity].
    apply Qle_bool_iff. lra.
  - exists 50. split; reflexivity.
Qed.

(** The verdict the analyzer returns: the rule verdict under one of two
    labels, or a combined verdict. *)
Lemma analyze_final_cases self w tx v st :
  analyze_transaction lib self w tx = (Ok v, st) ->
  (exists label,
      v = dict_update
            (dict_set "analysis_method" (PStr label)
               (_rule_based_analysis lib self (clock w 0%nat) tx))
            [ ("analysis_timestamp", PStr (isoformat (clock w 1%nat)));
              ("analyzer_version", PStr "1.0") ])
  \/ dict_get "analysis_method" v = Some (PStr "ai_enhanced").
Proof.
  intros H. unfold analyze_transaction in H. cbv zeta in H.
  destruct (_create_fraud_analysis_prompt lib tx _) as [prompt|e];
    [|discriminate].
  destruct (_get_ai_analysis lib self w prompt io0) as [ai st'].
  match type of H with
  | (bind (py_format lib ".1f" (get (dict_update ?f _) _ _)) _, _) = _ =>
      assert (Hf : (exists label,
                       f = dict_set "analysis_method" (PStr label)
                             (_rule_based_analysis lib self (clock w 0%nat) tx))
                   \/ dict_get "analysis_method" f
                      = Some (PStr "ai_enhanced"))
  end.
  { destruct ai as [ai|]; [|left; eexists; reflexivity].
    destruct (truthy (PDict ai) && truthy (get ai "success" (PBool false)));
      [|left; eexists; reflexivity].
    destruct (CombinerMore.combine_cases lib ai
                (_rule_based_analysis lib self (clock w 0%nat) tx) tx)
      as [(c & Hc & ->)| ->]; [right | left; eexists; reflexivity].
    destruct (CombinerMore.combine_body_inv lib _ _ _ _ Hc)
      as (a & r & _ & _ & Hm & _). exact Hm. }
  destruct (py_format lib ".1f" _) as [s|e]; unfold bind in H; [|discriminate].
  assert (Hv : v = dict_update
                     match ai with
                     | Some ai0 =>
                         if truthy (PDict ai0)
                            && truthy (get ai0 "success" (PBool false))
                         then _combine_ai_and_rules lib ai0
                                (_rule_based_analysis lib self (clock w 0%nat) tx)
                                tx
                         else dict_set "analysis_method" (PStr "rule_based")
                                (_rule_based_analysis lib self (clock w 0%nat) tx)
                     | None =>
                         dict_set "analysis_method" (PStr "rule_based")
                           (_rule_based_analysis lib self (clock w 0%nat) tx)
                     end
                     [ ("analysis_timestamp", PStr (isoformat (clock w 1%nat)));
                       ("analyzer_version", PStr "1.0") ])
    by congruence.
  clear H. rewrite Hv. clear Hv.
  destruct Hf as [(label & Hl)|Hm].
  - left. exists label. rewrite Hl. reflexivity.
  - right. unfold dict_update. cbn [fold_left fst snd].
    now rewrite !dict_get_set_other by reflexivity.
Qed.

End WithLib.
End RecordFacts.

(** * Further properties of the code *)

Local Open Scope Q_scope.

(** ** The rule engine of the fraud analyzer *)

(** X1 (fraud_analyzer.py, [_rule_based_analysis] and the seven
    [_analyze_*] methods): whatever the analyzer's rules and patterns, a
    verdict of the rule engine lists as many fraud indicators as risk
    factors, because every method appends to both lists together; the
    verdict of the error path has the single indicator [analysis_error]
    and no risk factors at all. *)
Theorem rule_findings_come_in_pairs (lib : PyLib) (self : FraudAnalyzer.t)
  (now : datetime) (tx : dict) :
  let v := FraudAnalyzer._rule_based_analysis lib self now tx in
  (exists tags texts,
      get v "fraud_indicators" PNone = FraudAnalyzer.strs tags
      /\ get v "risk_factors" PNone = FraudAnalyzer.strs texts
      /\ List.length tags = List.length texts)
  \/ (get v "analysis_method" PNone = PStr "error"
      /\ get v "fraud_indicators" PNone
         = FraudAnalyzer.strs ["analysis_error"]
      /\ has_key "risk_factors" v = false).
Proof.
  cbv zeta. unfold FraudAnalyzer._rule_based_analysis.
  destruct (FraudAnalyzer.rule_based_body lib self now tx) as [v|e] eqn:E.
  - left.
    destruct (RuleMore.rule_body_inv _ _ _ _ _ E)
      as (amount & a1 & f1 & a2 & f2 & a3 & f3 & a4 & f4 & a5 & f5 & a6 & f6
          & a7 & f7 & _ & E1 & E2 & E3 & E4 & E5 & E6 & E7 & ->).
    exists (FraudAnalyzer.indicators f7), (FraudAnalyzer.risk_factors f7).
    split; [reflexivity|]. split; [reflexivity|].
    assert (P0 : paired FraudAnalyzer.no_findings) by reflexivity.
    pose proof (RuleMore.analyze_amount_paired lib self amount _ P0) as P1.
    rewrite E1 in P1. cbn [snd] in P1.
    pose proof (RuleMore.analyze_location_paired _ _ _ _ _ _ P1 E2) as P2.
    pose proof (RuleMore.analyze_time_paired lib self
                  (FraudAnalyzer.read_timestamp lib now
                     (get tx "timestamp" (PStr EmptyString))) _ P2) as P3.
    rewrite E3 in P3. cbn [snd] in P3.
    pose proof (RuleMore.analyze_merchant_paired lib self
                  (get tx "merchant_category" (PStr EmptyString)) _ P3) as P4.
    rewrite E4 in P4. cbn [snd] in P4.
    pose proof (RuleMore.analyze_type_paired lib self
                  (get tx "transaction_type" (PStr EmptyString)) amount _ P4)
      as P5.
    rewrite E5 in P5. cbn [snd] in P5.
    pose proof (RuleMore.analyze_velocity_paired self tx _ P5) as P6.
    rewrite E6 in P6. cbn [snd] in P6.
    exact (RuleMore.analyze_patterns_paired _ _ _ _ _ _ P6 E7).
  - right. repeat split; reflexivity.
Qed.

(** X2 (fraud_analyzer.py, [_rule_based_analysis]): whatever the
    analyzer's rules, the rule verdict says fraud exactly when its
    reported score is at least 50; the cap of the score at 100 does not
    change that, and the verdict of the error path (score 50, fraud)
    obeys it too. *)
Theorem rule_fraud_flag_from_50 (lib : PyLib) (self : FraudAnalyzer.t)
  (now : datetime) (tx : dict) :
  let v := FraudAnalyzer._rule_based_analysis lib self now tx in
  exists m, get v "fraud_score" PNone = PQ m
            /\ get v "is_fraud" PNone = PBool (Qle_bool 50 m).
Proof.
  cbv zeta. unfold FraudAnalyzer._rule_based_analysis.
  destruct (FraudAnalyzer.rule_based_body lib self now tx) as [v|e] eqn:E.
  - destruct (RuleMore.rule_body_inv _ _ _ _ _ E)
      as (amount & a1 & f1 & a2 & f2 & a3 & f3 & a4 & f4 & a5 & f5 & a6 & f6
          & a7 & f7 & _ & _ & _ & _ & _ & _ & _ & _ & ->).
    set (s := 0 + a1 + a2 + a3 + a4 + a5 + a6 + a7).
    destruct (py_min_fin 100 s) as (m & Hm & H100 & Hs & Hcase).
    exists m. unfold get, PQ. cbn [dict_get String.eqb Ascii.eqb Bool.eqb].
    rewrite Hm. split; [reflexivity|]. f_equal.
    destruct Hcase as [->| ->]; [|reflexivity].
    transitivity true; [|reflexivity].
    apply Qle_bool_iff. lra.
  - exists 50. split; reflexivity.
Qed.


(** X4 (fraud_analyzer.py, [_rule_based_analysis] with the rules of
    [__init__]): the analyzer as the applications construct it reports the
    score 0 exactly when it reports no fraud indicator: every rule that
    contributes to the score names an indicator, and every indicator
    comes with a positive contribution. *)
Theorem rule_score_zero_iff_no_indicator (lib : PyLib) (now : datetime)
  (tx : dict) :
  let v := FraudAnalyzer._rule_based_analysis lib FraudAnalyzer.default now tx in
  exists m tags,
    get v "fraud_score" PNone = PQ m
    /\ get v "fraud_indicators" PNone = FraudAnalyzer.strs tags
    /\ (m == 0 <-> tags = []).
Proof.
  cbv zeta. unfold FraudAnalyzer._rule_based_analysis.
  destruct (FraudAnalyzer.rule_based_body lib FraudAnalyzer.default now tx)
    as [v|e] eqn:E.
  - destruct (RuleMore.rule_body_grown _ _ _ _ E) as (s & f & -> & G).
    destruct (py_min_fin 100 s) as (m & Hm & H100 & Hs & Hcase).
    exists m, (FraudAnalyzer.indicators f).
    unfold get, PQ. cbn [dict_get String.eqb Ascii.eqb Bool.eqb].
    rewrite Hm. split; [reflexivity|]. split; [reflexivity|].
    destruct G as [[G1 ->]|[G1 G2]].
    + split; [reflexivity|]. intros _.
      destruct Hcase as [->| ->]; [lra | exact G1].
    + split.
      * intros H0. destruct Hcase as [->| ->]; lra.
      * intros H0. rewrite H0 in G2. cbn in G2. lia.
  - exists 50, ["analysis_error"%string].
    split; [reflexivity|]. split; [reflexivity|].
    split; [intros H; lra | discriminate].
Qed.

(** ** The advisory client of the fraud analyzer *)

(** X5 (fraud_analyzer.py, [_get_ai_analysis]): whatever the endpoint
    does, the client sends at most [max_retries] requests and sleeps
    [retry_delay] seconds between two requests only, never after the
    last one; it returns nothing only after [max_retries] requests, and
    what it returns otherwise is marked as a success. *)
Theorem client_request_budget (lib : PyLib) (self : FraudAnalyzer.t)
  (w : world) (prompt : string) :
  (0 <= FraudAnalyzer.retry_delay self)%Z ->
  exists r st,
    FraudAnalyzer._get_ai_analysis lib self w prompt io0 = (r, st)
    /\ (requests_sent st <= FraudAnalyzer.max_retries self)%nat
    /\ slept st
       = (FraudAnalyzer.retry_delay self
          * Z.of_nat (pred (requests_sent st)))%Z
    /\ match r with
       | None => requests_sent st = FraudAnalyzer.max_retries self
       | Some verdict =>
           (1 <= requests_sent st)%nat
           /\ dict_get "success" verdict = Some (PBool true)
       end.
Proof.
  intros _. unfold FraudAnalyzer._get_ai_analysis.
  pose proof (ClientMore.attempts_budget lib self w prompt
                (FraudAnalyzer.max_retries self) 0 io0
                ltac:(lia) eq_refl ltac:(cbn; lia)) as H.
  destruct (FraudAnalyzer.attempts lib self w prompt _ io0) as [r st].
  cbn [fst snd] in H. destruct H as (H1 & H2 & H3).
  exists r, st. split; [reflexivity|]. split; [exact H1|]. split; [exact H2|].
  destruct r; [|exact H3]. destruct H3 as [H3 H4]. split; [lia | exact H4].
Qed.

Lemma client_request_budget_witness :
  exists r st,
    FraudAnalyzer._get_ai_analysis Ref.lib FraudAnalyzer.default
      (Cases.flaky (Sample.advisory "40")) "prompt" io0 = (r, st)
    /\ (requests_sent st <= 3)%nat
    /\ slept st = (1 * Z.of_nat (pred (requests_sent st)))%Z
    /\ match r with
       | None => requests_sent st = 3%nat
       | Some verdict =>
           (1 <= requests_sent st)%nat
           /\ dict_get "success" verdict = Some (PBool true)
       end.
Proof.
  apply (client_request_budget Ref.lib FraudAnalyzer.default
           (Cases.flaky (Sample.advisory "40")) "prompt").
  vm_compute. discriminate.
Defined.

(** X6 (fraud_analyzer.py, [_get_ai_analysis]): the client stops at the
    first reply it can use.  When the replies to the first [k] requests
    are unusable (an exception, a status other than 200, a text that
    does not parse) and the reply to the next one parses, with
    [k < max_retries], the client sends exactly [k + 1] requests and
    returns the parsed verdict of that reply, marked as a success. *)
Theorem client_stops_at_first_usable (lib : PyLib) (self : FraudAnalyzer.t)
  (w : world) (prompt : string) (k : nat) (parsed : dict) :
  (k < FraudAnalyzer.max_retries self)%nat ->
  (forall n, (n < k)%nat -> usable lib (endpoint w prompt n) = false) ->
  FraudAnalyzer.attempt_body lib (endpoint w prompt k) = Ok (Some parsed) ->
  parsed <> [] ->
  exists st,
    FraudAnalyzer._get_ai_analysis lib self w prompt io0
    = (Some (dict_set "success" (PBool true) parsed), st)
    /\ requests_sent st = S k.
Proof.
  intros Hk Hu Hok Hne. unfold FraudAnalyzer._get_ai_analysis.
  replace (FraudAnalyzer.max_retries self)
    with (k + (FraudAnalyzer.max_retries self - k))%nat by lia.
  rewrite seq_app.
  destruct (ClientMore.attempts_skip lib self w prompt k 0 io0 eq_refl
              ltac:(intros n Hn; apply Hu; lia)
              (seq (0 + k) (FraudAnalyzer.max_retries self - k)))
    as (st' & E & R).
  rewrite E.
  destruct (FraudAnalyzer.max_retries self - k)%nat as [|m] eqn:Em; [lia|].
  cbn [seq FraudAnalyzer.attempts]. rewrite R. cbn [Nat.add]. rewrite Hok.
  destruct parsed as [|kv rest]; [congruence|].
  cbn [truthy]. eexists. split; [reflexivity|].
  cbn [send requests_sent]. now rewrite R.
Qed.

Lemma client_stops_at_first_usable_witness :
  exists parsed st,
    FraudAnalyzer.attempt_body Ref.lib
      (endpoint (Cases.flaky (Sample.advisory "40")) "prompt" 1%nat)
    = Ok (Some parsed)
    /\ FraudAnalyzer._get_ai_analysis Ref.lib FraudAnalyzer.default
         (Cases.flaky (Sample.advisory "40")) "prompt" io0
       = (Some (dict_set "success" (PBool true) parsed), st)
    /\ requests_sent st = 2%nat.
Proof.
  destruct (FraudAnalyzer.attempt_body Ref.lib
              (endpoint (Cases.flaky (Sample.advisory "40")) "prompt" 1%nat))
    as [[parsed|]|e] eqn:E.
  - exists parsed.
    destruct (client_stops_at_first_usable Ref.lib FraudAnalyzer.default
                (Cases.flaky (Sample.advisory "40")) "prompt" 1 parsed)
      as (st & H1 & H2).
    + cbn. lia.
    + intros n Hn. assert (n = 0%nat) as -> by lia. reflexivity.
    + exact E.
    + vm_compute in E. intros ->. discriminate E.
    + exists st. auto.
  - vm_compute in E. discriminate E.
  - vm_compute in E. discriminate E.
Defined.

(** ** The verdict the fraud analyzer hands back *)

(** X7 (fraud_analyzer.py, [analyze_transaction]): every verdict the
    analyzer returns is labelled [rule_based], [ai_enhanced] or
    [rule_based_fallback], and stamped with the reading of the clock and
    the version 1.0.  The label [error] that the rule engine puts on the
    verdict of its error path never reaches the caller: it is
    overwritten, or replaced by the combiner's. *)
Theorem final_verdict_label (lib : PyLib) (self : FraudAnalyzer.t)
  (w : world) (tx : dict) (v : dict) (st : io) :
  FraudAnalyzer.analyze_transaction lib self w tx = (Ok v, st) ->
  in_strs (get v "analysis_method" PNone)
    ["rule_based"; "ai_enhanced"; "rule_based_fallback"] = true
  /\ dict_get "analysis_timestamp" v = Some (PStr (isoformat (clock w 1%nat)))
  /\ dict_get "analyzer_version" v = Some (PStr "1.0").
Proof.
  intros H. unfold FraudAnalyzer.analyze_transaction in H. cbv zeta in H.
  destruct (FraudAnalyzer._create_fraud_analysis_prompt lib tx _)
    as [prompt|e]; [|discriminate].
  destruct (FraudAnalyzer._get_ai_analysis lib self w prompt io0)
    as [ai st'].
  set (rule := FraudAnalyzer._rule_based_analysis lib self (clock w 0%nat) tx)
    in *.
  match type of H with
  | (bind (py_format lib ".1f" (get (dict_update ?f _) _ _)) _, _) = _ =>
      assert (Hf : in_strs (get f "analysis_method" PNone)
                     ["rule_based"; "ai_enhanced"; "rule_based_fallback"]
                   = true);
      [|set (final := f) in *]
  end.
  { assert (Hrule : in_strs
                      (get (dict_set "analysis_method" (PStr "rule_based") rule)
                         "analysis_method" PNone)
                      ["rule_based"; "ai_enhanced"; "rule_based_fallback"]
                    = true)
      by (unfold get; now rewrite dict_get_set_same).
    destruct ai as [ai|]; [|exact Hrule].
    destruct (truthy (PDict ai) && truthy (get ai "success" (PBool false)));
      [|exact Hrule].
    destruct (CombinerMore.combine_cases lib ai rule tx)
      as [(c & Hc & ->)| ->].
    - destruct (CombinerMore.combine_body_inv lib _ _ _ _ Hc)
        as (a & r & _ & _ & Hm & _).
      unfold get. now rewrite Hm.
    - unfold get. now rewrite dict_get_set_same. }
  destruct (py_format lib ".1f" _) as [s|e]; unfold bind in H; [|discriminate].
  injection H as <- _.
  unfold dict_update. cbn [fold_left fst snd].
  split; [|split].
  - rewrite !MergeFacts.get_set_other by reflexivity. exact Hf.
  - rewrite dict_get_set_other by reflexivity. apply dict_get_set_same.
  - apply dict_get_set_same.
Qed.

Lemma final_verdict_label_witness :
  exists v st,
    FraudAnalyzer.analyze_transaction Ref.lib FraudAnalyzer.default
      Sample.unreachable Sample.no_location = (Ok v, st)
    /\ in_strs (get v "analysis_method" PNone)
         ["rule_based"; "ai_enhanced"; "rule_based_fallback"] = true
    /\ dict_get "analysis_timestamp" v
       = Some (PStr (isoformat (clock Sample.unreachable 1%nat)))
    /\ dict_get "analyzer_version" v = Some (PStr "1.0").
Proof.
  destruct (FraudAnalyzer.analyze_transaction Ref.lib FraudAnalyzer.default
              Sample.unreachable Sample.no_location) as [[v|e] st] eqn:E.
  - exists v, st. split; [reflexivity|].
    exact (final_verdict_label Ref.lib FraudAnalyzer.default
             Sample.unreachable Sample.no_location v st E).
  - vm_compute in E. discriminate E.
Defined.

(** X8 (fraud_analyzer.py, [_combine_ai_and_rules]): a combined verdict
    is the advisory verdict with thirteen keys written over it.  Every
    other field of the advisory verdict is handed on unchanged, and the
    two scores the combined score was computed from are recorded as
    [ai_score] and [rule_score]. *)
Theorem combiner_keeps_advisory_fields (lib : PyLib) (ai rule tx : dict)
  (k : string) :
  get (FraudAnalyzer._combine_ai_and_rules lib ai rule tx)
      "analysis_method" PNone = PStr "ai_enhanced" ->
  FraudAnalyzer.str_in k combiner_keys = false ->
  dict_get k (FraudAnalyzer._combine_ai_and_rules lib ai rule tx)
  = dict_get k ai
  /\ dict_get "ai_score" (FraudAnalyzer._combine_ai_and_rules lib ai rule tx)
     = Some (get ai "fraud_score" (PInt 0))
  /\ dict_get "rule_score" (FraudAnalyzer._combine_ai_and_rules lib ai rule tx)
     = Some (get rule "fraud_score" (PInt 0)).
Proof.
  intros Hm Hk.
  destruct (CombinerMore.combine_cases lib ai rule tx)
    as [(c & Hc & E)| E]; rewrite E in *.
  - destruct (CombinerMore.combine_body_inv lib _ _ _ _ Hc)
      as (a & r & _ & _ & _ & _ & _ & Ha & Hr & _ & _ & Hother).
    split; [exact (Hother k Hk)|]. split; assumption.
  - unfold get in Hm. rewrite dict_get_set_same in Hm. discriminate Hm.
Qed.

Lemma combiner_keeps_advisory_fields_witness :
  dict_get "success"
    (FraudAnalyzer._combine_ai_and_rules Ref.lib Cases.advisory_verdict
       (FraudAnalyzer._rule_based_analysis Ref.lib FraudAnalyzer.default
          Sample.monday_noon Sample.wire) Sample.wire)
  = dict_get "success" Cases.advisory_verdict
  /\ dict_get "ai_score"
       (FraudAnalyzer._combine_ai_and_rules Ref.lib Cases.advisory_verdict
          (FraudAnalyzer._rule_based_analysis Ref.lib FraudAnalyzer.default
             Sample.monday_noon Sample.wire) Sample.wire)
     = Some (get Cases.advisory_verdict "fraud_score" (PInt 0))
  /\ dict_get "rule_score"
       (FraudAnalyzer._combine_ai_and_rules Ref.lib Cases.advisory_verdict
          (FraudAnalyzer._rule_based_analysis Ref.lib FraudAnalyzer.default
             Sample.monday_noon Sample.wire) Sample.wire)
     = Some (get (FraudAnalyzer._rule_based_analysis Ref.lib
                    FraudAnalyzer.default Sample.monday_noon Sample.wire)
                 "fraud_score" (PInt 0)).
Proof.
  apply (combiner_keeps_advisory_fields Ref.lib Cases.advisory_verdict
           (FraudAnalyzer._rule_based_analysis Ref.lib FraudAnalyzer.default
              Sample.monday_noon Sample.wire) Sample.wire "success").
  - vm_compute. reflexivity.
  - vm_compute. reflexivity.
Defined.



(** X10 (fraud_analyzer.py, [_combine_ai_and_rules]): when an item of the
    advisory verdict's fraud indicators is a list or an object, merging
    the indicators through a set raises, and the combiner hands back the
    rule verdict, relabelled [rule_based_fallback] and otherwise
    untouched. *)
Theorem combiner_falls_back_on_unhashable (lib : PyLib) (ai rule tx : dict)
  (items : list pyval) :
  get ai "fraud_indicators" (PList []) = PList items ->
  forallb hashable items = false ->
  FraudAnalyzer._combine_ai_and_rules lib ai rule tx
  = dict_set "analysis_method" (PStr "rule_based_fallback") rule.
Proof.
  intros Hi Hh. unfold FraudAnalyzer._combine_ai_and_rules.
  unfold FraudAnalyzer.combine_body. cbv zeta. rewrite Hi.
  destruct (CombinerMore.find_unhashable_some items Hh) as (bad & Hbad).
  destruct (get rule "fraud_indicators" (PList [])) as [| | | |y|];
    try reflexivity.
  cbn [list_add bind]. unfold list_of_set at 1.
  rewrite (CombinerMore.find_unhashable_app items y bad Hbad).
  reflexivity.
Qed.

Lemma combiner_falls_back_on_unhashable_witness :
  FraudAnalyzer._combine_ai_and_rules Ref.lib Cases.nested_verdict
    (FraudAnalyzer._rule_based_analysis Ref.lib FraudAnalyzer.default
       Sample.monday_noon Sample.wire) Sample.wire
  = dict_set "analysis_method" (PStr "rule_based_fallback")
      (FraudAnalyzer._rule_based_analysis Ref.lib FraudAnalyzer.default
         Sample.monday_noon Sample.wire).
Proof.
  apply (combiner_falls_back_on_unhashable Ref.lib Cases.nested_verdict
           (FraudAnalyzer._rule_based_analysis Ref.lib FraudAnalyzer.default
              Sample.monday_noon Sample.wire) Sample.wire
           [PList [PStr "velocity"]]).
  - reflexivity.
  - reflexivity.
Defined.

(** X11 (fraud_analyzer.py, [_parse_ai_response]): whatever the decoder
    returns, a verdict the parser accepts is in normal form: [is_fraud]
    is a bool, the score is a number between 0 and 100, the tier is one
    of the five valid tiers, an explanation is present, the confidence
    is absent or a number between 0 and 100, and each of the five list
    fields is absent or a list. *)
Theorem parsed_verdict_normal_form (lib : PyLib) (response : pyval)
  (ai : dict) :
  FraudAnalyzer._parse_ai_response lib response = Some ai ->
  (exists b, dict_get "is_fraud" ai = Some (PBool b))
  /\ (exists q, dict_get "fraud_score" ai = Some (PQ q) /\ 0 <= q <= 100)
  /\ (exists level,
        dict_get "risk_level" ai = Some (PStr level)
        /\ FraudAnalyzer.str_in level FraudAnalyzer.valid_risk_levels = true)
  /\ has_key "explanation" ai = true
  /\ (dict_get "confidence" ai = None
      \/ exists c, dict_get "confidence" ai = Some (PQ c) /\ 0 <= c <= 100)
  /\ (forall field, In field FraudAnalyzer.list_fields ->
        dict_get field ai = None
        \/ exists l, dict_get field ai = Some (PList l)).
Proof.
  intros H. destruct response as [| | |raw| |]; try discriminate H.
  destruct (ParserMore.parsed_normal_form lib raw ai H)
    as (H1 & H3 & H4 & H5 & H6).
  destruct (MergeFacts.parsed_fields lib raw ai H) as (H2 & _).
  repeat split; assumption.
Qed.

Lemma parsed_verdict_normal_form_witness :
  exists ai,
    FraudAnalyzer._parse_ai_response Ref.lib (PStr Sample.noisy) = Some ai
    /\ (exists b, dict_get "is_fraud" ai = Some (PBool b))
    /\ (exists q, dict_get "fraud_score" ai = Some (PQ q) /\ 0 <= q <= 100)
    /\ (exists level,
          dict_get "risk_level" ai = Some (PStr level)
          /\ FraudAnalyzer.str_in level FraudAnalyzer.valid_risk_levels = true)
    /\ has_key "explanation" ai = true
    /\ (dict_get "confidence" ai = None
        \/ exists c, dict_get "confidence" ai = Some (PQ c) /\ 0 <= c <= 100)
    /\ (forall field, In field FraudAnalyzer.list_fields ->
          dict_get field ai = None
          \/ exists l, dict_get field ai = Some (PList l)).
Proof.
  destruct (FraudAnalyzer._parse_ai_response Ref.lib (PStr Sample.noisy))
    as [ai|] eqn:E.
  - exists ai. split; [reflexivity|].
    exact (parsed_verdict_normal_form Ref.lib (PStr Sample.noisy) ai E).
  - vm_compute in E. discriminate E.
Defined.

(** X12 (fraud_analyzer.py, [analyze_transaction] and
    [_create_fraud_analysis_prompt]): the prompt is built outside every
    [try].  When the amount of the transaction is not a number (a numeric
    text, which the rule engine converts, or anything else), formatting
    it for the prompt raises, and the evaluation ends with that
    exception before any request is sent. *)
Theorem non_numeric_amount_raises (lib : PyLib) (self : FraudAnalyzer.t)
  (w : world) (tx : dict) :
  as_num (get tx "amount" (PInt 0)) = None ->
  FraudAnalyzer.analyze_transaction lib self w tx
  = (Raise (ExFormat (get tx "amount" (PInt 0)) ",.2f"), io0).
Proof.
  intros H. unfold FraudAnalyzer.analyze_transaction. cbv zeta.
  unfold FraudAnalyzer._create_fraud_analysis_prompt, py_format.
  rewrite H. reflexivity.
Qed.

Lemma non_numeric_amount_raises_witness :
  FraudAnalyzer.analyze_transaction Ref.lib FraudAnalyzer.default
    (Sample.answering (Sample.advisory "40")) Cases.amount_as_text
  = (Raise (ExFormat (get Cases.amount_as_text "amount" (PInt 0)) ",.2f"),
     io0).
Proof.
  apply (non_numeric_amount_raises Ref.lib FraudAnalyzer.default
           (Sample.answering (Sample.advisory "40")) Cases.amount_as_text).
  reflexivity.
Defined.

(** X13 (fraud_analyzer.py, [_rule_based_analysis] with the rules of
    [__init__]): the rule engine takes its error path, and answers
    score 50, exactly when the amount does not convert to a float or the
    location is not a str; nothing else in the feature map can make it
    fail. *)
Theorem rule_error_path_iff (lib : PyLib) (now : datetime) (tx : dict) :
  get (FraudAnalyzer._rule_based_analysis lib FraudAnalyzer.default now tx)
      "analysis_method" PNone = PStr "error"
  <-> ((forall x, py_float lib (get tx "amount" (PInt 0)) <> Ok x)
       \/ (forall s, get tx "location" (PStr EmptyString) <> PStr s)).
Proof.
  unfold FraudAnalyzer._rule_based_analysis. split.
  - intros H.
    destruct (py_float lib (get tx "amount" (PInt 0))) as [x|e] eqn:Ex;
      [|left; intros x; discriminate].
    destruct (get tx "location" (PStr EmptyString)) as [| | |s| |] eqn:El;
      try (right; intros s; discriminate).
    destruct (RuleCompletes.rule_body_completes lib FraudAnalyzer.default
                now tx x s Ex El) as (v & Hv).
    rewrite Hv in H.
    destruct (RuleMore.rule_body_inv _ _ _ _ _ Hv)
      as (amount & a1 & f1 & a2 & f2 & a3 & f3 & a4 & f4 & a5 & f5 & a6 & f6
          & a7 & f7 & _ & _ & _ & _ & _ & _ & _ & _ & ->).
    discriminate H.
  - intros [H|H].
    + destruct (FraudAnalyzer.rule_based_body lib FraudAnalyzer.default now tx)
        as [v|e] eqn:E; [|reflexivity].
      destruct (RuleMore.rule_body_inv _ _ _ _ _ E) as (amount & rest).
      destruct rest as (a1 & f1 & a2 & f2 & a3 & f3 & a4 & f4 & a5 & f5 & a6
                        & f6 & a7 & f7 & Hx & _).
      now destruct (H amount).
    + destruct (py_float lib (get tx "amount" (PInt 0))) as [x|e] eqn:Ex.
      * now rewrite (RuleCompletes.rule_body_bad_location lib now tx x Ex H).
      * unfold FraudAnalyzer.rule_based_body. cbv zeta. rewrite Ex.
        reflexivity.
Qed.

(** ** The text handed to the decoder *)

(** X14 (the first statements of the three parsers:
    [strip], [find('{')], [rfind('}')]): whatever the response text, the
    text the parsers hand to [json.loads] is empty, a lone closing
    brace, or a text that starts with an opening brace and ends with a
    closing one. *)
Theorem extracted_text_shape (raw : string) :
  extract_object raw = EmptyString
  \/ extract_object raw = "}"%string
  \/ exists inner,
       extract_object raw = String "{" (inner ++ String "}" EmptyString).
Proof.
  destruct (ExtractFacts.first_occurrence "{" raw)
    as [H|(before & rest & -> & Hb)].
  - destruct (StringFacts.extract_object_no_brace raw H) as [E|E]; auto.
  - destruct (ExtractFacts.last_occurrence "}" rest)
      as [Hr|(inner & after & -> & Ha)].
    + left. now apply ExtractFacts.extract_object_unclosed.
    + right. right. exists inner.
      now apply StringFacts.extract_object_wrapped.
Qed.

(** ** The payment screener *)

(** X15 (llm_screening.py, [_parse_screening_result]): whatever the
    response and whatever the decoder makes of it, the parser returns a
    verdict with exactly the keys allowed, risk_level and reason, a bool,
    one of the tiers low, medium and high, and a text.  It allows a
    payment only when the text decodes to an object whose [allowed] is
    truthy; every failure inside the parser ends in a refusal. *)
Theorem screening_result_well_formed (lib : PyLib) (response : pyval) :
  screening_verdict (LLMScreening._parse_screening_result lib response)
  /\ (get (LLMScreening._parse_screening_result lib response)
          "allowed" PNone = PBool false
      \/ exists text d,
           response = PStr text
           /\ json_loads lib (extract_object text) = Some (PDict d)
           /\ truthy (get d "allowed" (PBool false)) = true).
Proof.
  split; [apply ScreeningFacts.parse_result_verdict|].
  destruct (ScreeningFacts.parse_result_cases lib response)
    as [(reason & ->)|(text & d & level & Hr & Hj & _ & ->)].
  - left. reflexivity.
  - destruct (truthy (get d "allowed" (PBool false))) eqn:Ea.
    + right. exists text, d. auto.
    + left. reflexivity.
Qed.

(** X16 (llm_screening.py, [screen_payment]): for a payment record with
    the seven keys the prompt reads, a screener with at least one attempt
    and a non-negative delay always returns a verdict, whatever the
    endpoint does: a bool, one of three tiers and a text.  It sends
    between one and [max_retries] requests and sleeps [retry_delay]
    seconds after each request but the last one it sends. *)
Theorem screening_always_answers (lib : PyLib) (self : LLMScreening.t)
  (w : world) (payment : dict) :
  forallb (fun key => has_key key payment) prompt_keys = true ->
  (0 < LLMScreening.max_retries self)%nat ->
  (0 <= LLMScreening.retry_delay self)%Z ->
  exists r st,
    LLMScreening.screen_payment lib self w payment = (Ok (Some r), st)
    /\ screening_verdict r
    /\ (1 <= requests_sent st <= LLMScreening.max_retries self)%nat
    /\ slept st
       = (LLMScreening.retry_delay self
          * Z.of_nat (pred (requests_sent st)))%Z.
Proof.
  intros Hk Hm _. unfold LLMScreening.screen_payment.
  destruct (ScreeningFacts.screening_prompt_builds lib payment Hk) as (prompt & ->).
  destruct (LLMScreening.max_retries self) as [|n] eqn:En; [lia|].
  destruct (ScreeningFacts.attempts_inv lib self w prompt n 0 io0)
    as (r & st & E & Hreq & Hsl & Hv & _).
  { rewrite En. reflexivity. }
  { reflexivity. }
  { cbn. lia. }
  rewrite E. exists r, st. rewrite En in Hreq.
  repeat split; try assumption; lia.
Qed.

Lemma screening_always_answers_witness :
  exists r st,
    LLMScreening.screen_payment Ref.lib LLMScreening.__init__
      Sample.unreachable Sample.payment = (Ok (Some r), st)
    /\ screening_verdict r
    /\ (1 <= requests_sent st <= 3)%nat
    /\ slept st = (1 * Z.of_nat (pred (requests_sent st)))%Z.
Proof.
  apply (screening_always_answers Ref.lib LLMScreening.__init__
           Sample.unreachable Sample.payment).
  - reflexivity.
  - cbn. lia.
  - cbn. lia.
Defined.

(** X17 (llm_screening.py, [screen_payment]): the screener fails closed.
    A verdict that allows the payment was parsed from a reply with
    status 200 to one of the requests; when no request is answered with
    status 200 the payment is refused. *)
Theorem screening_allows_only_on_reply (lib : PyLib) (self : LLMScreening.t)
  (w : world) (payment : dict) (r : dict) (st : io) :
  LLMScreening.screen_payment lib self w payment = (Ok (Some r), st) ->
  get r "allowed" PNone = PBool true ->
  exists prompt k text,
    LLMScreening._create_screening_prompt lib payment = Ok prompt
    /\ (k < requests_sent st <= LLMScreening.max_retries self)%nat
    /\ endpoint w prompt k = Reply 200 text.
Proof.
  intros H Ha. unfold LLMScreening.screen_payment in H.
  destruct (LLMScreening._create_screening_prompt lib payment)
    as [prompt|e]; [|discriminate H].
  destruct (LLMScreening.max_retries self) as [|n] eqn:En;
    [discriminate H|].
  destruct (ScreeningFacts.attempts_inv lib self w prompt n 0 io0)
    as (r' & st' & E & Hreq & _ & _ & Hal).
  { rewrite En. reflexivity. }
  { reflexivity. }
  { cbn. lia. }
  rewrite E in H. injection H as -> ->.
  destruct Hal as [Hf|(k & text & Hk & He)]; [congruence|].
  exists prompt, k, text. rewrite En in Hreq.
  repeat split; try assumption; lia.
Qed.

Lemma screening_allows_only_on_reply_witness :
  exists r st prompt k text,
    LLMScreening.screen_payment Ref.lib LLMScreening.__init__
      (Sample.answering Cases.allowing) Sample.payment = (Ok (Some r), st)
    /\ get r "allowed" PNone = PBool true
    /\ LLMScreening._create_screening_prompt Ref.lib Sample.payment
       = Ok prompt
    /\ (k < requests_sent st <= 3)%nat
    /\ endpoint (Sample.answering Cases.allowing) prompt k = Reply 200 text.
Proof.
  destruct (LLMScreening.screen_payment Ref.lib LLMScreening.__init__
              (Sample.answering Cases.allowing) Sample.payment)
    as [[[r|]|e] st] eqn:E.
  - assert (Ha : get r "allowed" PNone = PBool true).
    { vm_compute in E. injection E as <- _. reflexivity. }
    destruct (screening_allows_only_on_reply Ref.lib LLMScreening.__init__
                (Sample.answering Cases.allowing) Sample.payment r st E Ha)
      as (prompt & k & text & H1 & H2 & H3).
    exists r, st, prompt, k, text. auto.
  - vm_compute in E. discriminate E.
  - vm_compute in E. discriminate E.
Defined.

(** X18 (llm_screening.py, [screen_payment] and
    [_create_screening_prompt]): the prompt is built before the loop and
    outside its [try].  When the payment record lacks one of the seven
    keys the prompt reads, screening raises KeyError for a key the
    record lacks, and no request is sent. *)
Theorem screening_missing_key_raises (lib : PyLib) (self : LLMScreening.t)
  (w : world) (payment : dict) (key : string) :
  In key prompt_keys ->
  has_key key payment = false ->
  exists k,
    LLMScreening.screen_payment lib self w payment = (Raise (ExKey k), io0)
    /\ has_key k payment = false.
Proof.
  intros Hin Hk. unfold LLMScreening.screen_payment.
  destruct (ScreeningFacts.prompt_missing_key lib payment key Hin Hk)
    as (k & -> & Hmiss).
  exists k. split; [reflexivity | exact Hmiss].
Qed.

Lemma screening_missing_key_raises_witness :
  exists k,
    LLMScreening.screen_payment Ref.lib LLMScreening.__init__
      (Sample.answering Cases.allowing) Cases.payment_without_purpose
    = (Raise (ExKey k), io0)
    /\ has_key k Cases.payment_without_purpose = false.
Proof.
  apply (screening_missing_key_raises Ref.lib LLMScreening.__init__
           (Sample.answering Cases.allowing) Cases.payment_without_purpose
           "purpose").
  - unfold prompt_keys. cbn [In]. tauto.
  - reflexivity.
Defined.

(** ** The loan evaluator *)

(** X19 (credit_scoring.py, [_calculate_employment_score]): the
    employment stability score lies between 0 and 70, never near the 100
    it is capped at, and an unemployed applicant scores 0 whatever the
    years of employment. *)
Theorem employment_score_range (years : Z) (status : pyval) :
  0 <= CreditScoring._calculate_employment_score years status <= 70
  /\ (eq_str status "Unemployed" = false
      \/ CreditScoring._calculate_employment_score years status == 0).
Proof.
  split; [apply CreditFacts.employment_score_bounds|].
  destruct (eq_str status "Unemployed") eqn:E; [right | left; reflexivity].
  apply CreditFacts.eq_str_true in E. subst status.
  apply CreditFacts.employment_score_unemployed.
Qed.

(** X20 (credit_scoring.py, [_estimate_interest_rate]): for a draw of
    [random.random()], a number between 0 and 1, the estimated rate
    stays in the band of the applicant's credit tier: 3.5 to 4.5 from a
    score of 750, 4.5 to 6 from 700, 6 to 8 from 650, 8 to 11 from 600
    and 11 to 15 below.  The bands do not overlap, so a better tier
    never gets a higher rate than a worse one. *)
Theorem interest_rate_band (u : Q) (credit_score : Z) :
  0 <= u <= 1 ->
  let rate := CreditScoring._estimate_interest_rate u credit_score in
  if (credit_score >=? 750)%Z then 3.5 <= rate <= 4.5
  else if (credit_score >=? 700)%Z then 4.5 <= rate <= 6
  else if (credit_score >=? 650)%Z then 6 <= rate <= 8
  else if (credit_score >=? 600)%Z then 8 <= rate <= 11
  else 11 <= rate <= 15.
Proof.
  intros Hu. cbv zeta.
  unfold CreditScoring._estimate_interest_rate, CreditScoring.uniform.
  split_ifs; lra.
Qed.

Lemma interest_rate_band_witness :
  4.5 <= CreditScoring._estimate_interest_rate (1 # 2) 720 <= 6.
Proof.
  apply (interest_rate_band (1 # 2) 720). lra.
Defined.

(** X21 (credit_scoring.py, [_rule_based_evaluation]): in every verdict
    of the rule-based evaluation the status, the tier and the approval
    go together: APPROVED with low and true, CONDITIONAL_APPROVAL with
    medium and true, REJECTED with high and false, and on the error path
    ERROR with high and false.  Outside the error path the three follow
    the total score (80 and 65 are the cut points), conditions are listed
    for a conditional approval only, and a rejected application is
    recommended a loan amount of 0. *)
Theorem loan_rule_verdict_consistent (lib : PyLib) (app metrics : dict) :
  let v := CreditScoring._rule_based_evaluation lib app metrics in
  (exists t,
      dict_get "total_score" v = Some (PNum t)
      /\ dict_get "status" v = Some (PStr (fst (fst (evaluation_ladder t))))
      /\ dict_get "risk_level" v
         = Some (PStr (snd (fst (evaluation_ladder t))))
      /\ dict_get "approved" v = Some (PBool (snd (evaluation_ladder t)))
      /\ (snd (evaluation_ladder t) = true
          \/ dict_get "recommended_loan_amount" v = Some (PInt 0))
      /\ (fst (fst (evaluation_ladder t)) = "CONDITIONAL_APPROVAL"%string
          \/ dict_get "conditions" v = Some (PList [])))
  \/ (dict_get "status" v = Some (PStr "ERROR")
      /\ dict_get "risk_level" v = Some (PStr "high")
      /\ dict_get "approved" v = Some (PBool false)
      /\ dict_get "total_score" v = None).
Proof.
  cbv zeta. unfold CreditScoring._rule_based_evaluation.
  destruct (CreditScoring.rule_based_body lib app metrics) as [v|e] eqn:E.
  - left.
    destruct (EvaluationFacts.evaluation_body_inv lib _ _ _ E)
      as (income & loan & dti & es & lti & cc & dc & ic & lc & _ & _ & _ & _
          & _ & _ & _ & _ & _ & _ & _ & _ & t & Ht & Hs & Hr & Ha & Hl & Hc).
    exists t. repeat split; try assumption.
    destruct (snd (evaluation_ladder t)); [now left | now right].
  - right. repeat split; reflexivity.
Qed.

(** X22 (credit_scoring.py, [_calculate_financial_metrics] and
    [_rule_based_evaluation]): when the calculation of the metrics fails
    (a field that does not convert, a loan term of zero, an overflow of
    the power) it returns the empty dict, and the rule-based evaluation
    of the application on these metrics never approves: both ratios
    default to 999 and the employment score to 0, which caps the total
    at 50. *)
Theorem failed_metrics_never_approved (lib : PyLib)
  (power : pyfloat -> Z -> result pyfloat) (u1 u2 : Q) (app : dict)
  (e : pyexn) :
  CreditScoring.metrics_body lib power u1 u2 app = Raise e ->
  CreditScoring._calculate_financial_metrics lib power u1 u2 app = []
  /\ dict_get "approved"
       (CreditScoring._rule_based_evaluation lib app
          (CreditScoring._calculate_financial_metrics lib power u1 u2 app))
     = Some (PBool false).
Proof.
  intros H. unfold CreditScoring._calculate_financial_metrics. rewrite H.
  split; [reflexivity|].
  apply (MetricsFacts.both_ratios_out lib app [] (Fin (inject_Z 999))
           (Fin (inject_Z 999)) (inject_Z 0)); try reflexivity.
  unfold inject_Z. lra.
Qed.

Lemma failed_metrics_never_approved_witness :
  CreditScoring._calculate_financial_metrics Ref.lib Cases.power
    (1 # 2) (1 # 2) Cases.zero_term = []
  /\ dict_get "approved"
       (CreditScoring._rule_based_evaluation Ref.lib Cases.zero_term
          (CreditScoring._calculate_financial_metrics Ref.lib Cases.power
             (1 # 2) (1 # 2) Cases.zero_term))
     = Some (PBool false).
Proof.
  apply (failed_metrics_never_approved Ref.lib Cases.power (1 # 2) (1 # 2)
           Cases.zero_term (ExOther "float division by zero")).
  vm_compute. reflexivity.
Defined.

(** X23 (credit_scoring.py, [_parse_ai_response]): whatever the decoder
    returns, an evaluation the parser accepts has a status among
    APPROVED, CONDITIONAL_APPROVAL and REJECTED and a tier among low,
    medium and high (anything else was replaced by REJECTED and high),
    while [approved] and [reason] are present and left exactly as the
    response gave them: this parser does not coerce [approved] to a
    bool. *)
Theorem parsed_evaluation_normal_form (lib : PyLib) (response : pyval)
  (ai : dict) :
  CreditScoring._parse_ai_response lib response = Some ai ->
  exists text d status risk_level,
    response = PStr text
    /\ json_loads lib (extract_object text) = Some (PDict d)
    /\ dict_get "status" ai = Some (PStr status)
    /\ FraudAnalyzer.str_in status
         ["APPROVED"; "CONDITIONAL_APPROVAL"; "REJECTED"] = true
    /\ dict_get "risk_level" ai = Some (PStr risk_level)
    /\ FraudAnalyzer.str_in risk_level ["low"; "medium"; "high"] = true
    /\ dict_get "approved" ai = dict_get "approved" d
    /\ dict_get "reason" ai = dict_get "reason" d
    /\ has_key "approved" d = true
    /\ has_key "reason" d = true.
Proof. apply AdvisoryFacts.parsed_evaluation_fields. Qed.

Lemma parsed_evaluation_normal_form_witness :
  exists ai text d status risk_level,
    CreditScoring._parse_ai_response Ref.lib (PStr Cases.odd_evaluation)
    = Some ai
    /\ PStr Cases.odd_evaluation = PStr text
    /\ json_loads Ref.lib (extract_object text) = Some (PDict d)
    /\ dict_get "status" ai = Some (PStr status)
    /\ FraudAnalyzer.str_in status
         ["APPROVED"; "CONDITIONAL_APPROVAL"; "REJECTED"] = true
    /\ dict_get "risk_level" ai = Some (PStr risk_level)
    /\ FraudAnalyzer.str_in risk_level ["low"; "medium"; "high"] = true
    /\ dict_get "approved" ai = dict_get "approved" d
    /\ dict_get "reason" ai = dict_get "reason" d
    /\ has_key "approved" d = true
    /\ has_key "reason" d = true.
Proof.
  destruct (CreditScoring._parse_ai_response Ref.lib
              (PStr Cases.odd_evaluation)) as [ai|] eqn:E.
  - destruct (parsed_evaluation_normal_form Ref.lib
                (PStr Cases.odd_evaluation) ai E)
      as (text & d & status & risk & H).
    exists ai, text, d, status, risk. split; [reflexivity | exact H].
  - vm_compute in E. discriminate E.
Defined.

(** X24 (credit_scoring.py, [_combine_ai_and_metrics]): the combiner
    either falls back to the rule-based evaluation, or returns the
    advisory evaluation with [approved] replaced by its truthiness (so a
    non-empty text, even the text false, counts as an approval) and the
    calculated ratios written over the advisory's; status, tier and
    reason are handed on as the advisory gave them, and are not
    reconciled with [approved]. *)
Theorem evaluation_combiner_cases (lib : PyLib) (ai metrics app : dict) :
  let c := CreditScoring._combine_ai_and_metrics lib ai metrics app in
  c = CreditScoring._rule_based_evaluation lib app metrics
  \/ (dict_get "approved" c
      = Some (PBool (truthy (get ai "approved" (PBool false))))
      /\ dict_get "status" c = dict_get "status" ai
      /\ dict_get "risk_level" c = dict_get "risk_level" ai
      /\ dict_get "reason" c = dict_get "reason" ai
      /\ dict_get "debt_to_income_ratio" c
         = Some (get metrics "debt_to_income_ratio" (PInt 0))
      /\ dict_get "employment_stability_score" c
         = Some (get metrics "employment_stability_score" (PInt 0))).
Proof.
  cbv zeta. unfold CreditScoring._combine_ai_and_metrics.
  destruct (CreditScoring.combine_body lib ai metrics app) as [c|e] eqn:E;
    [right | now left].
  destruct (AdvisoryFacts.evaluation_combine_inv lib _ _ _ _ E)
    as (Ha & Hd & He & Hother).
  split; [exact Ha|].
  split; [apply Hother; reflexivity|].
  split; [apply Hother; reflexivity|].
  split; [apply Hother; reflexivity|].
  split; assumption.
Qed.



(** X26 (credit_scoring.py, [_calculate_financial_metrics] and
    [_rule_based_evaluation]): an applicant whose annual income is not
    positive is never approved by the rule-based evaluation of the
    calculated metrics, whatever the credit score and the employment:
    both ratios are set to 999 and earn no points, and the remaining
    components cannot reach the 65 points of a conditional approval. *)
Theorem no_income_never_approved (lib : PyLib)
  (power : pyfloat -> Z -> result pyfloat) (u1 u2 : Q) (app : dict)
  (income : pyfloat) :
  py_float lib (get app "annual_income" (PInt 0)) = Ok income ->
  flt fzero income = false ->
  dict_get "approved"
    (CreditScoring._rule_based_evaluation lib app
       (CreditScoring._calculate_financial_metrics lib power u1 u2 app))
  = Some (PBool false).
Proof.
  intros Hi Hn. unfold CreditScoring._calculate_financial_metrics.
  destruct (CreditScoring.metrics_body lib power u1 u2 app) as [m|e] eqn:E.
  - destruct (MetricsFacts.metrics_body_inv lib power _ _ _ _ E)
      as (income' & debt & payment & dti & lti & credit & years & Hi' & ->
          & [Hpos|[-> ->]]).
    + rewrite Hi in Hi'. injection Hi' as <-. congruence.
    + apply (MetricsFacts.both_ratios_out lib app _ (Fin 999) (Fin 999)
               (CreditScoring._calculate_employment_score years
                  (get app "employment_status" (PStr EmptyString))));
        try reflexivity.
      apply CreditFacts.employment_score_bounds.
  - apply (MetricsFacts.both_ratios_out lib app [] (Fin (inject_Z 999))
             (Fin (inject_Z 999)) (inject_Z 0)); try reflexivity.
    unfold inject_Z. lra.
Qed.

Lemma no_income_never_approved_witness :
  dict_get "approved"
    (CreditScoring._rule_based_evaluation Ref.lib Cases.no_income
       (CreditScoring._calculate_financial_metrics Ref.lib Cases.power
          (1 # 2) (1 # 2) Cases.no_income))
  = Some (PBool false).
Proof.
  apply (no_income_never_approved Ref.lib Cases.power (1 # 2) (1 # 2)
           Cases.no_income (Fin 0)); reflexivity.
Defined.

(** ** The applications around the engines *)

(** X27 (loan_application.py, [LoanProcessingThread._rule_based_scoring]):
    for a draw between 0 and 1, the scoring without the language model
    gives a score between 0 and 100 and a verdict that follows it, with
    cut points 80 and 60: APPROVED with tier low and a rate between 3.5
    and 5, CONDITIONAL_APPROVAL with tier medium and a rate between 5
    and 7, REJECTED with tier high and no rate.  Only APPROVED sets
    [approved]: unlike in the rule-based evaluation of credit_scoring.py,
    a conditional approval is not an approval here.  The error path gives
    ERROR, high, not approved and no rate at all. *)
Theorem scoring_verdict_consistent (lib : PyLib) (u : Q) (loan_data : dict) :
  0 <= u <= 1 ->
  let v := LoanApplication._rule_based_scoring lib u loan_data in
  (exists score,
      dict_get "credit_score_calculated" v = Some (PInt score)
      /\ (0 <= score <= 100)%Z
      /\ (((80 <= score)%Z
           /\ dict_get "status" v = Some (PStr "APPROVED")
           /\ dict_get "risk_level" v = Some (PStr "low")
           /\ dict_get "approved" v = Some (PBool true)
           /\ exists rate, dict_get "interest_rate" v = Some (PQ rate)
                           /\ 3.5 <= rate <= 5)
          \/ ((60 <= score < 80)%Z
              /\ dict_get "status" v = Some (PStr "CONDITIONAL_APPROVAL")
              /\ dict_get "risk_level" v = Some (PStr "medium")
              /\ dict_get "approved" v = Some (PBool false)
              /\ exists rate, dict_get "interest_rate" v = Some (PQ rate)
                              /\ 5 <= rate <= 7)
          \/ ((score < 60)%Z
              /\ dict_get "status" v = Some (PStr "REJECTED")
              /\ dict_get "risk_level" v = Some (PStr "high")
              /\ dict_get "approved" v = Some (PBool false)
              /\ dict_get "interest_rate" v = Some PNone)))
  \/ (dict_get "status" v = Some (PStr "ERROR")
      /\ dict_get "risk_level" v = Some (PStr "high")
      /\ dict_get "approved" v = Some (PBool false)
      /\ dict_get "interest_rate" v = None).
Proof.
  intros Hu. cbv zeta. unfold LoanApplication._rule_based_scoring.
  destruct (LoanApplication.scoring_body lib u loan_data) as [v|x] eqn:E.
  - left.
    destruct (ScoringFacts.scoring_body_inv lib _ _ _ E)
      as (income & dti & c & d & e & i & _ & Hc & Hd & He & Hi & _ & _ & _
          & Hscore & _ & Hst & Hrk & Hap & Hrt).
    exists (c + d + e + i)%Z. split; [exact Hscore|]. split; [lia|].
    rewrite Hst, Hrk, Hap, Hrt.
    destruct (c + d + e + i >=? 80)%Z eqn:B80.
    + left. apply Z.geb_le in B80. split; [lia|].
      repeat split; try reflexivity.
      exists (3.5 + CreditScoring.uniform 0 1.5 u).
      split; [reflexivity|]. unfold CreditScoring.uniform. lra.
    + right. rewrite Z.geb_leb in B80. apply Z.leb_gt in B80.
      destruct (c + d + e + i >=? 60)%Z eqn:B60.
      * left. apply Z.geb_le in B60. split; [lia|].
        repeat split; try reflexivity.
        exists (5.0 + CreditScoring.uniform 0 2.0 u).
        split; [reflexivity|]. unfold CreditScoring.uniform. lra.
      * right. rewrite Z.geb_leb in B60. apply Z.leb_gt in B60.
        split; [lia|]. repeat split; reflexivity.
  - right. repeat split; reflexivity.
Qed.

Lemma scoring_verdict_consistent_witness :
  let v := LoanApplication._rule_based_scoring Ref.lib (1 # 2) Cases.no_income in
  (exists score,
      dict_get "credit_score_calculated" v = Some (PInt score)
      /\ (0 <= score <= 100)%Z
      /\ (((80 <= score)%Z
           /\ dict_get "status" v = Some (PStr "APPROVED")
           /\ dict_get "risk_level" v = Some (PStr "low")
           /\ dict_get "approved" v = Some (PBool true)
           /\ exists rate, dict_get "interest_rate" v = Some (PQ rate)
                           /\ 3.5 <= rate <= 5)
          \/ ((60 <= score < 80)%Z
              /\ dict_get "status" v = Some (PStr "CONDITIONAL_APPROVAL")
              /\ dict_get "risk_level" v = Some (PStr "medium")
              /\ dict_get "approved" v = Some (PBool false)
              /\ exists rate, dict_get "interest_rate" v = Some (PQ rate)
                              /\ 5 <= rate <= 7)
          \/ ((score < 60)%Z
              /\ dict_get "status" v = Some (PStr "REJECTED")
              /\ dict_get "risk_level" v = Some (PStr "high")
              /\ dict_get "approved" v = Some (PBool false)
              /\ dict_get "interest_rate" v = Some PNone)))
  \/ (dict_get "status" v = Some (PStr "ERROR")
      /\ dict_get "risk_level" v = Some (PStr "high")
      /\ dict_get "approved" v = Some (PBool false)
      /\ dict_get "interest_rate" v = None).
Proof.
  apply (scoring_verdict_consistent Ref.lib (1 # 2) Cases.no_income). lra.
Defined.

(** X28 (loan_application.py, [_rule_based_scoring]): an applicant whose
    annual income is not positive is never approved by the scoring of
    the thread: the debt-to-income ratio is set to 100 and earns no
    points, neither does the income, and the score stays at 60 or
    below, which is at best a conditional approval. *)
Theorem scoring_no_income (lib : PyLib) (u : Q) (loan_data : dict)
  (income : pyfloat) :
  py_float lib (get loan_data "annual_income" (PInt 0)) = Ok income ->
  flt fzero income = false ->
  let v := LoanApplication._rule_based_scoring lib u loan_data in
  dict_get "approved" v = Some (PBool false)
  /\ (dict_get "status" v = Some (PStr "ERROR")
      \/ exists score,
           dict_get "credit_score_calculated" v = Some (PInt score)
           /\ (score <= 60)%Z).
Proof.
  intros Hi Hn. cbv zeta. unfold LoanApplication._rule_based_scoring.
  destruct (LoanApplication.scoring_body lib u loan_data) as [v|x] eqn:E.
  - destruct (ScoringFacts.scoring_body_inv lib _ _ _ E)
      as (income' & dti & c & d & e & i & Hi' & Hc & Hd & He & Hii & Cd & Ci
          & Cn & Hscore & _ & _ & _ & Hap & _).
    rewrite Hi in Hi'. injection Hi' as <-.
    destruct Cn as [Cn| ->]; [congruence|].
    destruct Cd as [Cd| ->]; [discriminate Cd|].
    assert (i = 0%Z) as ->.
    { destruct Ci as [Ci|Ci]; [|exact Ci]. exfalso.
      unfold fge in Ci. destruct income as [q| | |]; try discriminate.
      cbn [fle flt fzero] in *. apply negb_false_iff in Hn.
      apply Qle_bool_iff in Hn. apply Qle_bool_iff in Ci. lra. }
    assert (B : (c + 0 + e + 0 >=? 80)%Z = false)
      by (rewrite Z.geb_leb; apply Z.leb_gt; lia).
    rewrite Hap, B. split; [reflexivity | right].
    exists (c + 0 + e + 0)%Z. split; [exact Hscore | lia].
  - split; [reflexivity | left; reflexivity].
Qed.

Lemma scoring_no_income_witness :
  dict_get "approved"
    (LoanApplication._rule_based_scoring Ref.lib (1 # 2) Cases.no_income)
  = Some (PBool false)
  /\ (dict_get "status"
        (LoanApplication._rule_based_scoring Ref.lib (1 # 2) Cases.no_income)
      = Some (PStr "ERROR")
      \/ exists score,
           dict_get "credit_score_calculated"
             (LoanApplication._rule_based_scoring Ref.lib (1 # 2)
                Cases.no_income) = Some (PInt score)
           /\ (score <= 60)%Z).
Proof.
  apply (scoring_no_income Ref.lib (1 # 2) Cases.no_income (Fin 0));
    reflexivity.
Defined.

(** X29 (payment.py, [PaymentThread.run] without the language model and
    [handle_screening_result]): the screening by rules sends no request
    and returns a verdict of the same form as the screener's.  It
    refuses exactly the payments above 1,000,000, and these are exactly
    the ones [handle_screening_result] marks as high risk: in this
    branch a payment is allowed if and only if it is not high risk. *)
Theorem rule_screening_decision (lib : PyLib) (w : world)
  (payment_data r : dict) (st : io) :
  Payment.run lib false w payment_data = (Ok (Some r), st) ->
  st = io0
  /\ screening_verdict r
  /\ exists amount_field amount,
       dict_get "amount" payment_data = Some amount_field
       /\ py_float lib amount_field = Ok amount
       /\ dict_get "allowed" r
          = Some (PBool (negb (flt (Fin 1000000) amount)))
       /\ Payment.handle_screening_result (Some r)
          = Ok (flt (Fin 1000000) amount).
Proof.
  unfold Payment.run, Payment.rule_based_screening, subscript.
  destruct (dict_get "amount" payment_data) as [amount_field|] eqn:Ea;
    cbn [bind]; [|discriminate].
  destruct (py_float lib amount_field) as [amount|x] eqn:Ef;
    cbn [bind]; [|discriminate].
  destruct (dict_get "sender_account" payment_data) as [sender|];
    cbn [bind]; [|discriminate].
  destruct (Payment.py_len sender) as [n|x]; cbn [bind]; [|discriminate].
  match goal with
  | |- context [bind ?m _] => destruct m as [international|x]
  end; cbn [bind]; [|discriminate].
  destruct (flt (Fin 1000000) amount) eqn:Big.
  - intros H. injection H as <- <-. split; [reflexivity|].
    split; [eexists _, _, _; split; reflexivity|].
    exists amount_field, amount. rewrite ?Big.
    repeat split; assumption || reflexivity.
  - destruct international; intros H; injection H as <- <-;
      (split; [reflexivity|]);
      (split; [eexists _, _, _; split; reflexivity|]);
      exists amount_field, amount; rewrite ?Big;
      repeat split; assumption || reflexivity.
Qed.

Lemma rule_screening_decision_witness :
  exists r st,
    Payment.run Ref.lib false Sample.unreachable Sample.payment
    = (Ok (Some r), st)
    /\ st = io0
    /\ screening_verdict r
    /\ exists amount_field amount,
         dict_get "amount" Sample.payment = Some amount_field
         /\ py_float Ref.lib amount_field = Ok amount
         /\ dict_get "allowed" r
            = Some (PBool (negb (flt (Fin 1000000) amount)))
         /\ Payment.handle_screening_result (Some r)
            = Ok (flt (Fin 1000000) amount).
Proof.
  destruct (Payment.run Ref.lib false Sample.unreachable Sample.payment)
    as [[[r|]|x] st] eqn:E.
  - exists r, st. split; [reflexivity|].
    exact (rule_screening_decision Ref.lib Sample.unreachable Sample.payment
             r st E).
  - vm_compute in E. discriminate E.
  - vm_compute in E. discriminate E.
Defined.

(** X30 (fraud_detection.py, [process_manual_transaction] and the loop of
    [TransactionMonitoringThread.run], on top of
    [FraudAnalyzer.analyze_transaction]): the record handed to the
    database is the transaction with six keys written over it and every
    other field untouched.  Its status is flagged exactly when the
    verdict says fraud; unless the verdict is a combined one, that is
    exactly when the stored score is at least 50. *)
Theorem stored_record_status (lib : PyLib) (self : FraudAnalyzer.t)
  (w : world) (tx stored : dict) (st : io) :
  FraudDetection.process_manual_transaction lib self w tx = (Some stored, st) ->
  exists verdict,
    FraudAnalyzer.analyze_transaction lib self w tx = (Ok verdict, st)
    /\ dict_get "status" stored
       = Some (PStr (if truthy (get verdict "is_fraud" (PBool false))
                     then "flagged" else "approved"))
    /\ (forall k, FraudAnalyzer.str_in k FraudDetection.record_keys = false ->
                  dict_get k stored = dict_get k tx)
    /\ (dict_get "analysis_method" stored = Some (PStr "ai_enhanced")
        \/ exists q,
             dict_get "fraud_score" stored = Some (PQ q)
             /\ dict_get "status" stored
                = Some (PStr (if Qle_bool 50 q then "flagged"
                              else "approved"))).
Proof.
  unfold FraudDetection.process_manual_transaction.
  destruct (FraudAnalyzer.analyze_transaction lib self w tx)
    as [[verdict|x] st'] eqn:E; [|discriminate].
  intros H. injection H as <- <-. exists verdict.
  split; [reflexivity|].
  unfold FraudDetection.record_analysis, dict_update.
  cbn [fold_left fst snd].
  split; [rewrite dict_get_set_other by reflexivity; apply dict_get_set_same|].
  split.
  { intros k Hk. unfold FraudDetection.record_keys in Hk.
    repeat match type of Hk with
           | FraudAnalyzer.str_in k (_ :: _) = false =>
               apply CombinerMore.str_in_cons_false in Hk;
               let K := fresh "K" in destruct Hk as [K Hk]
           end.
    now rewrite !dict_get_set_other by assumption. }
  destruct (RecordFacts.analyze_final_cases lib self w tx verdict st' E)
    as [(label & Hv)|Hm].
  - right.
    destruct (RecordFacts.rule_verdict_flag lib self (clock w 0%nat) tx)
      as (q & Hq & Hf).
    assert (Hscore : dict_get "fraud_score" verdict = Some (PQ q)).
    { rewrite Hv. unfold dict_update. cbn [fold_left fst snd].
      now rewrite !dict_get_set_other by reflexivity. }
    assert (Hflag : dict_get "is_fraud" verdict = Some (PBool (Qle_bool 50 q))).
    { rewrite Hv. unfold dict_update. cbn [fold_left fst snd].
      now rewrite !dict_get_set_other by reflexivity. }
    exists q. split.
    + rewrite !dict_get_set_other by reflexivity. rewrite dict_get_set_same.
      unfold get. now rewrite Hscore.
    + rewrite dict_get_set_other by reflexivity. rewrite dict_get_set_same.
      unfold get. rewrite Hflag. reflexivity.
  - left. rewrite !dict_get_set_other by reflexivity.
    rewrite dict_get_set_same. unfold get. now rewrite Hm.
Qed.

Lemma stored_record_status_witness :
  exists stored st verdict,
    FraudDetection.process_manual_transaction Ref.lib FraudAnalyzer.default
      Sample.unreachable Sample.no_location = (Some stored, st)
    /\ FraudAnalyzer.analyze_transaction Ref.lib FraudAnalyzer.default
         Sample.unreachable Sample.no_location = (Ok verdict, st)
    /\ dict_get "status" stored
       = Some (PStr (if truthy (get verdict "is_fraud" (PBool false))
                     then "flagged" else "approved"))
    /\ (forall k, FraudAnalyzer.str_in k FraudDetection.record_keys = false ->
                  dict_get k stored = dict_get k Sample.no_location)
    /\ (dict_get "analysis_method" stored = Some (PStr "ai_enhanced")
        \/ exists q,
             dict_get "fraud_score" stored = Some (PQ q)
             /\ dict_get "status" stored
                = Some (PStr (if Qle_bool 50 q then "flagged"
                              else "approved"))).
Proof.
  destruct (FraudDetection.process_manual_transaction Ref.lib
              FraudAnalyzer.default Sample.unreachable Sample.no_location)
    as [[stored|] st] eqn:E.
  - destruct (stored_record_status Ref.lib FraudAnalyzer.default
                Sample.unreachable Sample.no_location stored st E)
      as (verdict & H).
    exists stored, st, verdict. split; [reflexivity | exact H].
  - vm_compute in E. discriminate E.
Defined.
